(** * Store-monitoring report runner: uptime reconstruction and report jobs

    A shallow embedding of [backend/services/report_runner.py] and of the
    job endpoints of [backend/main.py], with the properties of the
    specification proved (or refuted) over it.

    Conventions of the embedding.
    - A UTC instant ([datetime] with [tzinfo = UTC]) is the integer number
      of microseconds since midnight of proleptic-Gregorian ordinal day 0;
      a [timedelta] is an integer number of microseconds.  Both have
      microsecond resolution in Python, so nothing is lost.
    - [timedelta.total_seconds()] returns a float.  The embedding keeps a
      number of seconds as the exact count of microseconds it stands for and
      does the sums exactly; the rounding error of binary floating point is
      outside the model.
    - A [dict] used as a map is a [gmap], a [set] is a [gset].
    - Code that may raise returns an [option]; [None] is the exception. *)

From Stdlib Require Import ZArith QArith Qcanon Qround Lia.
From stdpp Require Import gmap strings list sorting.

Local Open Scope Z_scope.

(** ** Time arithmetic *)

Module Time.

Definition MICROSECOND : Z := 1.
Definition SECOND : Z := 1000000.
Definition hours (h : Z) : Z := h * 3600 * SECOND.
Definition days (d : Z) : Z := d * 24 * 3600 * SECOND.

(** [timedelta / int]: CPython's [_divide_and_round], which rounds the
    quotient to the nearest microsecond, ties to even. *)
Definition _divide_and_round (a b : Z) : Z :=
  let q := a / b in
  let r := 2 * (a mod b) in
  let greater_than_half := if 0 <? b then b <? r else r <? b in
  if greater_than_half || ((r =? b) && (q mod 2 =? 1)) then q + 1 else q.

Definition timedelta_div (d k : Z) : Z := _divide_and_round d k.

End Time.

(** ** Interval algebra *)

Record TimeInterval := mkTimeInterval { start : Z; end_ : Z }.

Global Instance TimeInterval_eq_dec : EqDecision TimeInterval.
Proof. solve_decision. Defined.

(** [TimeInterval.overlap_seconds]: [max(0.0, (min(ends) - max(starts)))],
    as a count of microseconds. *)
Definition overlap_seconds (self other : TimeInterval) : Z :=
  let s := Z.max (start self) (start other) in
  let e := Z.min (end_ self) (end_ other) in
  let delta := e - s in
  Z.max 0 delta.

(** The half-open point set of an interval. *)
Definition covers (it : TimeInterval) (x : Z) : Prop := start it <= x < end_ it.

(** ** Status reconstruction *)

Module Reconstruction.
Import Time.

(** A fetched poll is the tuple [(timestamp_utc, status)]; a status
    interval is the tuple [(start, end, status)]. *)
Abbreviation poll := (Z * string)%type.
Abbreviation status_interval := (Z * Z * string)%type.

Definition clip (window_ext_start window_ext_end : Z) (iv : status_interval)
  : option status_interval :=
  let '(s, e, status) := iv in
  let s2 := Z.max s window_ext_start in
  let e2 := Z.min e window_ext_end in
  if e2 >? s2 then Some (s2, e2, status) else None.

(** [_build_status_intervals_for_window], loop by loop: the list [mids],
    then [intervals], then the clipped list. *)
Definition _build_status_intervals_for_window
    (polls : list poll) (window_start window_end margin : Z)
  : list status_interval :=
  match polls with
  | [] => []
  | _ :: _ =>
    let n := length polls in
    let mids :=
      (fun i : nat =>
         (polls !!! i).1
         + timedelta_div ((polls !!! (i + 1)%nat).1 - (polls !!! i).1) 2)
      <$> seq 0 (n - 1) in
    let intervals :=
      (fun i : nat =>
         let start := if (0 <? i)%nat then mids !!! (i - 1)%nat
                      else (polls !!! i).1 - margin in
         let end_ := if (i <? n - 1)%nat then mids !!! i
                     else (polls !!! i).1 + margin in
         (start, end_, (polls !!! i).2))
      <$> seq 0 n in
    let window_ext_start := window_start - margin in
    let window_ext_end := window_end + margin in
    omap (clip window_ext_start window_ext_end) intervals
  end.

(** *** The midpoint rule as the specification words it *)

Section MidpointRule.
Variable p : list poll.
Variables W_start W_end M : Z.

Definition t (i : nat) : Z := (p !!! i).1.
Definition n : nat := length p.

Definition mid (i : nat) : Z := t i + timedelta_div (t (i + 1) - t i) 2.

Definition start_ (i : nat) : Z :=
  if decide (0 < i)%nat then mid (i - 1) else t 0 - M.

Definition end__ (i : nat) : Z :=
  if decide (i < n - 1)%nat then mid i else t (n - 1) + M.

(** Interval [i], clipped to [[W.start - M, W.end + M]]; [None] when the
    clipped interval is empty. *)
Definition spec_interval (i : nat) : option status_interval :=
  let lo := Z.max (start_ i) (W_start - M) in
  let hi := Z.min (end__ i) (W_end + M) in
  if decide (lo < hi) then Some (lo, hi, (p !!! i).2) else None.

Definition spec_status_intervals : list status_interval :=
  omap spec_interval (seq 0 n).
End MidpointRule.

End Reconstruction.

(** ** Stored entities ([backend/models.py]) *)

Record Poll := mkPoll {
  poll_store_id : string;
  timestamp_utc : Z;
  poll_status : string }.

(** [day_of_week] is 0 for Monday; the two times of day are microseconds
    since local midnight. *)
Record BusinessHour := mkBusinessHour {
  bh_store_id : string;
  day_of_week : Z;
  start_time_local : Z;
  end_time_local : Z }.

(** [timezone_str] is a nullable column. *)
Record StoreTimezone := mkStoreTimezone {
  tz_store_id : string;
  timezone_str : option string }.

Record Report := mkReport {
  report_id : string;
  status : string;
  percent_complete : Qc;
  finished_at : option Z;
  csv_path : option string }.

(** What a read session sees: the three input tables, in storage order. *)
Record Session := mkSession {
  polls : list Poll;
  business_hours : list BusinessHour;
  store_timezones : list StoreTimezone }.

(** ** The collaborators the runner calls *)

(** [zoneinfo]: the zone database of the host.  [ZoneInfo key] is [None]
    when the constructor raises; [local_date tz u] is
    [u.astimezone(tz).date()] as a proleptic-Gregorian ordinal;
    [utc_of_local tz d] is [d.replace(tzinfo=tz).astimezone(UTC)] for the
    naive local datetime [d], counted in microseconds from ordinal day 0. *)
Class ZoneDatabase := {
  tzinfo : Type;
  ZoneInfo : string -> option tzinfo;
  local_date : tzinfo -> Z -> Z;
  utc_of_local : tzinfo -> Z -> Z }.

(** [concurrent.futures.as_completed]: the order in which the submitted
    futures finish.  Every future is yielded exactly once. *)
Class Scheduler := {
  as_completed : list string -> list string;
  as_completed_perm : forall futures, as_completed futures ≡ₚ futures }.

(** The host of the process: [datetime.now], whether the directory and
    file of an output path can be written, and for which stores the
    database session a worker opens for itself fails (any exception raised
    inside the worker). *)
Class Host := {
  wall_clock : Z;
  writable : string -> bool;
  session_fails : string -> bool }.

(** ** Python helpers *)

Module Py.

(** [x or d] on an optional string: [None] and the empty string are falsy. *)
Definition or_str (x : option string) (d : string) : string :=
  match x with
  | Some s => if decide (s = "") then d else s
  | None => d
  end.

(** [x or d] on an integer. *)
Definition or_int (x d : Z) : Z := if decide (x = 0) then d else x.

(** Truth value of an optional string. *)
Definition truthy (x : option string) : bool :=
  match x with
  | Some s => bool_decide (s <> "")
  | None => false
  end.

(** [str.lower] on the ASCII letters; bytes of other characters are kept,
    and no such character lowers to a letter of [active]. *)
Definition lower_ascii (c : Ascii.ascii) : Ascii.ascii :=
  let k := Ascii.N_of_ascii c in
  if ((65 <=? k) && (k <=? 90))%N then Ascii.ascii_of_N (k + 32) else c.

Fixpoint lower (s : string) : string :=
  match s with
  | EmptyString => EmptyString
  | String c s' => String (lower_ascii c) (lower s')
  end.

(** [sum] of a generator of integers. *)
Definition sum {A} (f : A -> Z) (l : list A) : Z :=
  foldl (fun acc x => acc + f x) 0 l.

(** [date.weekday()] of an ordinal: ordinal 1 (0001-01-01) is a Monday. *)
Definition weekday (ordinal : Z) : Z := (ordinal + 6) mod 7.

(** [datetime.combine(date, time)], naive. *)
Definition combine (ordinal time_of_day : Z) : Z :=
  Time.days ordinal + time_of_day.

(** [round(x, 2)] on the exact value: nearest multiple of 1/100, ties to
    the even one. *)
Definition round_half_even (x : Q) : Z :=
  let f := Qfloor x in
  let r := (x - inject_Z f)%Q in
  match (r ?= 1 # 2)%Q with
  | Lt => f
  | Gt => f + 1
  | Eq => if Z.even f then f else f + 1
  end.

Definition round2 (x : Qc) : Qc :=
  Q2Qc (inject_Z (round_half_even (x * 100)%Q) / 100)%Q.

End Py.

Definition DEFAULT_TZ : string := "America/Chicago".

(** ** Queries of the runner *)

(** [_ensure_aware_utc]: stored instants are already UTC instants in the
    embedding, so both branches are the identity. *)
Definition _ensure_aware_utc (dt : Z) : Z := dt.

(** [_get_now_from_db]: the latest poll, or the wall clock when there is
    none. *)
Definition _get_now_from_db (wall_clock : Z) (session : Session) : Z :=
  match timestamp_utc <$> polls session with
  | [] => wall_clock
  | ts :: rest => _ensure_aware_utc (foldl Z.max ts rest)
  end.

Definition add_all (ids : gset string) (rows : list string) : gset string :=
  foldl (fun ids row => ids ∪ {[ row ]}) ids rows.

(** [_gather_store_ids]: three [SELECT DISTINCT store_id], added to one
    set, then [sorted]. *)
Definition _gather_store_ids (session : Session) : list string :=
  let ids := ∅ in
  let ids := add_all ids (remove_dups (poll_store_id <$> polls session)) in
  let ids := add_all ids (remove_dups (bh_store_id <$> business_hours session)) in
  let ids := add_all ids (remove_dups (tz_store_id <$> store_timezones session)) in
  merge_sort String.le (elements ids).

(** Sorting by an integer key, stable: elements of equal key keep their
    order.  It stands for [list.sort(key=...)] and for [ORDER BY ... ASC]
    (where the database leaves the order of equal keys open). *)
Fixpoint insert_by {A} (key : A -> Z) (x : A) (l : list A) : list A :=
  match l with
  | [] => [x]
  | y :: l' =>
    if decide (key x <= key y) then x :: y :: l'
    else y :: insert_by key x l'
  end.

Definition sort_by {A} (key : A -> Z) (l : list A) : list A :=
  foldr (insert_by key) [] l.

Definition order_by_timestamp (l : list Poll) : list Poll :=
  sort_by timestamp_utc l.

Definition _fetch_polls_for_store (session : Session) (store_id : string)
    (window_start window_end margin : Z) : list (Z * string) :=
  let q :=
    order_by_timestamp
      (filter (fun r => timestamp_utc r <= window_end + margin)
         (filter (fun r => timestamp_utc r >= window_start - margin)
            (filter (fun r => poll_store_id r = store_id) (polls session)))) in
  (fun r => (_ensure_aware_utc (timestamp_utc r), poll_status r)) <$> q.

Definition _get_timezone_for_store (session : Session) (store_id : string)
  : string :=
  let tz_row :=
    head (filter (fun r => tz_store_id r = store_id) (store_timezones session)) in
  match tz_row with
  | Some r => Py.or_str (timezone_str r) DEFAULT_TZ
  | None => DEFAULT_TZ
  end.

(** ** Business-hours expansion *)

(** [biz_intervals.sort(key=lambda x: x.start)] *)
Definition sort_by_start (l : list TimeInterval) : list TimeInterval :=
  sort_by start l.

(** One round of the merge loop: [last = merged[-1]]; an interval that
    starts at or before [last.end] is absorbed by assigning [last.end],
    another one is appended. *)
Definition merge_step (merged : list TimeInterval) (it : TimeInterval)
  : list TimeInterval :=
  match last merged with
  | Some last_ =>
    if decide (start it <= end_ last_)
    then <[ (length merged - 1)%nat :=
              mkTimeInterval (start last_) (Z.max (end_ last_) (end_ it)) ]> merged
    else merged ++ [it]
  | None => merged ++ [it]
  end.

(** The merge of [_get_business_intervals_for_window] (the specification's
    [merge_sorted]): [merged = [seq[0]]], then one round per later element. *)
Definition merge_sorted (biz_intervals : list TimeInterval)
  : list TimeInterval :=
  match biz_intervals with
  | [] => []
  | first :: rest => foldl merge_step [first] rest
  end.

Section BusinessHours.
Context {zones : ZoneDatabase}.

(** The body of the inner [for bh in rows]: the schedule row [bh] on the
    local date [cur_date], converted to UTC and intersected with the
    window; [None] when nothing is left. *)
Definition expand_row (tz : tzinfo) (window_start_utc window_end_utc : Z)
    (cur_date : Z) (bh : BusinessHour) : option TimeInterval :=
  let s_local := Py.combine cur_date (start_time_local bh) in
  let e_local := Py.combine cur_date (end_time_local bh) in
  let e_local :=
    if decide (e_local <= s_local) then e_local + Time.days 1 else e_local in
  let s_utc := utc_of_local tz s_local in
  let e_utc := utc_of_local tz e_local in
  let interval_start := Z.max s_utc window_start_utc in
  let interval_end := Z.min e_utc window_end_utc in
  if decide (interval_end > interval_start)
  then Some (mkTimeInterval interval_start interval_end)
  else None.

Definition _get_business_intervals_for_window (session : Session)
    (store_id : string) (window_start_utc window_end_utc : Z)
    (tz_str : option string) : option (list TimeInterval) :=
  let tzname := Py.or_str tz_str DEFAULT_TZ in
  tz ← match ZoneInfo tzname with
       | Some tz => Some tz
       | None => ZoneInfo DEFAULT_TZ
       end;
  let bh_rows :=
    filter (fun bh => bh_store_id bh = store_id) (business_hours session) in
  match bh_rows with
  | [] => Some [mkTimeInterval window_start_utc window_end_utc]
  | _ :: _ =>
    let bh_by_dow : gmap Z (list BusinessHour) :=
      foldl (fun m bh =>
               <[ day_of_week bh := default [] (m !! day_of_week bh) ++ [bh] ]> m)
            ∅ bh_rows in
    let local_start := local_date tz window_start_utc in
    let local_end := local_date tz window_end_utc in
    let start_date := local_start - 1 in
    let end_date := local_end + 1 in
    let biz_intervals :=
      seqZ start_date (end_date - start_date + 1) ≫= fun cur_date =>
        let dow := Py.weekday cur_date in
        let rows := default [] (bh_by_dow !! dow) in
        omap (expand_row tz window_start_utc window_end_utc cur_date) rows in
    match biz_intervals with
    | [] => Some []
    | _ :: _ => Some (merge_sorted (sort_by_start biz_intervals))
    end
  end.
End BusinessHours.

(** ** Per-store aggregator *)

Definition _seconds_to_hours (sec : Qc) : Qc := (sec / Qc_of_Z 3600)%Qc.
Definition _seconds_to_minutes (sec : Qc) : Qc := (sec / Qc_of_Z 60)%Qc.

(** The number of seconds an exact count of microseconds stands for. *)
Definition total_seconds (us : Z) : Qc := Q2Qc (us # 1000000).

Record StoreReport := mkStoreReport {
  store_id : string;
  uptime_last_hour_minutes : Qc;
  uptime_last_day_hours : Qc;
  uptime_last_week_hours : Qc;
  downtime_last_hour_minutes : Qc;
  downtime_last_day_hours : Qc;
  downtime_last_week_hours : Qc }.

Definition total_business_seconds (biz_intervals : list TimeInterval) : Z :=
  Py.sum (fun it => end_ it - start it) biz_intervals.

(** The nested loop of [_compute] that accumulates [uptime_seconds]. *)
Definition uptime_loop (status_intervals : list (Z * Z * string))
    (biz_intervals : list TimeInterval) : Z :=
  foldl (fun uptime_seconds biz =>
    foldl (fun uptime_seconds '(s_start, s_end, s_status) =>
      let overlap := overlap_seconds (mkTimeInterval s_start s_end) biz in
      if decide (overlap <= 0) then uptime_seconds
      else if decide (Py.lower s_status = "active")
           then uptime_seconds + overlap
           else uptime_seconds)
      uptime_seconds status_intervals)
    0 biz_intervals.

(** The closure [_compute], with the captured [status_intervals] as its
    first argument; the pair is (uptime, downtime). *)
Definition _compute (status_intervals : list (Z * Z * string))
    (biz_intervals : list TimeInterval) : Z * Z :=
  let total_business_seconds := total_business_seconds biz_intervals in
  if decide (total_business_seconds <= 0) then (0, 0)
  else
    match status_intervals with
    | [] => (0, total_business_seconds)
    | _ :: _ =>
      let uptime_seconds := uptime_loop status_intervals biz_intervals in
      let downtime_seconds := total_business_seconds - uptime_seconds in
      (Z.max 0 uptime_seconds, Z.max 0 downtime_seconds)
    end.

(** The local variables of [compute_uptime_for_store_internal] when it
    reaches its [return]. *)
Record Locals := mkLocals {
  status_intervals : list (Z * Z * string);
  biz_hour : list TimeInterval;
  biz_day : list TimeInterval;
  biz_week : list TimeInterval;
  hr : Z * Z;
  day : Z * Z;
  week : Z * Z }.

Section Aggregator.
Context {zones : ZoneDatabase} {hst : Host}.

Definition compute_locals (session : Session) (store_id : string)
    (now_utc : Z) : option Locals :=
  let window_hour_start := now_utc - Time.hours 1 in
  let window_day_start := now_utc - Time.hours 24 in
  let window_week_start := now_utc - Time.days 7 in
  let margin := Time.hours 12 in
  let tz_str := _get_timezone_for_store session store_id in
  let overall_start := window_week_start - Time.days 1 in
  let overall_end := now_utc + Time.hours 1 in
  let polls :=
    _fetch_polls_for_store session store_id overall_start overall_end margin in
  let status_intervals :=
    Reconstruction._build_status_intervals_for_window
      polls overall_start overall_end margin in
  biz_hour ← _get_business_intervals_for_window
               session store_id window_hour_start now_utc (Some tz_str);
  biz_day ← _get_business_intervals_for_window
              session store_id window_day_start now_utc (Some tz_str);
  biz_week ← _get_business_intervals_for_window
               session store_id window_week_start now_utc (Some tz_str);
  Some (mkLocals status_intervals biz_hour biz_day biz_week
          (_compute status_intervals biz_hour)
          (_compute status_intervals biz_day)
          (_compute status_intervals biz_week)).

Definition compute_uptime_for_store_internal (session : Session)
    (store_id : string) (now_utc : Z) : option StoreReport :=
  guard (session_fails store_id = false);;
  l ← compute_locals session store_id now_utc;
  let '(u_hr, d_hr) := hr l in
  let '(u_day, d_day) := day l in
  let '(u_week, d_week) := week l in
  Some {|
    store_id := store_id;
    uptime_last_hour_minutes := Py.round2 (_seconds_to_minutes (total_seconds u_hr));
    uptime_last_day_hours := Py.round2 (_seconds_to_hours (total_seconds u_day));
    uptime_last_week_hours := Py.round2 (_seconds_to_hours (total_seconds u_week));
    downtime_last_hour_minutes := Py.round2 (_seconds_to_minutes (total_seconds d_hr));
    downtime_last_day_hours := Py.round2 (_seconds_to_hours (total_seconds d_day));
    downtime_last_week_hours := Py.round2 (_seconds_to_hours (total_seconds d_week)) |}.
End Aggregator.

(** ** Report orchestrator *)

Definition COLUMNS : list string :=
  [ "store_id"; "uptime_last_hour_minutes"; "uptime_last_day_hours";
    "uptime_last_week_hours"; "downtime_last_hour_minutes";
    "downtime_last_day_hours"; "downtime_last_week_hours" ].

(** The file [to_csv] writes: the header line, then one line per row. *)
Record Csv := mkCsv { header : list string; body : list StoreReport }.

(** The row appended when a future raised. *)
Definition zero_row (sid : string) : StoreReport :=
  {| store_id := sid;
     uptime_last_hour_minutes := 0; uptime_last_day_hours := 0;
     uptime_last_week_hours := 0; downtime_last_hour_minutes := 0;
     downtime_last_day_hours := 0; downtime_last_week_hours := 0 |}.

Definition update_every (total : Z) : Z :=
  Z.max 1 (Z.min 5 (Py.or_int (total / 20) 1)).

(** [(done / total) * 100.0] *)
Definition percent (done total : Z) : Qc :=
  (Qc_of_Z done / Qc_of_Z total * Qc_of_Z 100)%Qc.

(** The state the completion loop of [generate_report] carries: the local
    variables [rows] and [done], the [reports] table, and a log of the
    values committed to [percent_complete], oldest first. *)
Record Progress := mkProgress {
  rows : list StoreReport;
  done : Z;
  reports : gmap string Report;
  published : list Qc }.

(** A short session on the [reports] table that sets [percent_complete]
    (and [finished_at] when given) of the row [rid], if there is one. *)
Definition set_percent (rid : string) (pct : Qc) (finished : option Z)
    (st : Progress) : Progress :=
  match reports st !! rid with
  | Some rep =>
    let rep' :=
      {| report_id := report_id rep; status := status rep;
         percent_complete := pct;
         finished_at := match finished with Some _ => finished | None => finished_at rep end;
         csv_path := csv_path rep |} in
    {| rows := rows st; done := done st;
       reports := <[ rid := rep' ]> (reports st);
       published := published st ++ [pct] |}
  | None => st
  end.

(** The [try]/[except] of the completion loop: the row appended for the
    future of [sid]; [outcome sid] is [fut.result()], [None] when it
    raises. *)
Definition row_for (outcome : string -> option StoreReport) (sid : string)
  : StoreReport :=
  match outcome sid with
  | Some result => result
  | None => zero_row sid
  end.

(** One round of [for fut in as_completed(futures)]. *)
Definition complete_one (outcome : string -> option StoreReport)
    (rid : option string) (total : Z) (st : Progress) (sid : string)
  : Progress :=
  let row := row_for outcome sid in
  let done := done st + 1 in
  let st := {| rows := rows st ++ [row]; done := done;
               reports := reports st; published := published st |} in
  if Py.truthy rid
     && (bool_decide (done mod update_every total = 0) || bool_decide (done = total))
  then set_percent (default "" rid) (percent done total) None st
  else st.

Record Generated := mkGenerated {
  csv : Csv;
  reports_after : gmap string Report;
  published_by_run : list Qc }.

Section Orchestrator.
Context {zones : ZoneDatabase} {sched : Scheduler} {hst : Host}.

(** [generate_report].  The outcome of the future submitted for [sid] is
    [compute_uptime_for_store_internal session sid now_utc].  The first
    [with ThreadPoolExecutor] block of the source submits every store once
    and drops the futures; it leaves no trace in the result.  [None]:
    [os.makedirs] or [to_csv] raised. *)
Definition generate_report
    (session : Session) (table : gmap string Report)
    (out_csv_path : string) (rid : option string) : option Generated :=
  if negb (writable out_csv_path) then None
  else
    let now_utc := _get_now_from_db wall_clock session in
    let store_ids := _gather_store_ids session in
    let total := Z.of_nat (length store_ids) in
    if decide (total = 0) then
      Some (mkGenerated (mkCsv COLUMNS []) table [])
    else
      let st :=
        foldl (complete_one
                 (fun sid => compute_uptime_for_store_internal session sid now_utc)
                 rid total)
              (mkProgress [] 0 table [])
              (as_completed store_ids) in
      let df := mkCsv COLUMNS (rows st) in
      let st :=
        if Py.truthy rid
        then set_percent (default "" rid) (Qc_of_Z 100) (Some wall_clock) st
        else st in
      Some (mkGenerated df (reports st) (published st)).
End Orchestrator.

(** ** Job endpoints ([backend/main.py]) *)

Inductive json := JString (s : string) | JNull.

Definition json_of_text (x : option string) : json :=
  match x with Some s => JString s | None => JNull end.

(** [POST /trigger_report], up to the scheduling of the background task:
    [fresh] is [str(uuid4())]; [percent_complete] takes its server default. *)
Definition trigger_report (fresh : string) (table : gmap string Report)
  : gmap string json * gmap string Report :=
  let rep := mkReport fresh "Running" 0 None None in
  ({[ "report_id" := JString fresh ]}, <[ fresh := rep ]> table).

(** [GET /get_report] *)
Definition get_report (table : gmap string Report) (rid : string)
  : gmap string json :=
  match table !! rid with
  | None => {[ "status" := JString "NotFound" ]}
  | Some rep =>
    if decide (status rep <> "Complete")
    then {[ "status" := JString (status rep) ]}
    else <[ "csv_path" := json_of_text (csv_path rep) ]>
           {[ "status" := JString "Complete" ]}
  end.

Record JobRun := mkJobRun {
  table_after : gmap string Report;
  written : option Csv;
  committed : list Qc;
  raised : bool }.

Section Jobs.
Context {zones : ZoneDatabase} {sched : Scheduler} {hst : Host}.

(** [_run_and_store]: the background task.  Assigning to [rep] when the
    row is missing raises and is handled like any other failure. *)
Definition _run_and_store (session : Session) (table : gmap string Report)
    (rid : string) (out_path : string) : JobRun :=
  let failed (table : gmap string Report) (w : option Csv) (log : list Qc) :=
    match table !! rid with
    | Some rep =>
      mkJobRun
        (<[ rid := mkReport (report_id rep) "Failed" (Qc_of_Z 100)
                     (Some wall_clock) (csv_path rep) ]> table)
        w (log ++ [Qc_of_Z 100]) true
    | None => mkJobRun table w log true
    end in
  match generate_report session table out_path (Some rid) with
  | Some g =>
    match reports_after g !! rid with
    | Some rep =>
      mkJobRun
        (<[ rid := mkReport (report_id rep) "Complete" (Qc_of_Z 100)
                     (Some wall_clock) (Some out_path) ]> (reports_after g))
        (Some (csv g)) (published_by_run g ++ [Qc_of_Z 100]) false
    | None => failed (reports_after g) (Some (csv g)) (published_by_run g)
    end
  | None => failed table None []
  end.
End Jobs.

(** ** Start-up ([backend/main.py]) *)

(** What one attempt of [engine.connect()] and [SELECT 1] does. *)
Inductive ConnectOutcome := Connected | RaisesSQLAlchemyError | RaisesOther.

(** How [wait_for_db] ends, with the number of [time.sleep] calls made:
    it returns, it raises [RuntimeError] after the last retry, or an
    exception that is no [SQLAlchemyError] leaves the loop. *)
Inductive WaitOutcome :=
| DbReachable (sleeps : Z)
| NotReachable (sleeps : Z)
| Propagated (sleeps : Z).

(** The [for attempt in range(1, max_retries + 1)] loop over the attempts
    still to make. *)
Fixpoint wait_loop (connect : Z -> ConnectOutcome) (attempts : list Z)
    (sleeps : Z) : WaitOutcome :=
  match attempts with
  | [] => NotReachable sleeps
  | attempt :: rest =>
    match connect attempt with
    | Connected => DbReachable sleeps
    | RaisesSQLAlchemyError => wait_loop connect rest (sleeps + 1)
    | RaisesOther => Propagated sleeps
    end
  end.

Definition wait_for_db (connect : Z -> ConnectOutcome) (max_retries : Z)
  : WaitOutcome :=
  wait_loop connect (seqZ 1 max_retries) 0.

(** ** Ingest ([backend/services/ingest.py]) *)

(** [dateutil.parser.parse] and [int]: [None] when they raise.  A parsed
    datetime is its naive value in microseconds and, when the text carries
    a zone, its offset from UTC. *)
Class Parsers := {
  date_parser_parse : string -> option (Z * option Z);
  int_of_str : string -> option Z }.

(** A row of [csv.DictReader]: the fields by column name. *)
Abbreviation csv_row := (gmap string string).

Definition BULK_CHUNK : nat := Z.to_nat 10000.

(** [range(0, n, step)] *)
Definition range_step (n step : nat) : list nat :=
  (fun k => k * step)%nat <$> seq 0 ((n + step - 1) / step).

(** [_bulk_save_in_chunks] on a table kept as the list of its rows:
    [bulk_save_objects(chunk)] and [commit()] append the chunk.  The result
    is the table and the returned [total]. *)
Definition _bulk_save_in_chunks {A} (table : list A) (objs : list A)
  : list A * nat :=
  let n := length objs in
  foldl (fun '(table, total) i =>
           let chunk := take BULK_CHUNK (drop i objs) in
           (table ++ chunk, (total + length chunk)%nat))
        (table, 0%nat) (range_step n BULK_CHUNK).

Section Ingest.
Context {parsers : Parsers}.

Definition _parse_utc_timestamp (ts_str : string) : option Z :=
  dt ← date_parser_parse ts_str;
  match dt.2 with
  | None => Some dt.1
  | Some utcoffset => Some (dt.1 - utcoffset)
  end.

(** [date_parser.parse(timestr).time()]: the time of day. *)
Definition _parse_local_time (timestr : string) : option Z :=
  dt ← date_parser_parse timestr;
  Some (dt.1 mod Time.days 1).

(** The body of the loop of [load_polls]: the [Poll] a row gives, [None]
    when the row is skipped. *)
Definition poll_of_row (r : csv_row) : option Poll :=
  let store_id := r !! "store_id" in
  let status := r !! "status" in
  let ts_raw := r !! "timestamp_utc" in
  if negb (Py.truthy store_id && Py.truthy status && Py.truthy ts_raw)
  then None
  else
    ts ← _parse_utc_timestamp (default "" ts_raw);
    Some (mkPoll (default "" store_id) ts (default "" status)).

(** The rows a loop collects: [rows.append] for every row not skipped. *)
Definition collect {A} (of_row : csv_row -> option A) (reader : list csv_row)
  : list A :=
  foldl (fun rows r =>
           match of_row r with
           | Some x => rows ++ [x]
           | None => rows
           end) [] reader.

(** [load_polls]: the [polls] table afterwards, and [added]. *)
Definition load_polls (table : list Poll) (reader : list csv_row)
    (replace : bool) : list Poll * nat :=
  let table := if replace then [] else table in
  let rows := collect poll_of_row reader in
  match rows with
  | [] => (table, 0%nat)
  | _ :: _ => _bulk_save_in_chunks table rows
  end.

(** [x or y] on two optional strings. *)
Definition or_opt (x y : option string) : option string :=
  if Py.truthy x then x else y.

Definition business_hour_of_row (r : csv_row) : option BusinessHour :=
  let store_id := r !! "store_id" in
  let dow_raw := or_opt (r !! "dayOfWeek") (r !! "day_of_week") in
  let start_raw := r !! "start_time_local" in
  let end_raw := r !! "end_time_local" in
  if negb (Py.truthy store_id && Py.truthy dow_raw
           && Py.truthy start_raw && Py.truthy end_raw)
  then None
  else
    dow ← int_of_str (default "" dow_raw);
    start_time ← _parse_local_time (default "" start_raw);
    end_time ← _parse_local_time (default "" end_raw);
    Some (mkBusinessHour (default "" store_id) dow start_time end_time).

Definition load_business_hours (table : list BusinessHour)
    (reader : list csv_row) (replace : bool) : list BusinessHour * nat :=
  let table := if replace then [] else table in
  let rows := collect business_hour_of_row reader in
  match rows with
  | [] => (table, 0%nat)
  | _ :: _ => _bulk_save_in_chunks table rows
  end.
End Ingest.

Definition timezone_of_row (r : csv_row) : option StoreTimezone :=
  let store_id := r !! "store_id" in
  let tz := Py.or_str (r !! "timezone_str") DEFAULT_TZ in
  if negb (Py.truthy store_id) then None
  else Some (mkStoreTimezone (default "" store_id) (Some tz)).

(** [load_timezones].  [store_id] is the primary key of the table: the
    insert of a key already there raises, which is [None] here. *)
Definition load_timezones (table : list StoreTimezone) (reader : list csv_row)
    (replace : bool) : option (list StoreTimezone * nat) :=
  let table := if replace then [] else table in
  let rows := collect timezone_of_row reader in
  match rows with
  | [] => Some (table, 0%nat)
  | _ :: _ =>
    if decide (NoDup (tz_store_id <$> (table ++ rows)))
    then Some (_bulk_save_in_chunks table rows)
    else None
  end.

(** ** Concrete collaborators for the examples *)

(** A zone database with two fixed-offset zones: [UTC], and
    [America/Chicago] at its standard offset of six hours behind UTC. *)
Definition fixed_zones : ZoneDatabase :=
  {| tzinfo := Z;
     ZoneInfo key :=
       if decide (key = "UTC") then Some 0
       else if decide (key = "America/Chicago") then Some (- Time.hours 6)
       else None;
     local_date utcoffset u := (u + utcoffset) / Time.days 1;
     utc_of_local utcoffset d := d - utcoffset |}.

(** A schedule of 00:00:00-23:59:59 on every day of the week. *)
Definition all_week (sid : string) : list BusinessHour :=
  (fun d => mkBusinessHour sid d 0 (Time.hours 24 - Time.SECOND))
  <$> [0; 1; 2; 3; 4; 5; 6].

(** Futures finish in the order of submission. *)
Definition fifo : Scheduler :=
  {| as_completed futures := futures;
     as_completed_perm futures := reflexivity futures |}.

(** Futures finish in the opposite order. *)
Definition lifo : Scheduler :=
  {| as_completed futures := reverse futures;
     as_completed_perm futures := reverse_Permutation futures |}.

(** A host on which everything works, except the sessions of the workers
    of the stores in [failing]. *)
Definition host (now : Z) (failing : list string) : Host :=
  {| wall_clock := now; writable _ := true;
     session_fails sid := bool_decide (sid ∈ failing) |}.

Definition read_only_host (now : Z) : Host :=
  {| wall_clock := now; writable _ := false; session_fails _ := false |}.

(** ** Notions used to state the properties *)

(** The merge loop by recursion on the input still to be read: [last_] is
    the running interval [merged[-1]], the finished intervals are emitted
    in order. *)
Fixpoint merge_from (last_ : TimeInterval) (rest : list TimeInterval)
  : list TimeInterval :=
  match rest with
  | [] => [last_]
  | it :: rest' =>
    if decide (start it <= end_ last_)
    then merge_from (mkTimeInterval (start last_) (Z.max (end_ last_) (end_ it))) rest'
    else last_ :: merge_from it rest'
  end.

(** Ascending by a key. *)
Definition by_key {A} (key : A -> Z) (a b : A) : Prop := key a <= key b.

(** Ascending by [start]. *)
Definition by_start (a b : TimeInterval) : Prop := start a <= start b.

(** [a] ends strictly before [b] starts. *)
Definition before (a b : TimeInterval) : Prop := end_ a < start b.

(** The union of the point sets of a list of intervals. *)
Definition union_covers (l : list TimeInterval) (x : Z) : Prop :=
  Exists (fun it => covers it x) l.

(** The sum of a list of integers, from the right. *)
Definition sumZ (l : list Z) : Z := foldr Z.add 0 l.

(** What one status interval adds to [uptime_seconds] against one business
    interval in the loop of [_compute]. *)
Definition contribution (biz : TimeInterval) (iv : Z * Z * string) : Z :=
  let '(s_start, s_end, s_status) := iv in
  if decide (Py.lower s_status = "active")
  then overlap_seconds (mkTimeInterval s_start s_end) biz
  else 0.

(** Status intervals in a row: each starts at or after the end of the one
    before (and the first at or after [lo]), and none is reversed. *)
Fixpoint chain (lo : Z) (l : list (Z * Z * string)) : Prop :=
  match l with
  | [] => True
  | (s, e, _) :: l' => lo <= s /\ s <= e /\ chain e l'
  end.

(** Polls in ascending order of timestamp. *)
Definition by_timestamp (a b : Z * string) : Prop := a.1 <= b.1.

(** The three trailing windows of the aggregator, with the local variables
    that hold the business intervals and the pair of each. *)
Inductive Window := LastHour | LastDay | LastWeek.

Definition window_start (w : Window) (now_utc : Z) : Z :=
  match w with
  | LastHour => now_utc - Time.hours 1
  | LastDay => now_utc - Time.hours 24
  | LastWeek => now_utc - Time.days 7
  end.

Definition business_of (w : Window) (l : Locals) : list TimeInterval :=
  match w with
  | LastHour => biz_hour l
  | LastDay => biz_day l
  | LastWeek => biz_week l
  end.

Definition pair_of (w : Window) (l : Locals) : Z * Z :=
  match w with
  | LastHour => hr l
  | LastDay => day l
  | LastWeek => week l
  end.

(** Completion number [done] of [total] is one at which progress is
    published: every [update_every total] completions, and the last one. *)
Definition publishes (total done : Z) : Prop :=
  done mod update_every total = 0 \/ done = total.

Global Instance publishes_dec total done : Decision (publishes total done).
Proof. unfold publishes. apply _. Defined.

(** The values the completion loop publishes over completions
    [first .. first + count - 1]. *)
Definition loop_publications (total first count : Z) : list Qc :=
  (fun done => percent done total) <$> filter (publishes total) (seqZ first count).


(** A status interval with its status in lower case. *)
Definition lowered (iv : Z * Z * string) : Z * Z * string :=
  (iv.1.1, iv.1.2, Py.lower iv.2).

(** The polls a store's query selects: those of the store with a timestamp
    between [lo] and [hi]. *)
Definition selected (store_id : string) (lo hi : Z) (p : Poll) : Prop :=
  poll_store_id p = store_id /\ lo <= timestamp_utc p <= hi.

Global Instance selected_dec store_id lo hi p :
  Decision (selected store_id lo hi p).
Proof. unfold selected. apply _. Defined.


(** A status interval ends at or before the start of another. *)
Definition precedes (a b : Z * Z * string) : Prop := a.1.2 <= b.1.1.

(** The instant [x] lies in the half-open status interval [iv]. *)
Definition within (iv : Z * Z * string) (x : Z) : Prop := iv.1.1 <= x < iv.1.2.

(** Between two states of the [reports] table nothing changed but the
    progress of report [rid]: the same ids are present, every row keeps its
    id, status and path, and the rows of other reports are the same. *)
Definition only_progress (rid : string) (t t' : gmap string Report) : Prop :=
  forall k,
    match t !! k, t' !! k with
    | Some rep, Some rep' =>
      report_id rep' = report_id rep /\ status rep' = status rep
      /\ csv_path rep' = csv_path rep /\ (k <> rid -> rep' = rep)
    | None, None => True
    | _, _ => False
    end.

(** The slices [objs[i : i + BULK_CHUNK]] that [_bulk_save_in_chunks]
    saves and commits one after the other. *)
Definition chunks_saved {A} (objs : list A) : list (list A) :=
  (fun i => take BULK_CHUNK (drop i objs))
  <$> range_step (length objs) BULK_CHUNK.

(** The store is open at the UTC instant [x] under the zone [tz], as the
    expansion for the window [[window_start_utc, window_end_utc]] reads the
    schedule: a schedule row of the store applies on a local date [d] of
    its day of the week, from the day before the local date of the window's
    start to the day after that of its end, and [x] lies between the row's
    start and end on [d], both local times of [tz], the end a day later when
    it is not after the start. *)
Definition open_under {zones : ZoneDatabase} (tz : tzinfo) (session : Session)
    (store_id : string) (window_start_utc window_end_utc : Z) (x : Z) : Prop :=
  exists (bh : BusinessHour) (d : Z),
    bh ∈ business_hours session
    /\ bh_store_id bh = store_id
    /\ local_date tz window_start_utc - 1 <= d
       <= local_date tz window_end_utc + 1
    /\ Py.weekday d = day_of_week bh
    /\ utc_of_local tz (Py.combine d (start_time_local bh)) <= x
       < utc_of_local tz
           (if decide (Py.combine d (end_time_local bh)
                       <= Py.combine d (start_time_local bh))
            then Py.combine d (end_time_local bh) + Time.days 1
            else Py.combine d (end_time_local bh)).

(** * Properties *)

(** ** The scenarios of the specification, by evaluation *)

Module Scenarios.
Import Time.

(** Ordinal day 8 is a Monday, day 12 a Friday, day 13 a Saturday. *)
Example monday : Py.weekday 8 = 0 /\ Py.weekday 12 = 4 /\ Py.weekday 13 = 5.
Proof. by vm_compute. Qed.

(** S1: open all week in UTC, active polls 30 and 90 minutes before [now]:
    the last hour is 60 minutes up. *)
Example S1 :
  let now := days 9 + hours 12 in
  hr <$> @compute_locals fixed_zones
           (mkSession [mkPoll "A" (now - hours 1 / 2) "active";
                       mkPoll "A" (now - hours 3 / 2) "active"]
                      (all_week "A") [mkStoreTimezone "A" (Some "UTC")])
           "A" now
  = Some (hours 1, 0).
Proof. by vm_compute. Qed.

(** S2: no schedule rows, one inactive poll: the last hour is 60 minutes
    down. *)
Example S2 :
  let now := days 9 in
  hr <$> @compute_locals fixed_zones
           (mkSession [mkPoll "B" (now - hours 1 / 2) "inactive"] [] [])
           "B" now
  = Some (0, hours 1).
Proof. by vm_compute. Qed.

(** S3: Monday 09:00-17:00 in [America/Chicago], no polls, [now] at Monday
    18:00 local time: the last day is 8 hours down. *)
Example S3 :
  let now := days 8 + hours 18 + hours 6 in
  day <$> @compute_locals fixed_zones
            (mkSession [] [mkBusinessHour "C" 0 (hours 9) (hours 17)]
                       [mkStoreTimezone "C" (Some "America/Chicago")])
            "C" now
  = Some (0, hours 8).
Proof. by vm_compute. Qed.

(** S4: Friday 22:00-02:00 in UTC, one active poll on Saturday 00:30, [now]
    on Saturday 03:00: the overnight interval is 4 hours up. *)
Example S4 :
  let now := days 13 + hours 3 in
  (fun l => (biz_day l, day l))
  <$> @compute_locals fixed_zones
        (mkSession [mkPoll "D" (days 13 + hours 1 / 2) "active"]
                   [mkBusinessHour "D" 4 (hours 22) (hours 2)]
                   [mkStoreTimezone "D" (Some "UTC")])
        "D" now
  = Some ([mkTimeInterval (days 12 + hours 22) (days 13 + hours 2)],
          (hours 4, 0)).
Proof. by vm_compute. Qed.

(** S6: empty tables give a file with the header only. *)
Example S6 :
  @generate_report fixed_zones fifo (host 0 []) (mkSession [] [] []) ∅
    "/app/data/reports/r.csv" None
  = Some (mkGenerated (mkCsv COLUMNS []) ∅ []).
Proof. by vm_compute. Qed.

End Scenarios.

(** ** Halving a timedelta *)

Module TimeFacts.
Import Time.

Local Ltac halving d :=
  unfold timedelta_div, _divide_and_round;
  pose proof (Z.div_mod d 2 ltac:(lia));
  pose proof (Z.mod_pos_bound d 2 ltac:(lia));
  change (0 <? 2) with true; cbv iota;
  destruct (Z.ltb_spec 2 (2 * (d mod 2))), (Z.eqb_spec (2 * (d mod 2)) 2),
    (Z.eqb_spec (d / 2 mod 2) 1); cbn [orb andb]; lia.

(** Halving is exact up to half a microsecond. *)
Lemma timedelta_div_2_bounds d :
  2 * timedelta_div d 2 - 1 <= d <= 2 * timedelta_div d 2 + 1.
Proof. halving d. Qed.

Lemma timedelta_div_2_nonneg d : 0 <= d -> 0 <= timedelta_div d 2 <= d.
Proof. intros Hd. halving d. Qed.

End TimeFacts.

(** ** Status reconstruction follows the midpoint rule *)

Module ReconstructionFacts.
Import Time Reconstruction.

Lemma omap_fmap_ext {A B C} (f : B -> option C) (g : A -> B)
    (h : A -> option C) (l : list A) :
  (forall x, x ∈ l -> f (g x) = h x) -> omap f (g <$> l) = omap h l.
Proof.
  induction l as [|x l IH]; intros Hx; [done|].
  csimpl. rewrite (Hx x) by left.
  rewrite IH by (intros y Hy; apply Hx; by right). done.
Qed.

(** Reading [mids[i]] gives the midpoint of polls [i] and [i + 1]. *)
Lemma mids_lookup (p : list poll) (i : nat) :
  (i < length p - 1)%nat ->
  ((fun i : nat =>
      (p !!! i).1 + timedelta_div ((p !!! (i + 1)%nat).1 - (p !!! i).1) 2)
     <$> seq 0 (length p - 1)) !!! i = mid p i.
Proof.
  intros Hi.
  rewrite list_lookup_total_alt, list_lookup_fmap, lookup_seq_lt by lia.
  reflexivity.
Qed.

Lemma clip_spec (ws we M s e : Z) (st : string) :
  clip (ws - M) (we + M) (s, e, st)
  = if decide (Z.max s (ws - M) < Z.min e (we + M))
    then Some (Z.max s (ws - M), Z.min e (we + M), st) else None.
Proof.
  unfold clip. rewrite Z.gtb_ltb.
  destruct (Z.ltb_spec (Z.max s (ws - M)) (Z.min e (we + M)));
    case_decide; (done || lia).
Qed.

Lemma build_is_midpoint_rule (polls : list poll) (ws we M : Z) :
  _build_status_intervals_for_window polls ws we M
  = spec_status_intervals polls ws we M.
Proof.
  destruct polls as [|p0 ps]; [reflexivity|].
  unfold _build_status_intervals_for_window. cbv beta iota zeta.
  remember (p0 :: ps) as polls eqn:E.
  unfold spec_status_intervals, n.
  apply omap_fmap_ext. intros i [_ Hi]%elem_of_seq.
  rewrite clip_spec. unfold spec_interval, start_, end__, t, n.
  assert (0 < length polls)%nat as Hn by (rewrite E; simpl; lia).
  replace (if (0 <? i)%nat then _ else _)
    with (if decide (0 < i)%nat then mid polls (i - 1) else (polls !!! 0%nat).1 - M).
  2:{ destruct (Nat.ltb_spec 0 i); case_decide; try lia.
      - by rewrite mids_lookup by lia.
      - by replace i with 0%nat by lia. }
  replace (if (i <? length polls - 1)%nat then _ else _)
    with (if decide (i < length polls - 1)%nat then mid polls i
          else (polls !!! (length polls - 1)%nat).1 + M).
  2:{ destruct (Nat.ltb_spec i (length polls - 1)); case_decide; try lia.
      - by rewrite mids_lookup by lia.
      - by replace i with (length polls - 1)%nat by lia. }
  reflexivity.
Qed.

End ReconstructionFacts.

(** C3. For every poll list, status reconstruction returns exactly the
    intervals of the midpoint rule: for each poll [i], in order, the
    interval from [mid (i-1)] (or [p[0].t - M] for the first poll) to
    [mid i] (or [p[n-1].t + M] for the last), labelled [p[i].status],
    clipped to [[W.start - M, W.end + M]] and dropped when the clipped
    interval is empty; each [mid i] is [p[i].t + (p[i+1].t - p[i].t)/2] up
    to the half microsecond of timedelta rounding; the empty poll list
    gives the empty output. *)
Theorem C3_midpoint_reconstruction :
  forall (polls : list (Z * string)) (W_start W_end M : Z),
    Reconstruction._build_status_intervals_for_window polls W_start W_end M
    = Reconstruction.spec_status_intervals polls W_start W_end M
    /\ Reconstruction._build_status_intervals_for_window [] W_start W_end M = []
    /\ forall i : nat,
         2 * Reconstruction.mid polls i - 1
         <= Reconstruction.t polls i + Reconstruction.t polls (i + 1)
         <= 2 * Reconstruction.mid polls i + 1.
Proof.
  intros polls ws we M. split; [|split].
  - apply ReconstructionFacts.build_is_midpoint_rule.
  - reflexivity.
  - intros i. unfold Reconstruction.mid.
    pose proof (TimeFacts.timedelta_div_2_bounds
                  (Reconstruction.t polls (i + 1) - Reconstruction.t polls i)).
    lia.
Qed.

(** ** The merge of sorted intervals *)

Module MergeFacts.

Global Instance by_start_trans : Transitive by_start.
Proof. intros a b c. unfold by_start. lia. Qed.

Lemma merge_step_snoc (init : list TimeInterval) (l it : TimeInterval) :
  merge_step (init ++ [l]) it
  = if decide (start it <= end_ l)
    then init ++ [mkTimeInterval (start l) (Z.max (end_ l) (end_ it))]
    else init ++ [l; it].
Proof.
  unfold merge_step. rewrite last_snoc.
  case_decide; [|by rewrite <- app_assoc].
  rewrite length_app. simpl.
  replace (length init + 1 - 1)%nat with (length init + 0)%nat by lia.
  by rewrite insert_app_r.
Qed.

(** The loop over [merged] and the recursion over the input agree. *)
Lemma foldl_merge_step (rest init : list TimeInterval) (l : TimeInterval) :
  foldl merge_step (init ++ [l]) rest = init ++ merge_from l rest.
Proof.
  revert init l. induction rest as [|it rest IH]; intros init l; [done|].
  cbn [foldl merge_from]. rewrite merge_step_snoc. case_decide.
  - apply IH.
  - replace (init ++ [l; it]) with ((init ++ [l]) ++ [it])
      by (by rewrite <- app_assoc).
    rewrite IH. by rewrite <- app_assoc.
Qed.

Lemma merge_sorted_cons (first : TimeInterval) (rest : list TimeInterval) :
  merge_sorted (first :: rest) = merge_from first rest.
Proof. apply (foldl_merge_step rest [] first). Qed.

(** Every output interval starts at or after the running interval, and
    each output interval ends before all later ones start. *)
Lemma merge_from_before (rest : list TimeInterval) (l : TimeInterval) :
  StronglySorted by_start (l :: rest) ->
  Forall (fun b => start l <= start b) (merge_from l rest)
  /\ StronglySorted before (merge_from l rest).
Proof.
  revert l. induction rest as [|it rest IH]; intros l Hs.
  { split; repeat constructor. lia. }
  apply StronglySorted_inv in Hs as [Hs Hl].
  pose proof Hs as [Hs' Hit]%StronglySorted_inv.
  apply Forall_cons in Hl as [Hli Hl]. unfold by_start in Hli.
  cbn [merge_from]. case_decide as Hd.
  - destruct (IH (mkTimeInterval (start l) (Z.max (end_ l) (end_ it))))
      as [F S]; [|done].
    constructor; [done|]. eapply Forall_impl; [exact Hl|]. done.
  - destruct (IH it Hs) as [F S]. split.
    + constructor; [lia|]. eapply Forall_impl; [exact F|]. simpl. lia.
    + constructor; [done|]. eapply Forall_impl; [exact F|].
      unfold before. simpl. lia.
Qed.

Lemma merge_from_covers (rest : list TimeInterval) (l : TimeInterval) (x : Z) :
  StronglySorted by_start (l :: rest) ->
  union_covers (merge_from l rest) x <-> union_covers (l :: rest) x.
Proof.
  unfold union_covers.
  revert l. induction rest as [|it rest IH]; intros l Hs; [done|].
  apply StronglySorted_inv in Hs as [Hs Hl].
  pose proof Hs as [Hs' Hit]%StronglySorted_inv.
  apply Forall_cons in Hl as [Hli Hl]. unfold by_start in Hli.
  cbn [merge_from]. case_decide as Hd.
  - rewrite IH by (constructor; [done|]; eapply Forall_impl; [exact Hl|]; done).
    rewrite !Exists_cons. unfold covers. simpl.
    generalize (Exists (fun it0 => start it0 <= x < end_ it0) rest).
    intros P. intuition lia.
  - rewrite (Exists_cons _ l (merge_from _ _)), IH by done.
    by rewrite !Exists_cons.
Qed.

Lemma StronglySorted_lookup_lt {A} (R : relation A) (l : list A)
    (i j : nat) (a b : A) :
  StronglySorted R l -> (i < j)%nat -> l !! i = Some a -> l !! j = Some b ->
  R a b.
Proof.
  intros Hs. revert i j. induction Hs as [|x l Hs IH Hx]; intros i j Hij Ha Hb.
  { by rewrite lookup_nil in Ha. }
  destruct j as [|j]; [lia|]. destruct i as [|i]; simpl in *.
  - injection Ha as <-. rewrite Forall_forall in Hx. apply Hx.
    by eapply list_elem_of_lookup_2.
  - apply (IH i j); [lia|done..].
Qed.

(** The intervals that survive the clipping are not empty, and the merge
    keeps them so. *)
Lemma merge_from_nonempty (rest : list TimeInterval) (l : TimeInterval) :
  Forall (fun it => start it < end_ it) (l :: rest) ->
  Forall (fun it => start it < end_ it) (merge_from l rest).
Proof.
  revert l. induction rest as [|it rest IH]; intros l Hl; [done|].
  apply Forall_cons in Hl as [Hl [Hit Hr]%Forall_cons].
  cbn [merge_from]. case_decide.
  - apply IH. constructor; [simpl; lia|done].
  - constructor; [done|]. apply IH. by constructor.
Qed.

End MergeFacts.

(** C5. On intervals sorted ascending by start, the merge absorbs an
    interval whose start is at or before the running interval's end, taking
    the larger of the two ends, and otherwise starts a new running interval;
    its output is pairwise disjoint (each interval ends before every later
    one starts, so no instant lies in two of them) and covers exactly the
    instants covered by the input. *)
Theorem C5_merge_sorted_union :
  forall biz_intervals : list TimeInterval,
    Sorted by_start biz_intervals ->
    (forall a b rest, biz_intervals = a :: b :: rest ->
       merge_sorted biz_intervals
       = if decide (start b <= end_ a)
         then merge_sorted (mkTimeInterval (start a) (Z.max (end_ a) (end_ b)) :: rest)
         else a :: merge_sorted (b :: rest))
    /\ (forall (i j : nat) a b, (i < j)%nat ->
          merge_sorted biz_intervals !! i = Some a ->
          merge_sorted biz_intervals !! j = Some b ->
          end_ a < start b /\ forall x, ~ (covers a x /\ covers b x))
    /\ (forall x, union_covers (merge_sorted biz_intervals) x
                  <-> union_covers biz_intervals x).
Proof.
  intros l Hs. apply Sorted_StronglySorted in Hs; [|apply _].
  split; [|split].
  - intros a b rest ->. rewrite !MergeFacts.merge_sorted_cons.
    cbn [merge_from]. by case_decide.
  - intros i j a b Hij Ha Hb. destruct l as [|first rest].
    { by destruct i. }
    rewrite MergeFacts.merge_sorted_cons in Ha, Hb.
    destruct (MergeFacts.merge_from_before rest first Hs) as [_ S].
    pose proof (MergeFacts.StronglySorted_lookup_lt _ _ i j a b S Hij Ha Hb) as Hab.
    unfold before in Hab. split; [done|]. unfold covers. lia.
  - intros x. destruct l as [|first rest]; [done|].
    rewrite MergeFacts.merge_sorted_cons.
    by apply MergeFacts.merge_from_covers.
Qed.

(** A sorted input on which the merge absorbs one interval and keeps one. *)
Lemma C5_merge_sorted_union_witness :
  merge_sorted [mkTimeInterval 0 10; mkTimeInterval 10 20; mkTimeInterval 30 40]
  = [mkTimeInterval 0 20; mkTimeInterval 30 40]
  /\ (forall x, union_covers
                  (merge_sorted [mkTimeInterval 0 10; mkTimeInterval 10 20;
                                 mkTimeInterval 30 40]) x
                <-> union_covers [mkTimeInterval 0 10; mkTimeInterval 10 20;
                                  mkTimeInterval 30 40] x).
Proof.
  split; [reflexivity|].
  refine (proj2 (proj2 (C5_merge_sorted_union
    [mkTimeInterval 0 10; mkTimeInterval 10 20; mkTimeInterval 30 40] _))).
  repeat constructor; unfold by_start; simpl; lia.
Defined.

(** ** The closure [_compute] *)

Module ComputeFacts.

Lemma sumZ_cons (x : Z) (l : list Z) : sumZ (x :: l) = x + sumZ l.
Proof. reflexivity. Qed.

Lemma foldl_add {A} (f : A -> Z) (l : list A) (acc : Z) :
  foldl (fun acc x => acc + f x) acc l = acc + sumZ (f <$> l).
Proof.
  revert acc. induction l as [|x l IH]; intros acc; [simpl; lia|].
  rewrite fmap_cons, sumZ_cons. cbn [foldl]. rewrite IH. lia.
Qed.

Lemma total_business_seconds_sum (biz_intervals : list TimeInterval) :
  total_business_seconds biz_intervals
  = sumZ ((fun it => end_ it - start it) <$> biz_intervals).
Proof.
  unfold total_business_seconds, Py.sum. rewrite foldl_add. lia.
Qed.

Lemma overlap_nonneg (a b : TimeInterval) : 0 <= overlap_seconds a b.
Proof. unfold overlap_seconds. lia. Qed.

Lemma contribution_eq (biz : TimeInterval) (s e : Z) (st : string) :
  contribution biz (s, e, st)
  = if decide (Py.lower st = "active")
    then overlap_seconds (mkTimeInterval s e) biz else 0.
Proof. reflexivity. Qed.

Lemma contribution_nonneg (biz : TimeInterval) (iv : Z * Z * string) :
  0 <= contribution biz iv.
Proof.
  destruct iv as [[s e] st]. unfold contribution.
  case_decide; [apply overlap_nonneg|lia].
Qed.

(** The inner loop adds the contributions of the status intervals. *)
Lemma inner_loop (biz : TimeInterval) (S : list (Z * Z * string)) (acc : Z) :
  foldl (fun uptime_seconds '(s_start, s_end, s_status) =>
    let overlap := overlap_seconds (mkTimeInterval s_start s_end) biz in
    if decide (overlap <= 0) then uptime_seconds
    else if decide (Py.lower s_status = "active")
         then uptime_seconds + overlap
         else uptime_seconds) acc S
  = acc + sumZ (contribution biz <$> S).
Proof.
  revert acc. induction S as [|[[s e] st] S IH]; intros acc; [simpl; lia|].
  rewrite fmap_cons, sumZ_cons. cbn [foldl]. rewrite IH.
  pose proof (overlap_nonneg (mkTimeInterval s e) biz).
  rewrite contribution_eq. cbv zeta. repeat case_decide; lia.
Qed.

Lemma outer_loop (S : list (Z * Z * string)) (B : list TimeInterval)
    (acc : Z) :
  foldl (fun uptime_seconds biz =>
    foldl (fun uptime_seconds '(s_start, s_end, s_status) =>
      let overlap := overlap_seconds (mkTimeInterval s_start s_end) biz in
      if decide (overlap <= 0) then uptime_seconds
      else if decide (Py.lower s_status = "active")
           then uptime_seconds + overlap
           else uptime_seconds)
      uptime_seconds S)
    acc B
  = acc + sumZ ((fun biz => sumZ (contribution biz <$> S)) <$> B).
Proof.
  revert acc. induction B as [|b B IH]; intros acc; [simpl; lia|].
  rewrite fmap_cons, sumZ_cons. cbn [foldl]. rewrite IH, inner_loop. lia.
Qed.

Lemma uptime_loop_sum (S : list (Z * Z * string)) (B : list TimeInterval) :
  uptime_loop S B = sumZ ((fun biz => sumZ (contribution biz <$> S)) <$> B).
Proof. unfold uptime_loop. rewrite outer_loop. lia. Qed.

Lemma sumZ_app (l1 l2 : list Z) : sumZ (l1 ++ l2) = sumZ l1 + sumZ l2.
Proof.
  induction l1 as [|x l1 IH]; [reflexivity|].
  rewrite <- app_comm_cons, !sumZ_cons. lia.
Qed.

Lemma sumZ_nonneg (l : list Z) : Forall (fun x => 0 <= x) l -> 0 <= sumZ l.
Proof. induction 1; [reflexivity|]. rewrite sumZ_cons. lia. Qed.

Lemma uptime_loop_nonneg (S : list (Z * Z * string)) (B : list TimeInterval) :
  0 <= uptime_loop S B.
Proof.
  rewrite uptime_loop_sum. apply sumZ_nonneg.
  rewrite Forall_fmap. apply Forall_true. intros b. simpl.
  apply sumZ_nonneg. rewrite Forall_fmap. apply Forall_true. intros iv.
  apply contribution_nonneg.
Qed.

(** An interval whose status does not lower to [active] adds nothing. *)
Lemma uptime_loop_skip (l1 l2 : list (Z * Z * string)) (iv : Z * Z * string)
    (B : list TimeInterval) :
  Py.lower iv.2 <> "active" ->
  uptime_loop (l1 ++ iv :: l2) B = uptime_loop (l1 ++ l2) B.
Proof.
  intros Hst. rewrite !uptime_loop_sum. f_equal.
  apply list_fmap_ext. intros _ b _.
  rewrite !fmap_app, fmap_cons, !sumZ_app, sumZ_cons.
  destruct iv as [[s e] st]. rewrite contribution_eq. simpl in Hst.
  case_decide; [done|lia].
Qed.

Lemma uptime_loop_nil (B : list TimeInterval) : uptime_loop [] B = 0.
Proof.
  rewrite uptime_loop_sum. induction B as [|b B IH]; [done|].
  rewrite fmap_cons, sumZ_cons, IH. done.
Qed.

(** The uptime [_compute] returns, in all of its branches. *)
Lemma compute_uptime (S : list (Z * Z * string)) (B : list TimeInterval) :
  (_compute S B).1
  = if decide (total_business_seconds B <= 0) then 0
    else Z.max 0 (uptime_loop S B).
Proof.
  unfold _compute. case_decide; [done|].
  destruct S; [|done]. simpl. by rewrite uptime_loop_nil.
Qed.

(** Against one business interval, a chain of status intervals
    contributes at most the part of the business interval from [lo] on. *)
Lemma chain_bound (biz : TimeInterval) (S : list (Z * Z * string)) (lo : Z) :
  start biz <= end_ biz -> chain lo S ->
  sumZ (contribution biz <$> S)
  <= end_ biz - Z.max (start biz) (Z.min lo (end_ biz)).
Proof.
  intros Hb. revert lo. induction S as [|[[s e] st] S IH]; intros lo Hc.
  { simpl. lia. }
  destruct Hc as (Hlo & Hse & Hc). specialize (IH e Hc).
  rewrite fmap_cons, sumZ_cons.
  assert (contribution biz (s, e, st)
          <= Z.max 0 (Z.min e (end_ biz) - Z.max s (start biz))) as Hh.
  { rewrite contribution_eq. unfold overlap_seconds. simpl. case_decide; lia. }
  lia.
Qed.

Lemma uptime_le_business (S : list (Z * Z * string)) (B : list TimeInterval)
    (lo : Z) :
  chain lo S -> Forall (fun b => start b <= end_ b) B ->
  uptime_loop S B <= total_business_seconds B.
Proof.
  intros Hc HB. rewrite uptime_loop_sum, total_business_seconds_sum.
  induction HB as [|b B Hb HB IH]; [simpl; lia|].
  rewrite !fmap_cons, !sumZ_cons.
  pose proof (chain_bound b S lo Hb Hc). lia.
Qed.

Lemma total_business_seconds_nonneg (B : list TimeInterval) :
  Forall (fun b => start b <= end_ b) B -> 0 <= total_business_seconds B.
Proof.
  intros HB. rewrite total_business_seconds_sum. apply sumZ_nonneg.
  rewrite Forall_fmap. eapply Forall_impl; [exact HB|]. simpl. lia.
Qed.

(** The pair [_compute] returns splits the business time. *)
Lemma compute_partition (S : list (Z * Z * string)) (B : list TimeInterval)
    (lo : Z) :
  chain lo S -> Forall (fun b => start b <= end_ b) B ->
  0 <= (_compute S B).1 /\ 0 <= (_compute S B).2
  /\ (_compute S B).1 + (_compute S B).2 = total_business_seconds B.
Proof.
  intros Hc HB. unfold _compute.
  pose proof (total_business_seconds_nonneg B HB).
  pose proof (uptime_le_business S B lo Hc HB).
  pose proof (uptime_loop_nonneg S B).
  case_decide; [simpl; lia|].
  destruct S; simpl; lia.
Qed.

End ComputeFacts.

(** C6. Whatever the status intervals, business time of zero seconds gives
    the pair (0, 0); with no status interval and a positive business time
    the pair is (0, business seconds). *)
Theorem C6_degenerate_pairs :
  forall (status_intervals : list (Z * Z * string))
         (biz_intervals : list TimeInterval),
    (total_business_seconds biz_intervals = 0 ->
     _compute status_intervals biz_intervals = (0, 0))
    /\ (status_intervals = [] -> 0 < total_business_seconds biz_intervals ->
        _compute status_intervals biz_intervals
        = (0, total_business_seconds biz_intervals)).
Proof.
  intros S B. unfold _compute. split.
  - intros ->. reflexivity.
  - intros -> Hpos. case_decide; [lia|reflexivity].
Qed.

(** Both cases at concrete inputs: a status interval against no business
    time, and eight business hours without any status interval. *)
Lemma C6_degenerate_pairs_witness :
  _compute [(0, Time.hours 1, "active")] [] = (0, 0)
  /\ _compute [] [mkTimeInterval (Time.hours 9) (Time.hours 17)]
     = (0, Time.hours 8).
Proof.
  split.
  - apply (proj1 (C6_degenerate_pairs [(0, Time.hours 1, "active")] [])).
    reflexivity.
  - apply (proj2 (C6_degenerate_pairs []
                    [mkTimeInterval (Time.hours 9) (Time.hours 17)]));
      [reflexivity | vm_compute; reflexivity].
Defined.

(** ** Status labels *)

Module LabelFacts.
Import Reconstruction.

Lemma fmap_lookup_total_seq {A} `{!Inhabited A} (l : list A) :
  (fun i : nat => l !!! i) <$> seq 0 (length l) = l.
Proof.
  induction l as [|x l IH]; [done|].
  cbn [length seq fmap list_fmap]. f_equal.
  rewrite <- fmap_S_seq, <- list_fmap_compose.
  etransitivity; [|exact IH]. by apply list_fmap_ext.
Qed.

Lemma omap_labels_sublist {A B C} (f : A -> option B) (g : B -> C)
    (h : A -> C) (l : list A) :
  (forall x y, f x = Some y -> g y = h x) ->
  (g <$> omap f l) `sublist_of` (h <$> l).
Proof.
  intros Hf. induction l as [|x l IH]; [done|].
  csimpl. destruct (f x) as [y|] eqn:E.
  - csimpl. rewrite (Hf x y E). by constructor.
  - by constructor.
Qed.

(** The statuses of the reconstructed intervals are statuses of the
    polls, in the order of the polls and unchanged. *)
Lemma labels_verbatim (polls : list poll) (ws we M : Z) :
  (_build_status_intervals_for_window polls ws we M).*2
  `sublist_of` polls.*2.
Proof.
  rewrite ReconstructionFacts.build_is_midpoint_rule.
  unfold spec_status_intervals, n.
  rewrite <- (fmap_lookup_total_seq polls) at 3.
  rewrite <- list_fmap_compose.
  apply omap_labels_sublist. intros i y. unfold spec_interval.
  case_decide; [|done]. by intros [= <-].
Qed.

End LabelFacts.

(** C7, as stated, fails: the status [ACTIVE] is neither [active] nor
    [inactive], yet the interval [(0, 1h, ACTIVE)] adds a full hour of
    uptime against the business interval [[0, 1h)], because the test is
    [s_status.lower() == "active"]. *)
Lemma C7_counterexample :
  ~ (forall (iv : Z * Z * string) (l1 l2 : list (Z * Z * string))
            (biz_intervals : list TimeInterval),
       iv.2 <> "active" -> iv.2 <> "inactive" ->
       (_compute (l1 ++ iv :: l2) biz_intervals).1
       = (_compute (l1 ++ l2) biz_intervals).1).
Proof.
  intros H.
  specialize (H (0, Time.hours 1, "ACTIVE") [] []
                [mkTimeInterval 0 (Time.hours 1)]).
  vm_compute in H. by specialize (H ltac:(by intros [=]) ltac:(by intros [=])).
Qed.

(** C7, amended. A poll whose status is not [active] after lowering its
    ASCII letters keeps its interval in the reconstruction output: whenever
    its midpoint interval, clipped to the padded window, is not empty, the
    output holds that interval with the status string of the poll unchanged,
    and the uptime computed from the output is the uptime computed without
    it, against the business intervals of any window.  The reconstruction
    drops nothing else and invents nothing: every output interval is the
    clipped, non-empty interval of a poll and carries the status string of
    that poll, in the order of the polls.  A status interval with such a
    status adds nothing to the uptime wherever it stands. *)
Theorem C7_non_active_status :
  forall (polls : list (Z * string)) (W_start W_end M : Z)
         (i : nat) (t : Z) (st : string),
    polls !! i = Some (t, st) ->
    Py.lower st <> "active" ->
    let out :=
      Reconstruction._build_status_intervals_for_window polls W_start W_end M in
    let lo := Z.max (Reconstruction.start_ polls M i) (W_start - M) in
    let hi := Z.min (Reconstruction.end__ polls M i) (W_end + M) in
    (lo < hi ->
     exists l1 l2,
       out = l1 ++ (lo, hi, st) :: l2
       /\ forall biz_intervals : list TimeInterval,
            uptime_loop out biz_intervals
            = uptime_loop (l1 ++ l2) biz_intervals
            /\ (_compute out biz_intervals).1
               = (_compute (l1 ++ l2) biz_intervals).1)
    /\ (forall iv, iv ∈ out ->
          exists (j : nat) (tj : Z),
            polls !! j = Some (tj, iv.2)
            /\ iv.1.1 = Z.max (Reconstruction.start_ polls M j) (W_start - M)
            /\ iv.1.2 = Z.min (Reconstruction.end__ polls M j) (W_end + M)
            /\ iv.1.1 < iv.1.2)
    /\ out.*2 `sublist_of` polls.*2
    /\ (forall (s e : Z) (l1 l2 : list (Z * Z * string))
               (biz_intervals : list TimeInterval),
          uptime_loop (l1 ++ (s, e, st) :: l2) biz_intervals
          = uptime_loop (l1 ++ l2) biz_intervals
          /\ (_compute (l1 ++ (s, e, st) :: l2) biz_intervals).1
             = (_compute (l1 ++ l2) biz_intervals).1).
Proof.
  intros polls ws we M i t st Hi Hst out lo hi.
  assert (forall s e l1 l2 B,
            uptime_loop (l1 ++ (s, e, st) :: l2) B = uptime_loop (l1 ++ l2) B
            /\ (_compute (l1 ++ (s, e, st) :: l2) B).1
               = (_compute (l1 ++ l2) B).1) as Hzero.
  { intros s e l1 l2 B.
    pose proof (ComputeFacts.uptime_loop_skip l1 l2 (s, e, st) B Hst) as Hskip.
    split; [done|]. by rewrite !ComputeFacts.compute_uptime, Hskip. }
  assert (out = omap (Reconstruction.spec_interval polls ws we M)
                     (seq 0 (length polls))) as Hout.
  { subst out. by rewrite ReconstructionFacts.build_is_midpoint_rule. }
  split; [|split; [|split]].
  - intros Hne. pose proof (lookup_lt_Some _ _ _ Hi) as Hlt.
    assert (Reconstruction.spec_interval polls ws we M i = Some (lo, hi, st))
      as Hiv.
    { unfold Reconstruction.spec_interval. cbv zeta. fold lo hi.
      rewrite decide_True by done.
      by rewrite (list_lookup_total_correct _ _ _ Hi). }
    set (l1 := omap (Reconstruction.spec_interval polls ws we M) (seq 0 i)).
    set (l2 := omap (Reconstruction.spec_interval polls ws we M)
                    (seq (S i) (length polls - S i))).
    assert (out = l1 ++ (lo, hi, st) :: l2) as Hdec.
    { rewrite Hout. subst l1 l2.
      replace (length polls) with (i + S (length polls - S i))%nat at 1 by lia.
      rewrite seq_app, omap_app. cbn [seq]. csimpl.
      by rewrite Hiv. }
    exists l1, l2. split; [done|]. intros B. rewrite Hdec. apply Hzero.
  - intros iv. rewrite Hout. intros (j & [_ Hj]%elem_of_seq & Hiv)%list_elem_of_omap.
    unfold Reconstruction.spec_interval in Hiv. cbv zeta in Hiv.
    case_decide as Hne; [|done]. injection Hiv as <-.
    destruct (lookup_lt_is_Some_2 polls j ltac:(lia)) as [[tj stj] Hpj].
    exists j, tj. rewrite (list_lookup_total_correct _ _ _ Hpj). by cbn.
  - apply LabelFacts.labels_verbatim.
  - apply Hzero.
Qed.

(** A status outside the alphabet, polled between two active polls. *)
Lemma C7_non_active_status_witness :
  Py.lower "Paused" <> "active"
  /\ exists l1 l2,
       Reconstruction._build_status_intervals_for_window
         [(Time.hours 9, "active"); (Time.hours 10, "Paused");
          (Time.hours 11, "active")]
         (Time.hours 8) (Time.hours 12) (Time.hours 1)
       = l1 ++ (Time.hours 9 + Time.hours 1 / 2,
                Time.hours 10 + Time.hours 1 / 2, "Paused") :: l2
       /\ forall biz_intervals : list TimeInterval,
            uptime_loop
              (Reconstruction._build_status_intervals_for_window
                 [(Time.hours 9, "active"); (Time.hours 10, "Paused");
                  (Time.hours 11, "active")]
                 (Time.hours 8) (Time.hours 12) (Time.hours 1))
              biz_intervals
            = uptime_loop (l1 ++ l2) biz_intervals.
Proof.
  split; [by intros [=]|].
  destruct (C7_non_active_status
              [(Time.hours 9, "active"); (Time.hours 10, "Paused");
               (Time.hours 11, "active")]
              (Time.hours 8) (Time.hours 12) (Time.hours 1)
              1%nat (Time.hours 10) "Paused" eq_refl ltac:(by intros [=]))
    as [Hkept _].
  destruct (Hkept ltac:(by vm_compute)) as (l1 & l2 & Hout & Hup).
  exists l1, l2. split; [exact Hout|]. intros B. apply (Hup B).
Defined.

(** ** Sorting by a key *)

Module SortFacts.
Section Key.
Context {A : Type} (key : A -> Z).

Lemma insert_by_Permutation (x : A) (l : list A) :
  insert_by key x l ≡ₚ x :: l.
Proof.
  induction l as [|y l IH]; [done|]. simpl. case_decide; [done|].
  rewrite IH. apply Permutation_swap.
Qed.

Lemma sort_by_Permutation (l : list A) : sort_by key l ≡ₚ l.
Proof.
  induction l as [|x l IH]; [done|]. unfold sort_by in *. simpl.
  by rewrite insert_by_Permutation, IH.
Qed.

Lemma insert_by_sorted (x : A) (l : list A) :
  StronglySorted (by_key key) l -> StronglySorted (by_key key) (insert_by key x l).
Proof.
  induction 1 as [|y l Hs IH Hy]; simpl.
  { repeat constructor. }
  case_decide as Hd.
  - constructor; [by constructor|]. constructor; [done|].
    eapply Forall_impl; [exact Hy|]. unfold by_key. intros; lia.
  - constructor; [done|].
    rewrite insert_by_Permutation. constructor; [|done].
    unfold by_key. lia.
Qed.

Lemma sort_by_sorted (l : list A) : StronglySorted (by_key key) (sort_by key l).
Proof.
  induction l as [|x l IH]; [constructor|].
  by apply insert_by_sorted.
Qed.

Lemma sort_by_Forall (P : A -> Prop) (l : list A) :
  Forall P l -> Forall P (sort_by key l).
Proof. by rewrite sort_by_Permutation. Qed.
End Key.
End SortFacts.

(** ** Business-hours expansion *)

Module BusinessFacts.
Section Zones.
Context {zones : ZoneDatabase}.

Lemma expand_row_nonempty tz ws we cur_date bh it :
  expand_row tz ws we cur_date bh = Some it -> start it < end_ it.
Proof.
  unfold expand_row. cbv zeta. case_decide; [|done].
  intros [= <-]. simpl. lia.
Qed.

Lemma sorted_merge_ordered (biz : list TimeInterval) :
  Forall (fun it => start it < end_ it) biz ->
  Forall (fun b => start b <= end_ b) (merge_sorted (sort_by_start biz)).
Proof.
  intros Hbiz. apply (SortFacts.sort_by_Forall start) in Hbiz.
  unfold sort_by_start.
  destruct (sort_by start biz) as [|first rest]; [constructor|].
  rewrite MergeFacts.merge_sorted_cons.
  eapply Forall_impl; [by apply MergeFacts.merge_from_nonempty|].
  simpl. intros; lia.
Qed.

(** With the default zone in the zone database the expansion returns. *)
Lemma business_intervals_return session store_id ws we tz_str :
  is_Some (ZoneInfo DEFAULT_TZ) ->
  is_Some (_get_business_intervals_for_window session store_id ws we tz_str).
Proof.
  intros [tz0 Hz]. unfold _get_business_intervals_for_window. cbv zeta.
  destruct (ZoneInfo (Py.or_str tz_str DEFAULT_TZ)) as [tz|];
    [|rewrite Hz]; simpl; repeat case_match; eauto.
Qed.

(** No business interval is reversed, and none is empty unless the
    window itself is. *)
Lemma business_intervals_ordered session store_id ws we tz_str l :
  ws <= we ->
  _get_business_intervals_for_window session store_id ws we tz_str = Some l ->
  Forall (fun b => start b <= end_ b) l.
Proof.
  intros Hw. unfold _get_business_intervals_for_window. cbv zeta.
  destruct (match ZoneInfo (Py.or_str tz_str DEFAULT_TZ) with
            | Some tz => Some tz
            | None => ZoneInfo DEFAULT_TZ
            end) as [tz|]; [|done]. simpl.
  destruct (filter _ (business_hours session)) as [|bh0 bhs].
  { intros [= <-]. repeat constructor. simpl. lia. }
  match goal with
  | |- context [mbind ?f ?dates] => set (biz := mbind f dates)
  end.
  assert (Forall (fun it => start it < end_ it) biz) as Hbiz.
  { subst biz. apply Forall_bind, Forall_true. intros cur_date.
    apply Forall_forall. intros it (bh & _ & Hit)%list_elem_of_omap.
    by eapply expand_row_nonempty. }
  clearbody biz. destruct biz as [|b0 biz'].
  { intros [= <-]. constructor. }
  intros [= <-]. by apply (sorted_merge_ordered (b0 :: biz')).
Qed.

(** A zone key the zone database does not know is replaced by the
    default zone. *)
Lemma unknown_zone_is_default session store_id ws we (tz_str : string) :
  ZoneInfo tz_str = None ->
  _get_business_intervals_for_window session store_id ws we (Some tz_str)
  = _get_business_intervals_for_window session store_id ws we
      (Some DEFAULT_TZ).
Proof.
  intros Hz. unfold _get_business_intervals_for_window. cbv zeta.
  assert (Py.or_str (Some DEFAULT_TZ) DEFAULT_TZ = DEFAULT_TZ) as ->
    by reflexivity.
  assert (ZoneInfo (Py.or_str (Some tz_str) DEFAULT_TZ) = None
          \/ Py.or_str (Some tz_str) DEFAULT_TZ = DEFAULT_TZ) as [-> | ->].
  { unfold Py.or_str. case_decide; auto. }
  - by destruct (ZoneInfo DEFAULT_TZ).
  - done.
Qed.
End Zones.
End BusinessFacts.

(** ** Reconstructed intervals follow one another *)

Module ChainFacts.
Import Time Reconstruction.

Section Sorted.
Variable p : list poll.
Variables ws we M : Z.
Hypothesis p_sorted : StronglySorted by_timestamp p.
Hypothesis M_nonneg : 0 <= M.

Lemma t_mono (i : nat) : (i + 1 < length p)%nat -> t p i <= t p (i + 1).
Proof.
  intros Hi. unfold t.
  destruct (lookup_lt_is_Some_2 p i ltac:(lia)) as [a Ha].
  destruct (lookup_lt_is_Some_2 p (i + 1) ltac:(lia)) as [b Hb].
  rewrite (list_lookup_total_correct _ _ _ Ha),
          (list_lookup_total_correct _ _ _ Hb).
  exact (MergeFacts.StronglySorted_lookup_lt by_timestamp p i (i + 1) a b
           p_sorted ltac:(lia) Ha Hb).
Qed.

Lemma mid_between (i : nat) :
  (i + 1 < length p)%nat -> t p i <= mid p i <= t p (i + 1).
Proof.
  intros Hi. unfold mid.
  pose proof (t_mono i Hi).
  pose proof (TimeFacts.timedelta_div_2_nonneg (t p (i + 1) - t p i)).
  lia.
Qed.

Lemma start_le_t (i : nat) : (i < length p)%nat -> start_ p M i <= t p i.
Proof.
  intros Hi. unfold start_. case_decide.
  - pose proof (mid_between (i - 1)) as Hm.
    replace (i - 1 + 1)%nat with i in Hm by lia. lia.
  - replace i with 0%nat by lia. lia.
Qed.

Lemma t_le_end (i : nat) : (i < length p)%nat -> t p i <= end__ p M i.
Proof.
  intros Hi. unfold end__, n. case_decide.
  - pose proof (mid_between i). lia.
  - replace (length p - 1)%nat with i by lia. lia.
Qed.

Lemma end_is_next_start (i : nat) :
  (i + 1 < length p)%nat -> end__ p M i = start_ p M (S i).
Proof.
  intros Hi. unfold end__, start_, n. repeat case_decide; try lia.
  by replace (S i - 1)%nat with i by lia.
Qed.

Lemma chain_seq (m k : nat) (lo : Z) :
  (k + m = length p)%nat ->
  (m <> 0%nat -> lo <= start_ p M k) ->
  chain lo (omap (spec_interval p ws we M) (seq k m)).
Proof.
  revert k lo. induction m as [|m IH]; intros k lo Hk Hlo; [done|].
  specialize (Hlo ltac:(lia)).
  pose proof (start_le_t k ltac:(lia)).
  pose proof (t_le_end k ltac:(lia)).
  assert (m <> 0%nat -> end__ p M k = start_ p M (S k)) as Hnext
    by (intros; apply end_is_next_start; lia).
  cbn [seq]. csimpl. unfold spec_interval at 1. cbv zeta. case_decide.
  - cbn [chain]. split; [lia|]. split; [lia|].
    apply IH; [lia|]. intros Hm. specialize (Hnext Hm). lia.
  - apply IH; [lia|]. intros Hm. specialize (Hnext Hm). lia.
Qed.

Lemma build_chain :
  exists lo, chain lo (_build_status_intervals_for_window p ws we M).
Proof.
  exists (start_ p M 0).
  rewrite ReconstructionFacts.build_is_midpoint_rule.
  apply chain_seq; [done|]. by intros _.
Qed.
End Sorted.

(** The polls a store's query returns are in ascending order. *)
Lemma fetch_sorted (session : Session) (store_id : string)
    (window_start window_end margin : Z) :
  StronglySorted by_timestamp
    (_fetch_polls_for_store session store_id window_start window_end margin).
Proof.
  unfold _fetch_polls_for_store. cbv zeta.
  eapply StronglySorted_fmap; [|apply SortFacts.sort_by_sorted].
  intros x y Hxy. exact Hxy.
Qed.

End ChainFacts.

(** C2. With the default zone in the zone database, the aggregation of any
    store at any reference instant returns, and for each of the three
    trailing windows the pair it computes has a non-negative uptime, a
    non-negative downtime, and a sum equal to the total duration of the
    store's merged business intervals inside the window (in exact
    arithmetic on microseconds). *)
Theorem C2_uptime_downtime_partition :
  forall {zones : ZoneDatabase} (session : Session) (store_id : string) (now_utc : Z),
    is_Some (ZoneInfo DEFAULT_TZ) ->
    exists l,
      compute_locals session store_id now_utc = Some l
      /\ forall w : Window,
           _get_business_intervals_for_window session store_id
             (window_start w now_utc) now_utc
             (Some (_get_timezone_for_store session store_id))
           = Some (business_of w l)
           /\ 0 <= (pair_of w l).1
           /\ 0 <= (pair_of w l).2
           /\ (pair_of w l).1 + (pair_of w l).2
              = total_business_seconds (business_of w l).
Proof.
  intros zones session sid now Hd. unfold compute_locals. cbv zeta.
  set (tz := Some (_get_timezone_for_store session sid)).
  set (S := Reconstruction._build_status_intervals_for_window _ _ _ _).
  destruct (ChainFacts.build_chain
              (_fetch_polls_for_store session sid
                 (now - Time.days 7 - Time.days 1) (now + Time.hours 1)
                 (Time.hours 12))
              (now - Time.days 7 - Time.days 1) (now + Time.hours 1)
              (Time.hours 12) (ChainFacts.fetch_sorted _ _ _ _ _)
              ltac:(by vm_compute)) as [lo Hchain].
  fold S in Hchain.
  destruct (BusinessFacts.business_intervals_return
              session sid (now - Time.hours 1) now tz Hd) as [bh Hh].
  destruct (BusinessFacts.business_intervals_return
              session sid (now - Time.hours 24) now tz Hd) as [bd Hbd].
  destruct (BusinessFacts.business_intervals_return
              session sid (now - Time.days 7) now tz Hd) as [bw Hw].
  rewrite Hh, Hbd, Hw. simpl. eexists. split; [reflexivity|].
  assert (forall ws b,
            ws <= now ->
            _get_business_intervals_for_window session sid ws now tz = Some b ->
            0 <= (_compute S b).1 /\ 0 <= (_compute S b).2
            /\ (_compute S b).1 + (_compute S b).2 = total_business_seconds b)
    as Hpair.
  { intros ws b Hws Hb. apply (ComputeFacts.compute_partition S b lo Hchain).
    exact (BusinessFacts.business_intervals_ordered
             session sid ws now tz b Hws Hb). }
  intros [| |]; cbn [window_start business_of pair_of biz_hour biz_day biz_week
                     hr day week]; (split; [done|]);
    eapply Hpair; try eassumption; unfold Time.hours, Time.days, Time.SECOND; lia.
Qed.

(** The first scenario of the specification: store [A], open all week in
    [UTC], with two active polls. *)
Lemma C2_uptime_downtime_partition_witness :
  is_Some (@ZoneInfo fixed_zones DEFAULT_TZ)
  /\ exists l,
       @compute_locals fixed_zones
         (mkSession
            [mkPoll "A" (Time.days 9 - Time.hours 1) "active";
             mkPoll "A" (Time.days 9 - Time.hours 2) "active"]
            (all_week "A")
            [mkStoreTimezone "A" (Some "UTC")])
         "A" (Time.days 9) = Some l
       /\ (pair_of LastHour l).1 + (pair_of LastHour l).2
          = total_business_seconds (business_of LastHour l).
Proof.
  split; [by eexists|].
  destruct (C2_uptime_downtime_partition (zones := fixed_zones)
              (mkSession
                 [mkPoll "A" (Time.days 9 - Time.hours 1) "active";
                  mkPoll "A" (Time.days 9 - Time.hours 2) "active"]
                 (all_week "A")
                 [mkStoreTimezone "A" (Some "UTC")])
              "A" (Time.days 9) ltac:(by eexists)) as (l & Hl & Hw).
  exists l. split; [exact Hl|]. exact (proj2 (proj2 (proj2 (Hw LastHour)))).
Defined.

(** ** The completion loop *)

Module LoopFacts.

Lemma set_percent_rows rid pct fin st :
  rows (set_percent rid pct fin st) = rows st
  /\ done (set_percent rid pct fin st) = done st.
Proof. unfold set_percent. by destruct (reports st !! rid). Qed.

(** With the row of the report in the table, the value is committed and
    logged, and the row stays. *)
Lemma set_percent_present rid pct fin st rep :
  reports st !! rid = Some rep ->
  published (set_percent rid pct fin st) = published st ++ [pct]
  /\ exists rep', reports (set_percent rid pct fin st) !! rid = Some rep'
                  /\ percent_complete rep' = pct
                  /\ status rep' = status rep
                  /\ csv_path rep' = csv_path rep.
Proof.
  intros Hrep. unfold set_percent. rewrite Hrep. simpl.
  split; [done|]. eexists. rewrite lookup_insert_eq. done.
Qed.

Section Loop.
Variable outcome : string -> option StoreReport.
Variable total : Z.

Lemma loop_rows rid (l : list string) (st : Progress) :
  rows (foldl (complete_one outcome rid total) st l)
  = rows st ++ (row_for outcome <$> l)
  /\ done (foldl (complete_one outcome rid total) st l)
     = done st + Z.of_nat (length l).
Proof.
  revert st. induction l as [|sid l IH]; intros st.
  { simpl. rewrite app_nil_r. split; [done|lia]. }
  cbn [foldl]. destruct (IH (complete_one outcome rid total st sid)) as [-> ->].
  unfold complete_one. cbv zeta.
  destruct (_ && _);
    [rewrite (proj1 (set_percent_rows _ _ _ _)),
             (proj2 (set_percent_rows _ _ _ _))|];
    simpl; rewrite <- app_assoc; split; (done || lia).
Qed.

(** With a non-empty report id whose row is in the table, the loop
    publishes at the completions that [publishes] selects. *)
Lemma loop_published (r : string) (l : list string) (st : Progress) :
  r <> "" -> is_Some (reports st !! r) ->
  published (foldl (complete_one outcome (Some r) total) st l)
  = published st
    ++ loop_publications total (done st + 1) (Z.of_nat (length l))
  /\ is_Some (reports (foldl (complete_one outcome (Some r) total) st l) !! r).
Proof.
  intros Hr. revert st. induction l as [|sid l IH]; intros st Hrep.
  { simpl. unfold loop_publications. rewrite seqZ_nil by lia.
    by rewrite app_nil_r. }
  cbn [foldl]. unfold loop_publications.
  rewrite seqZ_cons by (cbn [length]; lia). rewrite filter_cons.
  replace (Z.pred (Z.of_nat (length (sid :: l)))) with (Z.of_nat (length l))
    by (cbn [length]; lia).
  set (st1 := complete_one outcome (Some r) total st sid).
  assert (done st1 = done st + 1) as Hdone.
  { subst st1. unfold complete_one. cbv zeta.
    destruct (_ && _); [rewrite (proj2 (set_percent_rows _ _ _ _))|]; done. }
  assert (published st1
          = published st
            ++ (if decide (publishes total (done st + 1))
                then [percent (done st + 1) total] else [])
          /\ is_Some (reports st1 !! r)) as [Hpub Hrep1].
  { subst st1. unfold complete_one. cbv zeta.
    assert (Py.truthy (Some r) = true) as -> by
      (unfold Py.truthy; by rewrite bool_decide_eq_true).
    cbn [andb]. change (default "" (Some r)) with r. unfold publishes.
    destruct Hrep as [rep Hrep].
    destruct (bool_decide (_ = 0) || bool_decide (_ = total)) eqn:E.
    - apply orb_true_iff in E.
      rewrite !bool_decide_eq_true in E. rewrite decide_True by done.
      match goal with
      | |- context [set_percent r ?pct None ?s] =>
        destruct (set_percent_present r pct None s rep Hrep)
          as (Hp & rep' & Hr' & _)
      end.
      rewrite Hp. split; [done|]. eauto.
    - apply orb_false_iff in E.
      rewrite !bool_decide_eq_false in E. rewrite decide_False by tauto.
      simpl. rewrite app_nil_r. eauto. }
  destruct (IH st1 Hrep1) as [-> Hfin]. split; [|done].
  rewrite Hpub, Hdone, <- app_assoc. f_equal.
  replace (Z.succ (done st + 1)) with (done st + 1 + 1) by lia.
  unfold loop_publications. by case_decide.
Qed.
End Loop.

End LoopFacts.

(** ** The store set *)

Module GatherFacts.

Lemma elem_of_add_all (ids : gset string) (rows : list string) (x : string) :
  x ∈ add_all ids rows <-> x ∈ ids \/ x ∈ rows.
Proof.
  unfold add_all. revert ids.
  induction rows as [|r rows IH]; intros ids; cbn [foldl].
  - rewrite elem_of_nil. tauto.
  - rewrite IH, elem_of_cons, elem_of_union, elem_of_singleton. tauto.
Qed.

(** The store set is the union of the ids of the three tables. *)
Lemma gather_elem (session : Session) (sid : string) :
  sid ∈ _gather_store_ids session
  <-> sid ∈ poll_store_id <$> polls session
      \/ sid ∈ bh_store_id <$> business_hours session
      \/ sid ∈ tz_store_id <$> store_timezones session.
Proof.
  unfold _gather_store_ids. cbv zeta.
  rewrite merge_sort_Permutation, elem_of_elements, !elem_of_add_all,
    !elem_of_remove_dups, elem_of_empty.
  tauto.
Qed.

Lemma gather_NoDup (session : Session) : NoDup (_gather_store_ids session).
Proof.
  unfold _gather_store_ids. cbv zeta.
  rewrite merge_sort_Permutation. apply NoDup_elements.
Qed.


End GatherFacts.

(** ** Progress values *)

Module PercentFacts.
Local Open Scope Qc_scope.

Lemma hundred_nonneg : 0 <= Qc_of_Z 100.
Proof. rewrite <- Z2Qc_inj_0. apply (proj1 (Z2Qc_inj_le 0 100)). lia. Qed.

Lemma percent_mono (total d d' : Z) :
  (0 < total)%Z -> (d <= d')%Z -> percent d total <= percent d' total.
Proof.
  intros Ht Hd. unfold percent, Qcdiv.
  apply Qcmult_le_mono_nonneg_r; [apply hundred_nonneg|].
  apply Qcmult_le_mono_nonneg_r; [|exact (proj1 (Z2Qc_inj_le _ _) Hd)].
  apply Qclt_le_weak, Qcinv_pos.
  rewrite <- Z2Qc_inj_0. exact (proj1 (Z2Qc_inj_lt _ _) Ht).
Qed.

Lemma percent_full (total : Z) :
  total <> 0%Z -> percent total total = Qc_of_Z 100.
Proof.
  intros Ht. unfold percent, Qcdiv.
  rewrite Qcmult_inv_r, Qcmult_1_l; [done|].
  rewrite <- Z2Qc_inj_0. by intros ?%Z2Qc_inj.
Qed.

Lemma loop_publications_cons (total first : Z) (count : nat) :
  loop_publications total first (Z.of_nat (S count))
  = (if decide (publishes total first) then [percent first total] else [])
    ++ loop_publications total (first + 1) (Z.of_nat count).
Proof.
  unfold loop_publications. rewrite seqZ_cons by lia. rewrite filter_cons.
  replace (Z.pred (Z.of_nat (S count))) with (Z.of_nat count) by lia.
  replace (Z.succ first) with (first + 1)%Z by lia.
  by case_decide.
Qed.

(** The values published over a stretch of completions rise, from the
    percentage of the first completion of the stretch to at most 100. *)
Lemma loop_publications_sorted (total : Z) (count : nat) (first : Z) :
  (0 < total)%Z -> (first + Z.of_nat count - 1 <= total)%Z ->
  StronglySorted Qcle (loop_publications total first (Z.of_nat count))
  /\ Forall (fun q => percent first total <= q /\ q <= Qc_of_Z 100)
            (loop_publications total first (Z.of_nat count)).
Proof.
  intros Ht. revert first.
  induction count as [|count IH]; intros first Hc.
  { unfold loop_publications. rewrite seqZ_nil by lia. split; constructor. }
  rewrite loop_publications_cons.
  destruct (IH (first + 1)%Z ltac:(lia)) as [Hs Hf].
  assert (Forall (fun q => percent first total <= q /\ q <= Qc_of_Z 100)
                 (loop_publications total (first + 1) (Z.of_nat count))) as Hf'.
  { eapply Forall_impl; [exact Hf|]. intros q [Hq1 Hq2]. split; [|done].
    etransitivity; [|exact Hq1]. apply percent_mono; lia. }
  case_decide; [|done]. cbn [app]. split.
  - constructor; [done|]. eapply Forall_impl; [exact Hf'|]. by intros q [? _].
  - constructor; [|done]. split; [done|].
    rewrite <- (percent_full total) by lia. apply percent_mono; lia.
Qed.

End PercentFacts.

(** ** What a run of [generate_report] leaves *)

Module ReportFacts.
Section Env.
Context {zones : ZoneDatabase} {sched : Scheduler} {hst : Host}.

Lemma own_row (session : Session) (now_utc : Z) (sid : string) :
  store_id
    (row_for (fun sid => compute_uptime_for_store_internal session sid now_utc)
             sid) = sid.
Proof.
  unfold row_for.
  destruct (compute_uptime_for_store_internal session sid now_utc)
    as [r|] eqn:E; [|done].
  unfold compute_uptime_for_store_internal in E.
  case_guard; [|done]. simpl in E.
  destruct (compute_locals session sid now_utc) as [l|]; [|done].
  simpl in E. destruct (hr l), (day l), (week l). by injection E as <-.
Qed.

Lemma own_rows (session : Session) (now_utc : Z) (l : list string) :
  store_id
  <$> (row_for (fun sid => compute_uptime_for_store_internal session sid now_utc)
       <$> l) = l.
Proof.
  induction l as [|sid l IH]; [done|].
  rewrite !fmap_cons, IH. f_equal. apply own_row.
Qed.

(** A failed worker leaves the zero row of its store. *)
Lemma failed_row (session : Session) (now_utc : Z) (sid : string) :
  compute_uptime_for_store_internal session sid now_utc = None ->
  row_for (fun sid => compute_uptime_for_store_internal session sid now_utc)
          sid = zero_row sid.
Proof. intros E. unfold row_for. by rewrite E. Qed.

Lemma as_completed_nil : as_completed [] = [].
Proof. apply Permutation_nil_r, as_completed_perm. Qed.

(** On a writable path the run returns, and the body of the file is the
    rows of the stores in the order of completion. *)
Lemma generate_report_rows (session : Session) (table : gmap string Report)
    (out : string) (rid : option string) :
  writable out = true ->
  exists g,
    generate_report session table out rid = Some g
    /\ header (csv g) = COLUMNS
    /\ body (csv g)
       = row_for (fun sid => compute_uptime_for_store_internal session sid
                               (_get_now_from_db wall_clock session))
         <$> as_completed (_gather_store_ids session).
Proof.
  intros Hw. unfold generate_report. rewrite Hw. cbn [negb]. cbv zeta.
  case_decide as Ht.
  - eexists. split; [done|]. split; [done|]. simpl.
    assert (_gather_store_ids session = []) as ->
      by (apply length_zero_iff_nil; lia).
    by rewrite as_completed_nil.
  - eexists. split; [done|]. split; [done|]. simpl.
    by rewrite (proj1 (LoopFacts.loop_rows _ _ _ _ _)).
Qed.

(** With a report id whose row is in the table, the run publishes at
    the completions [publishes] selects and then 100. *)
Lemma generate_report_published (session : Session)
    (table : gmap string Report) (out r : string) (rep : Report) :
  r <> "" -> table !! r = Some rep -> writable out = true ->
  exists g,
    let total := Z.of_nat (length (_gather_store_ids session)) in
    generate_report session table out (Some r) = Some g
    /\ published_by_run g
       = loop_publications total 1 total
         ++ (if decide (total = 0) then [] else [Qc_of_Z 100])
    /\ is_Some (reports_after g !! r).
Proof.
  intros Hr Hrep Hw. unfold generate_report. rewrite Hw. cbn [negb]. cbv zeta.
  case_decide as Ht.
  - eexists. split; [done|]. simpl. rewrite Ht.
    unfold loop_publications. rewrite seqZ_nil by lia. eauto.
  - set (st := foldl _ _ _).
    assert (Py.truthy (Some r) = true) as ->
      by (unfold Py.truthy; by rewrite bool_decide_eq_true).
    change (default "" (Some r)) with r.
    edestruct (LoopFacts.loop_published
                 (fun sid => compute_uptime_for_store_internal session sid
                               (_get_now_from_db wall_clock session))
                 (Z.of_nat (length (_gather_store_ids session)))
                 r (as_completed (_gather_store_ids session))
                 (mkProgress [] 0 table []) Hr) as [Hpub [rep1 Hrep1]];
      [by eexists|].
    fold st in Hpub, Hrep1.
    destruct (LoopFacts.set_percent_present r (Qc_of_Z 100) (Some wall_clock)
                st rep1 Hrep1) as (Hp & rep' & Hr' & _).
    eexists. split; [done|]. simpl. rewrite Hp, Hpub. simpl.
    rewrite (Permutation_length (as_completed_perm _)). eauto.
Qed.
End Env.
End ReportFacts.

(** ** Rows of the [reports] table survive a run *)

Module TableFacts.

Lemma set_percent_keeps rid pct fin st (k : string) :
  is_Some (reports st !! k) ->
  is_Some (reports (set_percent rid pct fin st) !! k).
Proof.
  intros Hk. unfold set_percent.
  destruct (reports st !! rid) as [rep|] eqn:E; [|done]. simpl.
  destruct (decide (rid = k)) as [->|Hne].
  - rewrite lookup_insert_eq. by eexists.
  - by rewrite lookup_insert_ne.
Qed.

Lemma loop_keeps outcome rid total (l : list string) (st : Progress)
    (k : string) :
  is_Some (reports st !! k) ->
  is_Some (reports (foldl (complete_one outcome rid total) st l) !! k).
Proof.
  revert st. induction l as [|sid l IH]; intros st Hk; [done|].
  cbn [foldl]. apply IH. unfold complete_one. cbv zeta.
  destruct (_ && _); [|done]. by apply set_percent_keeps.
Qed.

Section Env.
Context {zones : ZoneDatabase} {sched : Scheduler} {hst : Host}.

Lemma generate_report_keeps (session : Session)
    (table : gmap string Report) (out : string) (rid : option string)
    (k : string) :
  writable out = true -> is_Some (table !! k) ->
  exists g, generate_report session table out rid = Some g
            /\ is_Some (reports_after g !! k).
Proof.
  intros Hw Hk. unfold generate_report. rewrite Hw. cbn [negb]. cbv zeta.
  case_decide; [by eexists|].
  eexists. split; [done|]. simpl.
  destruct (Py.truthy rid); [apply set_percent_keeps|];
    by apply loop_keeps.
Qed.

(** A run on a writable path ends with the row marked [Complete]. *)
Lemma run_completes (session : Session) (table : gmap string Report)
    (rid out : string) :
  writable out = true -> is_Some (table !! rid) ->
  exists g rep,
    generate_report session table out (Some rid) = Some g
    /\ reports_after g !! rid = Some rep
    /\ _run_and_store session table rid out
       = mkJobRun
           (<[ rid := mkReport (report_id rep) "Complete" (Qc_of_Z 100)
                        (Some wall_clock) (Some out) ]> (reports_after g))
           (Some (csv g)) (published_by_run g ++ [Qc_of_Z 100]) false.
Proof.
  intros Hw Hk.
  destruct (generate_report_keeps session table out (Some rid) rid Hw Hk)
    as (g & Hg & rep & Hrep).
  exists g, rep. split; [done|]. split; [done|].
  unfold _run_and_store. by rewrite Hg, Hrep.
Qed.

(** A run on a path that cannot be written ends with the row marked
    [Failed]. *)
Lemma run_fails (session : Session) (table : gmap string Report)
    (rid out : string) (rep : Report) :
  writable out = false -> table !! rid = Some rep ->
  _run_and_store session table rid out
  = mkJobRun
      (<[ rid := mkReport (report_id rep) "Failed" (Qc_of_Z 100)
                   (Some wall_clock) (csv_path rep) ]> table)
      None [Qc_of_Z 100] true.
Proof.
  intros Hw Hrep. unfold _run_and_store, generate_report.
  rewrite Hw. cbn [negb]. by rewrite Hrep.
Qed.
End Env.
End TableFacts.




(** C8. On a writable path the run returns a file with the header and
    exactly one row per distinct store id of the polls, schedules and
    timezones: the store ids of the rows are a duplicate-free rearrangement
    of the store set, which holds the ids of the three tables and no others.
    A store whose worker raised has the zero row, and the run still
    returns. *)
Theorem C8_one_row_per_store :
  forall {zones : ZoneDatabase} {sched : Scheduler} {hst : Host}
         (session : Session) (table : gmap string Report) (out : string)
         (rid : option string),
    writable out = true ->
    exists g,
      generate_report session table out rid = Some g
      /\ header (csv g) = COLUMNS
      /\ store_id <$> body (csv g) ≡ₚ _gather_store_ids session
      /\ NoDup (store_id <$> body (csv g))
      /\ (forall sid,
            sid ∈ store_id <$> body (csv g)
            <-> sid ∈ poll_store_id <$> polls session
                \/ sid ∈ bh_store_id <$> business_hours session
                \/ sid ∈ tz_store_id <$> store_timezones session)
      /\ (forall sid,
            sid ∈ _gather_store_ids session ->
            compute_uptime_for_store_internal session sid
              (_get_now_from_db wall_clock session) = None ->
            zero_row sid ∈ body (csv g)
            /\ forall r, r ∈ body (csv g) -> store_id r = sid ->
                 r = zero_row sid).
Proof.
  intros zones sched hst session table out rid Hw.
  destruct (ReportFacts.generate_report_rows session table out rid Hw)
    as (g & Hg & Hh & Hb).
  exists g. split; [done|]. split; [done|].
  assert (store_id <$> body (csv g) ≡ₚ _gather_store_ids session) as Hperm.
  { rewrite Hb, ReportFacts.own_rows. apply as_completed_perm. }
  split; [done|]. split; [rewrite Hperm; apply GatherFacts.gather_NoDup|].
  split; [intros sid; rewrite Hperm; apply GatherFacts.gather_elem|].
  intros sid Hsid Hfail. rewrite Hb. split.
  - rewrite <- (ReportFacts.failed_row session _ sid Hfail).
    apply list_elem_of_fmap_2. by rewrite as_completed_perm.
  - intros r (sid' & -> & _)%list_elem_of_fmap.
    rewrite ReportFacts.own_row. intros ->.
    by apply ReportFacts.failed_row.
Qed.

(** Two stores, [E] and [F]; the worker of [F] raises. *)
Lemma C8_one_row_per_store_witness :
  exists g,
    @generate_report fixed_zones lifo (host 0 ["F"])
      (mkSession [mkPoll "E" 0 "active"; mkPoll "F" 0 "active"] [] [])
      ∅ "out" None = Some g
    /\ store_id <$> body (csv g) ≡ₚ ["E"; "F"]
    /\ zero_row "F" ∈ body (csv g).
Proof.
  destruct (C8_one_row_per_store
              (zones := fixed_zones) (sched := lifo) (hst := host 0 ["F"])
              (mkSession [mkPoll "E" 0 "active"; mkPoll "F" 0 "active"] [] [])
              ∅ "out" None eq_refl)
    as (g & Hg & _ & Hperm & _ & _ & Hzero).
  exists g. split; [exact Hg|]. split; [exact Hperm|].
  refine (proj1 (Hzero "F" _ _)).
  - apply GatherFacts.gather_elem. left. simpl.
    apply elem_of_cons. right. apply elem_of_cons. by left.
  - by vm_compute.
Defined.

(** C9. For a run of the job of a non-empty report id whose row is in the
    table, with [N] stores and [k = max(1, min(5, N // 20))]: the completion
    loop publishes [done / N * 100] exactly at the completions [done] with
    [done mod k = 0] or [done = N], in order, then the run publishes 100 (if
    there was a store) and the job 100; the last completion is published,
    and its value is 100; the values committed are non-decreasing (as
    [done / N * 100] is in [done]) and end at 100, which is the
    [percent_complete] the job leaves. *)
Theorem C9_progress_publications :
  forall {zones : ZoneDatabase} {sched : Scheduler} {hst : Host}
         (session : Session) (table : gmap string Report) (rid out : string)
         (rep : Report),
    rid <> "" -> table !! rid = Some rep -> writable out = true ->
    let total := Z.of_nat (length (_gather_store_ids session)) in
    let job := _run_and_store session table rid out in
    update_every total = Z.max 1 (Z.min 5 (total / 20))
    /\ (exists g,
          generate_report session table out (Some rid) = Some g
          /\ published_by_run g
             = ((fun done => percent done total)
                <$> filter (fun done => done mod update_every total = 0
                                        \/ done = total)
                      (seqZ 1 total))
               ++ (if decide (total = 0) then [] else [Qc_of_Z 100])
          /\ committed job = published_by_run g ++ [Qc_of_Z 100])
    /\ (total <> 0 -> percent total total = Qc_of_Z 100)
    /\ (forall d d', 0 < total -> d <= d' ->
          (percent d total <= percent d' total)%Qc)
    /\ StronglySorted Qcle (committed job)
    /\ last (committed job) = Some (Qc_of_Z 100)
    /\ percent_complete <$> (table_after job !! rid) = Some (Qc_of_Z 100).
Proof.
  intros zones sched hst session table rid out rep Hr Hrep Hw total job.
  split.
  { unfold update_every, Py.or_int. case_decide as E; [rewrite E|]; lia. }
  destruct (ReportFacts.generate_report_published
              session table out rid rep Hr Hrep Hw) as (g & Hg & Hpub & _).
  cbv zeta in Hg, Hpub. fold total in Hpub.
  destruct (TableFacts.run_completes session table rid out Hw
              ltac:(by eexists)) as (g' & rep' & Hg' & Hrep' & Hjob).
  rewrite Hg in Hg'. injection Hg' as <-. fold job in Hjob.
  split; [|split; [|split; [|split; [|split]]]].
  - exists g. split; [done|]. split; [exact Hpub|]. by rewrite Hjob.
  - apply PercentFacts.percent_full.
  - intros d d'. apply PercentFacts.percent_mono.
  - rewrite Hjob. cbn [committed]. rewrite Hpub.
    destruct (decide (total = 0)) as [E|E].
    + rewrite E. unfold loop_publications. rewrite seqZ_nil by lia.
      repeat constructor.
    + destruct (PercentFacts.loop_publications_sorted
                  total (length (_gather_store_ids session)) 1
                  ltac:(lia) ltac:(lia)) as [Hs Hf].
      fold total in Hs, Hf. rewrite <- app_assoc.
      apply StronglySorted_app. split; [|split; [done|]].
      * intros x1 x2 Hx1 Hx2. rewrite Forall_forall in Hf.
        destruct (Hf x1 Hx1) as [_ Hle].
        apply elem_of_cons in Hx2 as [->|Hx2]; [done|].
        by apply list_elem_of_singleton in Hx2 as ->.
      * repeat constructor. reflexivity.
  - rewrite Hjob. cbn [committed]. apply last_snoc.
  - rewrite Hjob. cbn [table_after]. by rewrite lookup_insert_eq.
Qed.

(** A job over three stores, registered as report [r]. *)
Lemma C9_progress_publications_witness :
  StronglySorted Qcle
    (committed
       (@_run_and_store fixed_zones lifo (host 0 [])
          (mkSession [mkPoll "a" 0 "active"; mkPoll "b" 0 "inactive"]
                     [mkBusinessHour "c" 0 0 0] [])
          {[ "r" := mkReport "r" "Running" 0 None None ]} "r" "out"))
  /\ last
       (committed
          (@_run_and_store fixed_zones lifo (host 0 [])
             (mkSession [mkPoll "a" 0 "active"; mkPoll "b" 0 "inactive"]
                        [mkBusinessHour "c" 0 0 0] [])
             {[ "r" := mkReport "r" "Running" 0 None None ]} "r" "out"))
     = Some (Qc_of_Z 100).
Proof.
  destruct (C9_progress_publications
              (zones := fixed_zones) (sched := lifo) (hst := host 0 [])
              (mkSession [mkPoll "a" 0 "active"; mkPoll "b" 0 "inactive"]
                         [mkBusinessHour "c" 0 0 0] [])
              {[ "r" := mkReport "r" "Running" 0 None None ]} "r" "out"
              (mkReport "r" "Running" 0 None None)
              ltac:(by intros [=]) ltac:(apply lookup_singleton_eq) eq_refl)
    as (_ & _ & _ & _ & Hsorted & Hlast & _).
  split; [exact Hsorted | exact Hlast].
Defined.

(** ** The job endpoints *)

(** C4, as stated, fails: for a report in progress the answer holds the
    status only; [percent_complete] is not a key of it. *)
Lemma C4_counterexample :
  ~ (forall (table : gmap string Report) (rid : string) (rep : Report),
       table !! rid = Some rep -> status rep = "Running" ->
       get_report table rid !! "status" = Some (JString "Running")
       /\ is_Some (get_report table rid !! "percent_complete")).
Proof.
  intros Hc.
  destruct (Hc {[ "r" := mkReport "r" "Running" (Qc_of_Z 40) None None ]} "r"
               (mkReport "r" "Running" (Qc_of_Z 40) None None)
               ltac:(apply lookup_singleton_eq) eq_refl) as [_ [v Hv]].
  by vm_compute in Hv.
Qed.

(** C4, amended. [GET /get_report] answers [{status: NotFound}] for an
    unknown id; for a known report whose status is not [Complete] it answers
    [{status: <the stored status>}] and nothing else, which is
    [{status: Running}] from the trigger until the job ends and
    [{status: Failed}] after a job that failed; for a report whose status is
    [Complete], as a job that succeeded leaves it, it answers
    [{status: Complete, csv_path}]. *)
Theorem C4_get_report_answers :
  forall (table : gmap string Report) (rid : string),
    (table !! rid = None ->
     get_report table rid = {[ "status" := JString "NotFound" ]})
    /\ (forall rep, table !! rid = Some rep -> status rep <> "Complete" ->
          get_report table rid = {[ "status" := JString (status rep) ]})
    /\ (forall rep, table !! rid = Some rep -> status rep = "Complete" ->
          get_report table rid
          = <[ "csv_path" := json_of_text (csv_path rep) ]>
              {[ "status" := JString "Complete" ]})
    /\ get_report (trigger_report rid table).2 rid
       = {[ "status" := JString "Running" ]}
    /\ (forall (zones : ZoneDatabase) (sched : Scheduler) (hst : Host)
               (session : Session) (out : string),
          is_Some (table !! rid) ->
          (writable out = true ->
           get_report (table_after (_run_and_store session table rid out)) rid
           = <[ "csv_path" := JString out ]> {[ "status" := JString "Complete" ]})
          /\ (writable out = false ->
              get_report (table_after (_run_and_store session table rid out)) rid
              = {[ "status" := JString "Failed" ]})).
Proof.
  intros table rid. unfold get_report.
  split; [by intros ->|]. split; [|split; [|split]].
  - intros rep -> Hs. by rewrite decide_True.
  - intros rep -> Hs. rewrite decide_False; [done|]. by intros ?.
  - unfold trigger_report. cbn [snd]. by rewrite lookup_insert_eq.
  - intros zones sched hst session out Hk. split; intros Hw.
    + destruct (TableFacts.run_completes session table rid out Hw Hk)
        as (g & rep & _ & _ & ->).
      cbn [table_after]. by rewrite lookup_insert_eq.
    + destruct Hk as [rep Hrep].
      rewrite (TableFacts.run_fails session table rid out rep Hw Hrep).
      cbn [table_after]. by rewrite lookup_insert_eq.
Qed.

(** A report in progress and a job that cannot write its file. *)
Lemma C4_get_report_answers_witness :
  get_report {[ "r" := mkReport "r" "Running" (Qc_of_Z 40) None None ]} "r"
  = {[ "status" := JString "Running" ]}
  /\ get_report
       (table_after
          (@_run_and_store fixed_zones fifo (read_only_host 0)
             (mkSession [] [] [])
             {[ "r" := mkReport "r" "Running" 0 None None ]} "r" "out")) "r"
     = {[ "status" := JString "Failed" ]}.
Proof.
  split.
  - apply (proj1 (proj2 (C4_get_report_answers
                           {[ "r" := mkReport "r" "Running" (Qc_of_Z 40) None None ]}
                           "r"))
             (mkReport "r" "Running" (Qc_of_Z 40) None None)).
    + apply lookup_singleton_eq.
    + by intros [=].
  - destruct (C4_get_report_answers
                {[ "r" := mkReport "r" "Running" 0 None None ]} "r")
      as (_ & _ & _ & _ & Hjob).
    apply (Hjob fixed_zones fifo (read_only_host 0) (mkSession [] [] []) "out").
    + eexists. apply lookup_singleton_eq.
    + reflexivity.
Defined.

(** * Further properties of the code *)

(** ** Interval algebra *)

(** X1. [overlap_seconds] is symmetric and never negative, never exceeds
    the duration of either interval, and is zero exactly when the two
    intervals share no instant. *)
Theorem X1_overlap_seconds :
  forall a b : TimeInterval,
    overlap_seconds a b = overlap_seconds b a
    /\ 0 <= overlap_seconds a b
    /\ overlap_seconds a b <= Z.max 0 (end_ a - start a)
    /\ overlap_seconds a b <= Z.max 0 (end_ b - start b)
    /\ (overlap_seconds a b = 0 <-> forall x, ~ (covers a x /\ covers b x)).
Proof.
  intros a b. unfold overlap_seconds, covers. cbv zeta.
  split; [lia|]. split; [lia|]. split; [lia|]. split; [lia|]. split.
  - intros H0 x. lia.
  - intros Hx. specialize (Hx (Z.max (start a) (start b))). lia.
Qed.

(** ** More on the merge *)

Module MergeMore.

Lemma merge_from_length (rest : list TimeInterval) (l : TimeInterval) :
  (length (merge_from l rest) <= S (length rest))%nat.
Proof.
  revert l. induction rest as [|it rest IH]; intros l; [done|].
  cbn [merge_from length]. case_decide.
  - specialize (IH (mkTimeInterval (start l) (Z.max (end_ l) (end_ it)))). lia.
  - specialize (IH it). cbn [length]. lia.
Qed.

(** The output keeps the order of the starts, and none of its starts lies
    before the running interval's. *)
Lemma merge_from_by_start (rest : list TimeInterval) (l : TimeInterval) :
  StronglySorted by_start (l :: rest) ->
  StronglySorted by_start (merge_from l rest).
Proof.
  revert l. induction rest as [|it rest IH]; intros l Hs.
  { repeat constructor. }
  pose proof Hs as [Hs' Hl]%StronglySorted_inv.
  pose proof Hs' as [Hs'' Hit]%StronglySorted_inv.
  pose proof Hl as [Hli Hlr]%Forall_cons.
  cbn [merge_from]. case_decide.
  - apply IH. constructor; [done|]. eapply Forall_impl; [exact Hlr|]. done.
  - constructor; [by apply IH|].
    destruct (MergeFacts.merge_from_before rest it Hs') as [F _].
    eapply Forall_impl; [exact F|]. unfold by_start in *. simpl. intros; lia.
Qed.

(** Intervals that are already apart are left as they are. *)
Lemma merge_from_apart (rest : list TimeInterval) (l : TimeInterval) :
  StronglySorted before (l :: rest) -> merge_from l rest = l :: rest.
Proof.
  revert l. induction rest as [|it rest IH]; intros l Hs; [done|].
  pose proof Hs as [Hs' [Hli _]%Forall_cons]%StronglySorted_inv.
  cbn [merge_from]. unfold before in Hli.
  rewrite decide_False by lia. by rewrite IH.
Qed.

End MergeMore.

(** X2. On intervals sorted by start the merge is idempotent, returns its
    intervals in ascending order of start, and never returns more intervals
    than it was given. *)
Theorem X2_merge_sorted_idempotent :
  forall biz_intervals : list TimeInterval,
    Sorted by_start biz_intervals ->
    merge_sorted (merge_sorted biz_intervals) = merge_sorted biz_intervals
    /\ Sorted by_start (merge_sorted biz_intervals)
    /\ (length (merge_sorted biz_intervals) <= length biz_intervals)%nat.
Proof.
  intros l Hs. apply Sorted_StronglySorted in Hs; [|apply _].
  destruct l as [|first rest]; [by repeat split|].
  rewrite MergeFacts.merge_sorted_cons.
  destruct (MergeFacts.merge_from_before rest first Hs) as [_ Hb].
  split; [|split].
  - destruct (merge_from first rest) as [|m ms] eqn:E; [done|].
    rewrite MergeFacts.merge_sorted_cons. by apply MergeMore.merge_from_apart.
  - apply StronglySorted_Sorted. by apply MergeMore.merge_from_by_start.
  - apply MergeMore.merge_from_length.
Qed.

(** Two touching intervals and one apart. *)
Lemma X2_merge_sorted_idempotent_witness :
  merge_sorted
    (merge_sorted [mkTimeInterval 0 10; mkTimeInterval 10 20; mkTimeInterval 30 40])
  = merge_sorted [mkTimeInterval 0 10; mkTimeInterval 10 20; mkTimeInterval 30 40].
Proof.
  refine (proj1 (X2_merge_sorted_idempotent
    [mkTimeInterval 0 10; mkTimeInterval 10 20; mkTimeInterval 30 40] _)).
  repeat constructor; unfold by_start; simpl; lia.
Defined.

(** ** More on [_compute] *)

Module ComputeMore.

Lemma lower_ascii_idemp (c : Ascii.ascii) :
  Py.lower_ascii (Py.lower_ascii c) = Py.lower_ascii c.
Proof. by destruct c as [[] [] [] [] [] [] [] []]. Qed.

Lemma lower_idemp (s : string) : Py.lower (Py.lower s) = Py.lower s.
Proof.
  induction s as [|c s IH]; [done|]. cbn [Py.lower].
  by rewrite lower_ascii_idemp, IH.
Qed.

Lemma contribution_lowered (biz : TimeInterval) (iv : Z * Z * string) :
  contribution biz (lowered iv) = contribution biz iv.
Proof.
  destruct iv as [[s e] st]. unfold lowered. cbn [fst snd].
  rewrite !ComputeFacts.contribution_eq, lower_idemp. done.
Qed.

End ComputeMore.

(** X3. [_compute] never returns a negative number, whatever status and
    business intervals it is given (overlapping, reversed or unsorted ones
    included), and its downtime never exceeds the business time. *)
Theorem X3_compute_never_negative :
  forall (status_intervals : list (Z * Z * string))
         (biz_intervals : list TimeInterval),
    0 <= (_compute status_intervals biz_intervals).1
    /\ 0 <= (_compute status_intervals biz_intervals).2
    /\ (_compute status_intervals biz_intervals).2
       <= Z.max 0 (total_business_seconds biz_intervals).
Proof.
  intros S B. unfold _compute.
  pose proof (ComputeFacts.uptime_loop_nonneg S B).
  case_decide; [simpl; lia|]. destruct S; simpl; lia.
Qed.

(** X4. The status test of [_compute] ignores the case of ASCII letters:
    putting every status in lower case changes neither number of the
    pair. *)
Theorem X4_compute_case_insensitive :
  forall (status_intervals : list (Z * Z * string))
         (biz_intervals : list TimeInterval),
    _compute (lowered <$> status_intervals) biz_intervals
    = _compute status_intervals biz_intervals.
Proof.
  intros S B. unfold _compute. case_decide; [done|].
  assert (uptime_loop (lowered <$> S) B = uptime_loop S B) as E.
  { rewrite !ComputeFacts.uptime_loop_sum. f_equal.
    apply list_fmap_ext. intros _ b _. f_equal.
    rewrite <- list_fmap_compose. apply list_fmap_ext. intros _ iv _.
    apply ComputeMore.contribution_lowered. }
  destruct S; [done|]. rewrite <- E. done.
Qed.

(** ** The queries of the runner *)

Module QueryFacts.

Lemma foldl_max_spec (l : list Z) (a : Z) :
  foldl Z.max a l ∈ a :: l
  /\ Forall (fun x => x <= foldl Z.max a l) (a :: l).
Proof.
  revert a. induction l as [|x l IH]; intros a.
  { simpl. split; [left|]. repeat constructor. lia. }
  cbn [foldl]. destruct (IH (Z.max a x)) as [Hin Hle].
  apply Forall_cons in Hle as [Hm Hle]. split.
  - apply elem_of_cons in Hin as [->|Hin].
    + destruct (Z.max_spec a x) as [[_ ->]|[_ ->]]; [right; left|left].
    + by do 2 right.
  - constructor; [lia|]. constructor; [lia|done].
Qed.

(** The reference instant is a timestamp of the table and bounds them all. *)
Lemma now_is_max (wall : Z) (session : Session) :
  polls session <> [] ->
  _get_now_from_db wall session ∈ timestamp_utc <$> polls session
  /\ Forall (fun ts => ts <= _get_now_from_db wall session)
            (timestamp_utc <$> polls session).
Proof.
  intros Hne. unfold _get_now_from_db, _ensure_aware_utc.
  destruct (timestamp_utc <$> polls session) as [|ts rest] eqn:E.
  { by apply fmap_nil_inv in E. }
  apply foldl_max_spec.
Qed.

Lemma fetch_filter (session : Session) (store_id : string) (ws we M : Z) :
  _fetch_polls_for_store session store_id ws we M
  = (fun r => (timestamp_utc r, poll_status r))
    <$> sort_by timestamp_utc
          (filter (selected store_id (ws - M) (we + M)) (polls session)).
Proof.
  unfold _fetch_polls_for_store, order_by_timestamp, _ensure_aware_utc.
  cbv zeta. rewrite !list_filter_filter. do 2 f_equal.
  apply list_filter_iff. intros p. unfold selected. intuition lia.
Qed.

End QueryFacts.

(** X5. The reference instant read from the database is the wall clock when
    there are no polls; otherwise it is the timestamp of a poll and no poll
    is later.  It does not depend on the order of the rows of the table. *)
Theorem X5_now_is_latest_poll :
  forall (wall : Z) (session session' : Session),
    polls session' ≡ₚ polls session ->
    _get_now_from_db wall session' = _get_now_from_db wall session
    /\ (polls session = [] /\ _get_now_from_db wall session = wall
        \/ _get_now_from_db wall session ∈ timestamp_utc <$> polls session)
    /\ Forall (fun ts => ts <= _get_now_from_db wall session)
              (timestamp_utc <$> polls session).
Proof.
  intros wall s s' Hp.
  destruct (decide (polls s = [])) as [E|Hne].
  - rewrite E in Hp. apply Permutation_nil_r in Hp.
    unfold _get_now_from_db. rewrite E, Hp. simpl.
    split; [done|]. split; [by left|constructor].
  - assert (polls s' <> []) as Hne'.
    { intros E. rewrite E in Hp. symmetry in Hp.
      by apply Permutation_nil_r in Hp. }
    destruct (QueryFacts.now_is_max wall s Hne) as [Hin Hle].
    destruct (QueryFacts.now_is_max wall s' Hne') as [Hin' Hle'].
    split; [|split; [by right|done]].
    rewrite Forall_forall in Hle, Hle'.
    assert (timestamp_utc <$> polls s' ≡ₚ timestamp_utc <$> polls s) as Hts
      by (by rewrite Hp).
    apply Z.le_antisymm.
    + apply Hle. by rewrite <- Hts.
    + apply Hle'. by rewrite Hts.
Qed.

(** The same polls stored in two orders. *)
Lemma X5_now_is_latest_poll_witness :
  _get_now_from_db 0 (mkSession [mkPoll "a" 5 "active"; mkPoll "b" 9 "active"] [] [])
  = _get_now_from_db 0 (mkSession [mkPoll "b" 9 "active"; mkPoll "a" 5 "active"] [] []).
Proof.
  refine (proj1 (X5_now_is_latest_poll 0
    (mkSession [mkPoll "b" 9 "active"; mkPoll "a" 5 "active"] [] [])
    (mkSession [mkPoll "a" 5 "active"; mkPoll "b" 9 "active"] [] []) _)).
  simpl. apply Permutation_swap.
Defined.

(** X6. The list of store ids depends only on which ids occur in the three
    tables: the order of the rows, repeated ids, and the table an id comes
    from do not matter. *)
Theorem X6_store_ids_depend_on_the_id_set :
  forall session session' : Session,
    (forall sid,
       (sid ∈ poll_store_id <$> polls session
        \/ sid ∈ bh_store_id <$> business_hours session
        \/ sid ∈ tz_store_id <$> store_timezones session)
       <-> (sid ∈ poll_store_id <$> polls session'
            \/ sid ∈ bh_store_id <$> business_hours session'
            \/ sid ∈ tz_store_id <$> store_timezones session')) ->
    _gather_store_ids session = _gather_store_ids session'.
Proof.
  intros s s' Hids. unfold _gather_store_ids. cbv zeta. do 2 f_equal.
  apply set_eq. intros sid.
  rewrite !GatherFacts.elem_of_add_all, !elem_of_remove_dups, !elem_of_empty.
  specialize (Hids sid). tauto.
Qed.

(** An id that two tables repeat, against the id stored once. *)
Lemma X6_store_ids_depend_on_the_id_set_witness :
  _gather_store_ids
    (mkSession [mkPoll "b" 0 "active"; mkPoll "a" 0 "active"; mkPoll "b" 1 "active"]
               [] [mkStoreTimezone "a" None])
  = _gather_store_ids
      (mkSession [] [mkBusinessHour "a" 0 0 0; mkBusinessHour "b" 0 0 0] []).
Proof.
  apply X6_store_ids_depend_on_the_id_set. intros sid. simpl.
  rewrite !elem_of_cons, !elem_of_nil. tauto.
Defined.

(** X7. The query of a store's polls returns exactly the polls of that
    store whose timestamp lies in [[window_start - margin, window_end +
    margin]], bounds included, each once, in ascending order of timestamp. *)
Theorem X7_fetch_polls_for_store :
  forall (session : Session) (store_id : string)
         (window_start window_end margin : Z),
    Sorted by_timestamp
      (_fetch_polls_for_store session store_id window_start window_end margin)
    /\ _fetch_polls_for_store session store_id window_start window_end margin
       ≡ₚ (fun r => (timestamp_utc r, poll_status r))
          <$> filter (selected store_id (window_start - margin)
                               (window_end + margin))
                     (polls session).
Proof.
  intros s sid ws we M. split.
  - apply StronglySorted_Sorted, ChainFacts.fetch_sorted.
  - rewrite QueryFacts.fetch_filter.
    by rewrite SortFacts.sort_by_Permutation.
Qed.

(** X8. The timezone of a store is never the empty string: it is the
    default zone, or the non-empty string stored for the store. *)
Theorem X8_timezone_for_store :
  forall (session : Session) (store_id : string),
    _get_timezone_for_store session store_id <> ""
    /\ (_get_timezone_for_store session store_id = DEFAULT_TZ
        \/ exists r, r ∈ store_timezones session
                     /\ tz_store_id r = store_id
                     /\ timezone_str r
                        = Some (_get_timezone_for_store session store_id)).
Proof.
  intros s sid. unfold _get_timezone_for_store. cbv zeta.
  destruct (head _) as [r|] eqn:E; [|split; [done|by left]].
  apply head_Some_elem_of, list_elem_of_filter in E as [Hsid Hr].
  unfold Py.or_str. destruct (timezone_str r) as [z|] eqn:Ez;
    [|split; [done|by left]].
  case_decide; [split; [done|by left]|].
  split; [done|]. right. exists r. by rewrite Ez.
Qed.

(** ** The shape of the reconstruction *)

Module ShapeFacts.
Import Reconstruction.

Lemma chain_precedes (l : list (Z * Z * string)) (lo : Z) :
  chain lo l ->
  Forall (fun iv => lo <= iv.1.1) l /\ StronglySorted precedes l.
Proof.
  revert lo. induction l as [|[[s e] st] l IH]; intros lo Hc.
  { split; constructor. }
  destruct Hc as (Hlo & Hse & Hc). destruct (IH e Hc) as [Hf Hs]. split.
  - constructor; [done|]. eapply Forall_impl; [exact Hf|]. simpl. intros; lia.
  - constructor; [done|]. eapply Forall_impl; [exact Hf|]. by unfold precedes.
Qed.

(** Whatever the polls, an interval of the output is not empty and lies in
    the padded window. *)
Lemma build_in_window (polls : list poll) (ws we M : Z) :
  Forall (fun iv => ws - M <= iv.1.1 /\ iv.1.1 < iv.1.2 /\ iv.1.2 <= we + M)
         (_build_status_intervals_for_window polls ws we M).
Proof.
  rewrite ReconstructionFacts.build_is_midpoint_rule.
  apply Forall_forall. intros iv (i & _ & Hi)%list_elem_of_omap.
  unfold spec_interval in Hi. cbv zeta in Hi.
  case_decide; [|done]. injection Hi as <-. simpl. lia.
Qed.

Lemma build_length (polls : list poll) (ws we M : Z) :
  (length (_build_status_intervals_for_window polls ws we M) <= length polls)%nat.
Proof.
  pose proof (sublist_length _ _ (LabelFacts.labels_verbatim polls ws we M)) as H.
  by rewrite !length_fmap in H.
Qed.

(** The unclipped intervals tile the time from the start of interval [k]
    to the end of the last one. *)
Lemma tile (p : list poll) (M x : Z) (m k : nat) :
  (k + m = length p)%nat -> m <> 0%nat ->
  start_ p M k <= x < end__ p M (length p - 1) ->
  exists i, (k <= i < length p)%nat /\ start_ p M i <= x < end__ p M i.
Proof.
  revert k. induction m as [|m IH]; intros k Hk Hm Hx; [done|].
  destruct (decide (x < end__ p M k)) as [Hlt|Hge].
  { exists k. split; lia. }
  destruct (decide (m = 0%nat)) as [->|Hm'].
  { replace (length p - 1)%nat with k in Hx by lia. lia. }
  pose proof (ChainFacts.end_is_next_start p M k ltac:(lia)) as Hnext.
  destruct (IH (S k) ltac:(lia) Hm' ltac:(lia)) as (i & Hi & Hxi).
  exists i. split; [lia|done].
Qed.

Lemma build_precedes (p : list poll) (ws we M : Z) :
  StronglySorted by_timestamp p -> 0 <= M ->
  StronglySorted precedes (_build_status_intervals_for_window p ws we M).
Proof.
  intros p_sorted M_nonneg.
  destruct (ChainFacts.build_chain p ws we M p_sorted M_nonneg) as [lo Hc].
  by apply chain_precedes in Hc as [_ Hs].
Qed.

(** An instant between the two outer ends and inside the padded window is in
    the interval of the poll whose midpoints enclose it. *)
Lemma build_covers (p : list poll) (ws we M x : Z) :
  p <> [] ->
  t p 0 - M <= x < t p (length p - 1) + M ->
  ws - M <= x < we + M ->
  exists k iv,
    (k < length p)%nat
    /\ iv ∈ _build_status_intervals_for_window p ws we M
    /\ within iv x
    /\ iv.2 = (p !!! k).2
    /\ start_ p M k <= x < end__ p M k.
Proof.
  intros Hne Hx Hw.
  assert (length p <> 0)%nat as Hn by (by destruct p).
  destruct (tile p M x (length p) 0 ltac:(lia) Hn) as (k & Hk & Hxk).
  { unfold start_, end__, n. rewrite decide_False by lia.
    rewrite decide_False by lia. done. }
  exists k, (Z.max (start_ p M k) (ws - M), Z.min (end__ p M k) (we + M),
             (p !!! k).2).
  split; [lia|]. split; [|split; [unfold within; simpl; lia|done]].
  rewrite ReconstructionFacts.build_is_midpoint_rule.
  apply list_elem_of_omap. exists k. split; [apply elem_of_seq; unfold n; lia|].
  unfold spec_interval. cbv zeta. rewrite decide_True by lia. done.
Qed.

(** In a list of intervals that follow one another an instant is in at most
    one. *)
Lemma precedes_unique (l : list (Z * Z * string)) (x : Z) (i j : nat)
    (a b : Z * Z * string) :
  StronglySorted precedes l ->
  l !! i = Some a -> l !! j = Some b -> within a x -> within b x -> i = j.
Proof.
  intros Hs Ha Hb Hxa Hxb. unfold within in *.
  destruct (Nat.lt_trichotomy i j) as [Hlt|[->|Hlt]]; [|done|].
  - pose proof (MergeFacts.StronglySorted_lookup_lt precedes l i j a b
                  Hs Hlt Ha Hb) as H. unfold precedes in H. lia.
  - pose proof (MergeFacts.StronglySorted_lookup_lt precedes l j i b a
                  Hs Hlt Hb Ha) as H. unfold precedes in H. lia.
Qed.

End ShapeFacts.

(** X9. For polls in ascending order of timestamp and a margin that is not
    negative, the reconstructed intervals are not empty, lie inside the
    padded window [[W.start - M, W.end + M]], follow one another without
    overlap, and are at most as many as the polls. *)
Theorem X9_reconstruction_shape :
  forall (polls : list (Z * string)) (W_start W_end M : Z),
    Sorted by_timestamp polls -> 0 <= M ->
    Forall (fun iv => W_start - M <= iv.1.1 /\ iv.1.1 < iv.1.2
                      /\ iv.1.2 <= W_end + M)
           (Reconstruction._build_status_intervals_for_window
              polls W_start W_end M)
    /\ StronglySorted precedes
         (Reconstruction._build_status_intervals_for_window
            polls W_start W_end M)
    /\ (length (Reconstruction._build_status_intervals_for_window
                  polls W_start W_end M) <= length polls)%nat.
Proof.
  intros polls ws we M Hs HM.
  assert (Transitive by_timestamp) by (intros a b c; unfold by_timestamp; lia).
  apply Sorted_StronglySorted in Hs; [|done].
  split; [apply ShapeFacts.build_in_window|].
  split; [by apply ShapeFacts.build_precedes|apply ShapeFacts.build_length].
Qed.

(** Three polls an hour apart, a margin of half an hour. *)
Lemma X9_reconstruction_shape_witness :
  StronglySorted precedes
    (Reconstruction._build_status_intervals_for_window
       [(Time.hours 1, "active"); (Time.hours 2, "inactive");
        (Time.hours 3, "active")]
       0 (Time.hours 4) (Time.hours 1 / 2)).
Proof.
  refine (proj1 (proj2 (X9_reconstruction_shape
    [(Time.hours 1, "active"); (Time.hours 2, "inactive");
     (Time.hours 3, "active")] 0 (Time.hours 4) (Time.hours 1 / 2) _ _))).
  - repeat constructor; unfold by_timestamp; by vm_compute.
  - by vm_compute.
Defined.

(** X10. For a non-empty list of polls in ascending order and a margin that
    is not negative, every instant of the padded window between
    [p[0].t - M] and [p[n-1].t + M] lies in exactly one reconstructed
    interval, and that interval carries the status of the poll whose
    midpoints enclose the instant. *)
Theorem X10_reconstruction_partitions_time :
  forall (polls : list (Z * string)) (W_start W_end M x : Z),
    Sorted by_timestamp polls -> 0 <= M -> polls <> [] ->
    Reconstruction.t polls 0 - M <= x
      < Reconstruction.t polls (length polls - 1) + M ->
    W_start - M <= x < W_end + M ->
    exists (i k : nat) (iv : Z * Z * string),
      Reconstruction._build_status_intervals_for_window polls W_start W_end M
        !! i = Some iv
      /\ within iv x
      /\ (forall j iv',
            Reconstruction._build_status_intervals_for_window
              polls W_start W_end M !! j = Some iv' ->
            within iv' x -> j = i)
      /\ (k < length polls)%nat
      /\ iv.2 = (polls !!! k).2
      /\ Reconstruction.start_ polls M k <= x < Reconstruction.end__ polls M k.
Proof.
  intros polls ws we M x Hs HM Hne Hx Hw.
  assert (Transitive by_timestamp) by (intros a b c; unfold by_timestamp; lia).
  apply Sorted_StronglySorted in Hs; [|done].
  destruct (ShapeFacts.build_covers polls ws we M x Hne Hx Hw)
    as (k & iv & Hk & Hin & Hxin & Hst & Hmid).
  apply list_elem_of_lookup in Hin as [i Hi].
  exists i, k, iv. split; [done|]. split; [done|].
  split; [|split; [done|]; split; [done|]; exact Hmid].
  intros j iv' Hj Hxj.
  by apply (ShapeFacts.precedes_unique _ x j i iv' iv
              (ShapeFacts.build_precedes polls ws we M Hs HM)).
Qed.

(** The instant 01:40 among polls at 01:00, 02:00 and 03:00: it is past the
    midpoint 01:30, so it takes the status of the second poll. *)
Lemma X10_reconstruction_partitions_time_witness :
  exists (i k : nat) (iv : Z * Z * string),
    Reconstruction._build_status_intervals_for_window
      [(Time.hours 1, "active"); (Time.hours 2, "inactive");
       (Time.hours 3, "active")]
      0 (Time.hours 4) (Time.hours 1 / 2) !! i = Some iv
    /\ within iv (Time.hours 5 / 3).
Proof.
  destruct (X10_reconstruction_partitions_time
    [(Time.hours 1, "active"); (Time.hours 2, "inactive");
     (Time.hours 3, "active")] 0 (Time.hours 4) (Time.hours 1 / 2)
    (Time.hours 5 / 3)) as (i & k & iv & Hi & Hx & _).
  - repeat constructor; unfold by_timestamp; by vm_compute.
  - by vm_compute.
  - done.
  - by vm_compute.
  - by vm_compute.
  - exists i, k, iv. by split.
Defined.

(** ** The shape of the business intervals *)

Module BusinessMore.

Lemma merge_from_inside (ws we : Z) (rest : list TimeInterval) (l : TimeInterval) :
  Forall (fun b => ws <= start b /\ end_ b <= we) (l :: rest) ->
  Forall (fun b => ws <= start b /\ end_ b <= we) (merge_from l rest).
Proof.
  revert l. induction rest as [|it rest IH]; intros l Hl; [done|].
  apply Forall_cons in Hl as [Hl [Hit Hr]%Forall_cons].
  cbn [merge_from]. case_decide.
  - apply IH. constructor; [simpl; lia|done].
  - constructor; [done|]. apply IH. by constructor.
Qed.

(** Sorted and merged, intervals that are not empty and lie in a window
    stay so, and come out apart from one another. *)
Lemma sorted_merge_shape (ws we : Z) (biz : list TimeInterval) :
  Forall (fun b => ws <= start b /\ start b < end_ b /\ end_ b <= we) biz ->
  Forall (fun b => ws <= start b /\ start b < end_ b /\ end_ b <= we)
         (merge_sorted (sort_by_start biz))
  /\ StronglySorted before (merge_sorted (sort_by_start biz)).
Proof.
  intros Hbiz. apply (SortFacts.sort_by_Forall start) in Hbiz.
  pose proof (SortFacts.sort_by_sorted start biz) as Hs.
  unfold sort_by_start.
  destruct (sort_by start biz) as [|first rest]; [split; constructor|].
  rewrite MergeFacts.merge_sorted_cons.
  destruct (MergeFacts.merge_from_before rest first Hs) as [_ Hb].
  split; [|done].
  assert (Forall (fun b => ws <= start b /\ end_ b <= we) (merge_from first rest))
    as Hin.
  { apply merge_from_inside. eapply Forall_impl; [exact Hbiz|]. simpl. tauto. }
  assert (Forall (fun it => start it < end_ it) (merge_from first rest)) as Hne.
  { apply MergeFacts.merge_from_nonempty.
    eapply Forall_impl; [exact Hbiz|]. simpl. tauto. }
  rewrite Forall_forall in Hin, Hne. apply Forall_forall. intros b Hb'.
  specialize (Hin b Hb'). specialize (Hne b Hb'). tauto.
Qed.

Section Zones.
Context {zones : ZoneDatabase}.

Lemma expand_row_inside tz ws we cur_date bh it :
  expand_row tz ws we cur_date bh = Some it ->
  ws <= start it /\ start it < end_ it /\ end_ it <= we.
Proof.
  unfold expand_row. cbv zeta. case_decide; [|done].
  intros [= <-]. simpl. lia.
Qed.

Lemma business_intervals_shape session store_id ws we tz_str l :
  ws < we ->
  _get_business_intervals_for_window session store_id ws we tz_str = Some l ->
  Forall (fun b => ws <= start b /\ start b < end_ b /\ end_ b <= we) l
  /\ StronglySorted before l.
Proof.
  intros Hw. unfold _get_business_intervals_for_window. cbv zeta.
  destruct (match ZoneInfo (Py.or_str tz_str DEFAULT_TZ) with
            | Some tz => Some tz
            | None => ZoneInfo DEFAULT_TZ
            end) as [tz|]; [|done]. simpl.
  destruct (filter _ (business_hours session)) as [|bh0 bhs].
  { intros [= <-]. split; repeat constructor; simpl; lia. }
  match goal with
  | |- context [mbind ?f ?dates] => set (biz := mbind f dates)
  end.
  assert (Forall (fun b => ws <= start b /\ start b < end_ b /\ end_ b <= we) biz)
    as Hbiz.
  { subst biz. apply Forall_bind, Forall_true. intros cur_date.
    apply Forall_forall. intros it (bh & _ & Hit)%list_elem_of_omap.
    by eapply expand_row_inside. }
  clearbody biz. destruct biz as [|b0 biz'].
  { intros [= <-]. split; constructor. }
  intros [= <-]. by apply (sorted_merge_shape ws we (b0 :: biz')).
Qed.

(** A store without schedule rows is open for the whole window. *)
Lemma no_schedule_whole_window session store_id ws we tz_str l :
  Forall (fun bh => bh_store_id bh <> store_id) (business_hours session) ->
  _get_business_intervals_for_window session store_id ws we tz_str = Some l ->
  l = [mkTimeInterval ws we].
Proof.
  intros Hno. unfold _get_business_intervals_for_window. cbv zeta.
  destruct (match ZoneInfo (Py.or_str tz_str DEFAULT_TZ) with
            | Some tz => Some tz
            | None => ZoneInfo DEFAULT_TZ
            end) as [tz|]; [|done]. simpl.
  destruct (filter _ (business_hours session)) as [|bh0 bhs] eqn:E.
  { by intros [= <-]. }
  assert (bh0 ∈ filter (fun bh => bh_store_id bh = store_id)
                       (business_hours session)) as Hin by (rewrite E; left).
  apply list_elem_of_filter in Hin as [Hsid Hin].
  rewrite Forall_forall in Hno. by destruct (Hno bh0 Hin).
Qed.
End Zones.

(** Intervals that lie apart inside a window do not add up to more than the
    window. *)
Lemma total_le_window (we : Z) (l : list TimeInterval) (lo : Z) :
  lo <= we ->
  Forall (fun b => lo <= start b /\ start b < end_ b /\ end_ b <= we) l ->
  StronglySorted before l ->
  total_business_seconds l <= we - lo.
Proof.
  rewrite ComputeFacts.total_business_seconds_sum.
  revert lo. induction l as [|b l IH]; intros lo Hlo Hf Hs.
  { simpl. lia. }
  apply Forall_cons in Hf as [Hb Hf].
  apply StronglySorted_inv in Hs as [Hs Hbl].
  rewrite fmap_cons, ComputeFacts.sumZ_cons.
  assert (sumZ ((fun it => end_ it - start it) <$> l) <= we - end_ b) as Hrest.
  { apply IH; [lia| |done].
    rewrite Forall_forall in Hf, Hbl. apply Forall_forall. intros c Hc.
    specialize (Hf c Hc). specialize (Hbl c Hc). unfold before in Hbl. lia. }
  lia.
Qed.

End BusinessMore.

(** X11. With the default zone in the zone database and a window that is
    not empty, business-hours expansion returns intervals that are not
    empty, lie inside the window, and lie apart from one another in
    ascending order; for a store without schedule rows it returns the
    whole window as one interval. *)
Theorem X11_business_intervals_shape :
  forall {zones : ZoneDatabase} (session : Session) (store_id : string)
         (window_start_utc window_end_utc : Z) (tz_str : option string),
    is_Some (ZoneInfo DEFAULT_TZ) ->
    window_start_utc < window_end_utc ->
    exists biz,
      _get_business_intervals_for_window
        session store_id window_start_utc window_end_utc tz_str = Some biz
      /\ Forall (fun b => window_start_utc <= start b /\ start b < end_ b
                          /\ end_ b <= window_end_utc) biz
      /\ StronglySorted before biz
      /\ total_business_seconds biz <= window_end_utc - window_start_utc
      /\ (Forall (fun bh => bh_store_id bh <> store_id) (business_hours session) ->
          biz = [mkTimeInterval window_start_utc window_end_utc]).
Proof.
  intros zones session sid ws we tz_str Hd Hw.
  destruct (BusinessFacts.business_intervals_return session sid ws we tz_str Hd)
    as [biz Hbiz].
  destruct (BusinessMore.business_intervals_shape
              session sid ws we tz_str biz Hw Hbiz) as [Hf Hs].
  exists biz. split; [done|]. split; [done|]. split; [done|]. split.
  - apply BusinessMore.total_le_window; [lia|done..].
  - intros Hno.
    by apply (BusinessMore.no_schedule_whole_window session sid ws we tz_str).
Qed.

(** An overnight row and a morning row that touch it, over two days. *)
Lemma X11_business_intervals_shape_witness :
  exists biz,
    @_get_business_intervals_for_window fixed_zones
      (mkSession []
         [mkBusinessHour "D" 4 (Time.hours 22) (Time.hours 2);
          mkBusinessHour "D" 5 (Time.hours 2) (Time.hours 6)] [])
      "D" (Time.days 12) (Time.days 14) (Some "UTC") = Some biz
    /\ StronglySorted before biz.
Proof.
  destruct (X11_business_intervals_shape (zones := fixed_zones)
    (mkSession []
       [mkBusinessHour "D" 4 (Time.hours 22) (Time.hours 2);
        mkBusinessHour "D" 5 (Time.hours 2) (Time.hours 6)] [])
    "D" (Time.days 12) (Time.days 14) (Some "UTC"))
    as (biz & Hbiz & _ & Hs & _).
  - by eexists.
  - by vm_compute.
  - exists biz. by split.
Defined.

(** ** The zone of the expansion *)

Module ZoneFacts.

(** [bh_by_dow]: the rows of a day of the week. *)
Lemma bh_by_dow_spec (rows : list BusinessHour) (m : gmap Z (list BusinessHour))
    (k : Z) (bh : BusinessHour) :
  bh ∈ default [] (foldl (fun m bh =>
                            <[ day_of_week bh
                               := default [] (m !! day_of_week bh) ++ [bh] ]> m)
                         m rows !! k)
  <-> bh ∈ default [] (m !! k) \/ (bh ∈ rows /\ day_of_week bh = k).
Proof.
  revert m. induction rows as [|r rows IH]; intros m.
  { cbn [foldl]. split; [by left|]. intros [?|[H _]]; [done|].
    by apply elem_of_nil in H. }
  cbn [foldl]. rewrite IH, elem_of_cons.
  destruct (decide (day_of_week r = k)) as [<-|Hk].
  - rewrite lookup_insert_eq.
    change (default [] (Some ?l)) with l.
    rewrite elem_of_app, list_elem_of_singleton.
    split.
    + intros [[? | ->] | [? ?]]; auto.
    + intros [? | [[-> | ?] ?]]; auto.
  - rewrite lookup_insert_ne by done. split.
    + intros [?|[? ?]]; auto.
    + intros [? | [[-> | ?] ?]]; auto. done.
Qed.

(** Sorting and merging keep the instants covered. *)
Lemma sorted_merge_covers (biz : list TimeInterval) (x : Z) :
  union_covers (merge_sorted (sort_by_start biz)) x <-> union_covers biz x.
Proof.
  pose proof (SortFacts.sort_by_sorted start biz) as Hs.
  pose proof (SortFacts.sort_by_Permutation start biz) as Hp.
  unfold sort_by_start, union_covers.
  transitivity (Exists (fun it => covers it x) (sort_by start biz)).
  - destruct (sort_by start biz) as [|first rest]; [done|].
    rewrite MergeFacts.merge_sorted_cons.
    apply (MergeFacts.merge_from_covers rest first x Hs).
  - rewrite !Exists_exists. by setoid_rewrite Hp.
Qed.

Section Zones.
Context {zones : ZoneDatabase}.

(** The instants a row keeps on a date are those of the window between
    its start and its end. *)
Lemma expand_row_covers tz ws we d bh x :
  (exists it, expand_row tz ws we d bh = Some it /\ covers it x)
  <-> ws <= x < we
      /\ utc_of_local tz (Py.combine d (start_time_local bh)) <= x
         < utc_of_local tz
             (if decide (Py.combine d (end_time_local bh)
                         <= Py.combine d (start_time_local bh))
              then Py.combine d (end_time_local bh) + Time.days 1
              else Py.combine d (end_time_local bh)).
Proof.
  unfold expand_row, covers. cbv zeta.
  set (s := utc_of_local tz _). set (e := utc_of_local tz _).
  case_decide as Hne.
  - split.
    + intros (it & [= <-] & Hx). simpl in Hx. lia.
    + intros Hx. eexists. split; [done|]. simpl. lia.
  - split; [by intros (it & ? & _)|]. lia.
Qed.

(** An unknown zone key resolves to the default zone. *)
Lemma resolve_unknown (tz_str : string) (tz0 : tzinfo) :
  ZoneInfo tz_str = None -> ZoneInfo DEFAULT_TZ = Some tz0 ->
  match ZoneInfo (Py.or_str (Some tz_str) DEFAULT_TZ) with
  | Some tz => Some tz
  | None => ZoneInfo DEFAULT_TZ
  end = Some tz0.
Proof.
  intros Hz H0. unfold Py.or_str. case_decide; [by rewrite H0|].
  by rewrite Hz.
Qed.

(** What the expansion returns for a store with schedule rows, once the
    zone is resolved to [tz]. *)
Lemma expansion_under session store_id ws we tz_str tz :
  match ZoneInfo (Py.or_str tz_str DEFAULT_TZ) with
  | Some tz => Some tz
  | None => ZoneInfo DEFAULT_TZ
  end = Some tz ->
  Exists (fun bh => bh_store_id bh = store_id) (business_hours session) ->
  exists biz,
    _get_business_intervals_for_window session store_id ws we tz_str = Some biz
    /\ (forall x, union_covers biz x
                  <-> ws <= x < we /\ open_under tz session store_id ws we x)
    /\ Forall (fun b => ws <= start b /\ start b < end_ b /\ end_ b <= we) biz
    /\ StronglySorted before biz.
Proof.
  intros Htz Hrows. unfold _get_business_intervals_for_window. cbv zeta.
  rewrite Htz. simpl.
  destruct (filter (fun bh => bh_store_id bh = store_id)
                   (business_hours session)) as [|bh0 bhs] eqn:E.
  { exfalso. apply Exists_exists in Hrows as (bh & Hin & Hsid).
    assert (bh ∈ filter (fun bh => bh_store_id bh = store_id)
                        (business_hours session)) as Hbh
      by (by apply list_elem_of_filter).
    rewrite E in Hbh. by apply elem_of_nil in Hbh. }
  assert (forall bh, bh ∈ bh0 :: bhs
                     <-> bh ∈ business_hours session /\ bh_store_id bh = store_id)
    as Hmem.
  { intros bh. rewrite <- E, list_elem_of_filter. tauto. }
  clear E.
  match goal with
  | |- context [mbind ?f ?dates] => set (raw := mbind f dates)
  end.
  assert (forall x, union_covers raw x
                    <-> ws <= x < we /\ open_under tz session store_id ws we x)
    as Hraw.
  { intros x. subst raw. unfold union_covers, open_under.
    rewrite Exists_exists. split.
    - intros (it & Hit & Hx).
      apply list_elem_of_bind in Hit as (d & Hit & Hd).
      apply list_elem_of_omap in Hit as (bh & Hbh & Hit).
      apply bh_by_dow_spec in Hbh as [Hbh|[Hbh Hdow]];
        [by rewrite lookup_empty in Hbh; apply elem_of_nil in Hbh|].
      apply Hmem in Hbh as [Hbh Hsid].
      apply elem_of_seqZ in Hd.
      destruct (proj1 (expand_row_covers tz ws we d bh x)
                      (ex_intro _ it (conj Hit Hx))) as [Hw Hspan].
      split; [done|]. exists bh, d.
      split; [done|]. split; [done|]. split; [lia|]. by split.
    - intros (Hw & bh & d & Hbh & Hsid & Hd & Hdow & Hspan).
      destruct (proj2 (expand_row_covers tz ws we d bh x) (conj Hw Hspan))
        as (it & Hit & Hx).
      exists it. split; [|done].
      apply list_elem_of_bind. exists d. split; [|apply elem_of_seqZ; lia].
      apply list_elem_of_omap. exists bh. split; [|done].
      apply bh_by_dow_spec. right. split; [by apply Hmem|done]. }
  assert (Forall (fun b => ws <= start b /\ start b < end_ b /\ end_ b <= we) raw)
    as Hin.
  { subst raw. apply Forall_bind, Forall_true. intros d.
    apply Forall_forall. intros it (bh & _ & Hit)%list_elem_of_omap.
    by eapply BusinessMore.expand_row_inside. }
  clearbody raw. destruct raw as [|b0 raw'].
  { exists []. split; [done|]. split; [done|]. split; constructor. }
  exists (merge_sorted (sort_by_start (b0 :: raw'))). split; [done|].
  split.
  - intros x. by rewrite sorted_merge_covers.
  - by apply BusinessMore.sorted_merge_shape.
Qed.
End Zones.

End ZoneFacts.

(** C10. When the zone database knows [America/Chicago], business-hours
    expansion for a timezone string it does not know returns, and what it
    returns are the business intervals under [America/Chicago]: for a store
    with schedule rows, the instants covered are exactly the instants of
    the window at which the store is open when the local times of its
    schedule are read in the zone [America/Chicago], in intervals that are
    not empty, lie inside the window and lie apart in ascending order; for
    a store without schedule rows, the whole window.  It is also what the
    expansion returns when given [America/Chicago] itself. *)
Theorem C10_unknown_zone_falls_back :
  forall {zones : ZoneDatabase} (session : Session) (store_id : string)
         (window_start_utc window_end_utc : Z) (tz_str : string)
         (chicago : tzinfo),
    ZoneInfo tz_str = None ->
    ZoneInfo "America/Chicago" = Some chicago ->
    DEFAULT_TZ = "America/Chicago"
    /\ exists biz,
         _get_business_intervals_for_window
           session store_id window_start_utc window_end_utc (Some tz_str)
         = Some biz
         /\ _get_business_intervals_for_window
              session store_id window_start_utc window_end_utc
              (Some "America/Chicago")
            = Some biz
         /\ (Exists (fun bh => bh_store_id bh = store_id)
                    (business_hours session) ->
             (forall x,
                union_covers biz x
                <-> window_start_utc <= x < window_end_utc
                    /\ open_under chicago session store_id
                         window_start_utc window_end_utc x)
             /\ Forall (fun b => window_start_utc <= start b
                                 /\ start b < end_ b
                                 /\ end_ b <= window_end_utc) biz
             /\ StronglySorted before biz)
         /\ (Forall (fun bh => bh_store_id bh <> store_id)
                    (business_hours session) ->
             biz = [mkTimeInterval window_start_utc window_end_utc]).
Proof.
  intros zones session sid ws we tz_str chicago Hz Hc.
  split; [reflexivity|].
  pose proof (ZoneFacts.resolve_unknown tz_str chicago Hz Hc) as Htz.
  destruct (BusinessFacts.business_intervals_return
              session sid ws we (Some tz_str) (mk_is_Some _ _ Hc))
    as [biz Hbiz].
  exists biz. split; [done|]. split; [|split].
  - rewrite <- Hbiz. symmetry.
    exact (BusinessFacts.unknown_zone_is_default session sid ws we tz_str Hz).
  - intros Hrows.
    destruct (ZoneFacts.expansion_under session sid ws we (Some tz_str)
                chicago Htz Hrows) as (biz' & Hbiz' & Hcov & Hin & Hs).
    rewrite Hbiz in Hbiz'. injection Hbiz' as <-. done.
  - intros Hno.
    exact (BusinessMore.no_schedule_whole_window
             session sid ws we (Some tz_str) biz Hno Hbiz).
Qed.

(** A store open on Mondays from 09:00 to 17:00 whose stored zone is no
    zone key, over the 24 hours from Monday 1 January 2024, 12:00 UTC: the
    expansion returns the one interval from 15:00 to 23:00 UTC, which is
    09:00 to 17:00 in Chicago. *)
Lemma C10_unknown_zone_falls_back_witness :
  @ZoneInfo fixed_zones "Mars/Olympus_Mons" = None
  /\ @ZoneInfo fixed_zones "America/Chicago" = Some (- Time.hours 6)
  /\ exists biz,
       @_get_business_intervals_for_window fixed_zones
         (mkSession [] [mkBusinessHour "C" 0 (Time.hours 9) (Time.hours 17)]
                    [mkStoreTimezone "C" (Some "Mars/Olympus_Mons")])
         "C" (Time.days 738886 + Time.hours 12) (Time.days 738887 + Time.hours 12)
         (Some "Mars/Olympus_Mons")
       = Some biz
       /\ biz = [mkTimeInterval (Time.days 738886 + Time.hours 15)
                                (Time.days 738886 + Time.hours 23)]
       /\ forall x,
            union_covers biz x
            <-> Time.days 738886 + Time.hours 12 <= x
                < Time.days 738887 + Time.hours 12
                /\ @open_under fixed_zones (- Time.hours 6)
                     (mkSession []
                        [mkBusinessHour "C" 0 (Time.hours 9) (Time.hours 17)]
                        [mkStoreTimezone "C" (Some "Mars/Olympus_Mons")])
                     "C" (Time.days 738886 + Time.hours 12)
                     (Time.days 738887 + Time.hours 12) x.
Proof.
  split; [reflexivity|]. split; [reflexivity|].
  destruct (@C10_unknown_zone_falls_back fixed_zones
              (mkSession [] [mkBusinessHour "C" 0 (Time.hours 9) (Time.hours 17)]
                         [mkStoreTimezone "C" (Some "Mars/Olympus_Mons")])
              "C" (Time.days 738886 + Time.hours 12)
              (Time.days 738887 + Time.hours 12)
              "Mars/Olympus_Mons" (- Time.hours 6) eq_refl eq_refl)
    as (_ & biz & Hbiz & _ & Hrows & _).
  exists biz. split; [exact Hbiz|]. split.
  - vm_compute in Hbiz. injection Hbiz as <-. reflexivity.
  - apply Hrows. apply Exists_cons_hd. reflexivity.
Defined.

(** ** The aggregation of one store *)

Module AggregatorFacts.

Lemma window_start_lt (w : Window) (now_utc : Z) : window_start w now_utc < now_utc.
Proof. destruct w; unfold window_start, Time.hours, Time.days, Time.SECOND; lia. Qed.

Section Zones.
Context {zones : ZoneDatabase}.

(** What the local variables hold when the aggregation returns. *)
Lemma locals_spec (session : Session) (store_id : string) (now_utc : Z) :
  is_Some (ZoneInfo DEFAULT_TZ) ->
  exists l,
    compute_locals session store_id now_utc = Some l
    /\ status_intervals l
       = Reconstruction._build_status_intervals_for_window
           (_fetch_polls_for_store session store_id
              (now_utc - Time.days 7 - Time.days 1) (now_utc + Time.hours 1)
              (Time.hours 12))
           (now_utc - Time.days 7 - Time.days 1) (now_utc + Time.hours 1)
           (Time.hours 12)
    /\ forall w : Window,
         _get_business_intervals_for_window session store_id
           (window_start w now_utc) now_utc
           (Some (_get_timezone_for_store session store_id))
         = Some (business_of w l)
         /\ pair_of w l = _compute (status_intervals l) (business_of w l).
Proof.
  intros Hd. unfold compute_locals. cbv zeta.
  set (tz := Some (_get_timezone_for_store session store_id)).
  destruct (BusinessFacts.business_intervals_return
              session store_id (now_utc - Time.hours 1) now_utc tz Hd) as [bh Hh].
  destruct (BusinessFacts.business_intervals_return
              session store_id (now_utc - Time.hours 24) now_utc tz Hd) as [bd Hbd].
  destruct (BusinessFacts.business_intervals_return
              session store_id (now_utc - Time.days 7) now_utc tz Hd) as [bw Hw].
  rewrite Hh, Hbd, Hw. simpl. eexists. split; [reflexivity|].
  split; [reflexivity|]. by intros [| |].
Qed.

(** The local variables depend on the session only through the polls the
    query returns and the two other tables. *)
Lemma locals_ext (s s' : Session) (store_id : string) (now_utc : Z) :
  _fetch_polls_for_store s store_id
    (now_utc - Time.days 7 - Time.days 1) (now_utc + Time.hours 1) (Time.hours 12)
  = _fetch_polls_for_store s' store_id
      (now_utc - Time.days 7 - Time.days 1) (now_utc + Time.hours 1) (Time.hours 12) ->
  business_hours s = business_hours s' ->
  store_timezones s = store_timezones s' ->
  compute_locals s store_id now_utc = compute_locals s' store_id now_utc.
Proof.
  intros Hf Hb Ht. unfold compute_locals. cbv zeta. rewrite Hf.
  unfold _get_timezone_for_store, _get_business_intervals_for_window.
  by rewrite Hb, Ht.
Qed.
End Zones.

(** Sorting two arrangements of the same elements gives the same list when
    equal keys mean equal elements. *)
Lemma sort_by_unique {A} (key : A -> Z) (l l' : list A) :
  l ≡ₚ l' ->
  (forall x y, x ∈ l -> y ∈ l -> key x = key y -> x = y) ->
  sort_by key l = sort_by key l'.
Proof.
  intros Hp Hinj.
  apply (StronglySorted_unique_strong (by_key key));
    [|apply SortFacts.sort_by_sorted..|].
  - intros x y Hx Hy Hxy Hyx. unfold by_key in *.
    rewrite SortFacts.sort_by_Permutation in Hx, Hy.
    apply Hinj; [done|by rewrite Hp|lia].
  - by rewrite !SortFacts.sort_by_Permutation.
Qed.

End AggregatorFacts.

(** X12. With the default zone in the zone database, the uptime and the
    downtime the aggregation computes for a window, and their sum, never
    exceed the length of the window: one hour, 24 hours, seven days. *)
Theorem X12_pairs_within_window :
  forall {zones : ZoneDatabase} (session : Session) (store_id : string)
         (now_utc : Z),
    is_Some (ZoneInfo DEFAULT_TZ) ->
    exists l,
      compute_locals session store_id now_utc = Some l
      /\ forall w : Window,
           (pair_of w l).1 + (pair_of w l).2 <= now_utc - window_start w now_utc
           /\ (pair_of w l).1 <= now_utc - window_start w now_utc
           /\ (pair_of w l).2 <= now_utc - window_start w now_utc
           /\ now_utc - window_start LastHour now_utc = Time.hours 1
           /\ now_utc - window_start LastDay now_utc = Time.hours 24
           /\ now_utc - window_start LastWeek now_utc = Time.hours 168.
Proof.
  intros zones session sid now Hd.
  destruct (AggregatorFacts.locals_spec session sid now Hd) as (l & Hl & HS & Hw).
  exists l. split; [done|]. intros w. destruct (Hw w) as [Hb Hp].
  pose proof (AggregatorFacts.window_start_lt w now) as Hlt.
  destruct (BusinessMore.business_intervals_shape
              session sid _ now _ _ Hlt Hb) as [Hf Hs].
  pose proof (BusinessMore.total_le_window now (business_of w l)
                (window_start w now) (Z.lt_le_incl _ _ Hlt) Hf Hs) as Htot.
  assert (chain_exists : exists lo, chain lo (status_intervals l)).
  { rewrite HS. apply ChainFacts.build_chain; [apply ChainFacts.fetch_sorted|].
    by vm_compute. }
  destruct chain_exists as [lo Hc].
  destruct (ComputeFacts.compute_partition (status_intervals l)
              (business_of w l) lo Hc) as (Hu & Hdn & Hsum).
  { eapply Forall_impl; [exact Hf|]. simpl. intros; lia. }
  rewrite Hp.
  repeat split; try lia;
    unfold window_start, Time.hours, Time.days, Time.SECOND; lia.
Qed.

(** The fourth scenario of the specification. *)
Lemma X12_pairs_within_window_witness :
  exists l,
    @compute_locals fixed_zones
      (mkSession [mkPoll "D" (Time.days 13 + Time.hours 1 / 2) "active"]
                 [mkBusinessHour "D" 4 (Time.hours 22) (Time.hours 2)]
                 [mkStoreTimezone "D" (Some "UTC")])
      "D" (Time.days 13 + Time.hours 3) = Some l
    /\ (pair_of LastDay l).1 + (pair_of LastDay l).2 <= Time.hours 24.
Proof.
  destruct (X12_pairs_within_window (zones := fixed_zones)
    (mkSession [mkPoll "D" (Time.days 13 + Time.hours 1 / 2) "active"]
               [mkBusinessHour "D" 4 (Time.hours 22) (Time.hours 2)]
               [mkStoreTimezone "D" (Some "UTC")])
    "D" (Time.days 13 + Time.hours 3) ltac:(by eexists)) as (l & Hl & Hw).
  exists l. split; [exact Hl|].
  destruct (Hw LastDay) as (Hsum & _ & _ & _ & Hday & _).
  rewrite <- Hday. exact Hsum.
Defined.

(** X13. With the default zone in the zone database, a store without any
    poll has, in each window, an uptime of zero and a downtime equal to its
    whole business time in the window. *)
Theorem X13_no_polls_all_downtime :
  forall {zones : ZoneDatabase} (session : Session) (store_id : string)
         (now_utc : Z),
    is_Some (ZoneInfo DEFAULT_TZ) ->
    Forall (fun p => poll_store_id p <> store_id) (polls session) ->
    exists l,
      compute_locals session store_id now_utc = Some l
      /\ status_intervals l = []
      /\ forall w : Window,
           pair_of w l = (0, total_business_seconds (business_of w l)).
Proof.
  intros zones session sid now Hd Hno.
  destruct (AggregatorFacts.locals_spec session sid now Hd) as (l & Hl & HS & Hw).
  exists l. split; [done|].
  assert (status_intervals l = []) as HS'.
  { rewrite HS, QueryFacts.fetch_filter.
    assert (filter (selected sid (now - Time.days 7 - Time.days 1 - Time.hours 12)
                      (now + Time.hours 1 + Time.hours 12)) (polls session) = [])
      as ->; [|done].
    induction Hno as [|p ps Hp _ IH]; [done|].
    rewrite filter_cons, decide_False; [done|]. unfold selected. tauto. }
  split; [done|]. intros w. destruct (Hw w) as [Hb ->]. rewrite HS'.
  pose proof (BusinessFacts.business_intervals_ordered session sid _ now _ _
                (Z.lt_le_incl _ _ (AggregatorFacts.window_start_lt w now)) Hb)
    as Hord.
  pose proof (ComputeFacts.total_business_seconds_nonneg _ Hord).
  unfold _compute. case_decide; [|done]. f_equal. lia.
Qed.

(** The third scenario of the specification. *)
Lemma X13_no_polls_all_downtime_witness :
  exists l,
    @compute_locals fixed_zones
      (mkSession [] [mkBusinessHour "C" 0 (Time.hours 9) (Time.hours 17)]
                 [mkStoreTimezone "C" (Some "America/Chicago")])
      "C" (Time.days 9) = Some l
    /\ pair_of LastDay l = (0, total_business_seconds (business_of LastDay l)).
Proof.
  destruct (X13_no_polls_all_downtime (zones := fixed_zones)
    (mkSession [] [mkBusinessHour "C" 0 (Time.hours 9) (Time.hours 17)]
               [mkStoreTimezone "C" (Some "America/Chicago")])
    "C" (Time.days 9) ltac:(by eexists) ltac:(constructor))
    as (l & Hl & _ & Hw).
  exists l. split; [exact Hl | exact (Hw LastDay)].
Defined.

(** X14. The report row of a store does not depend on the order in which
    the polls are stored, provided the polls of the store that share a
    timestamp are equal. *)
Theorem X14_ingestion_order_is_irrelevant :
  forall {zones : ZoneDatabase} {hst : Host} (session : Session)
         (polls' : list Poll) (store_id : string) (now_utc : Z),
    polls' ≡ₚ polls session ->
    (forall p q, p ∈ polls session -> q ∈ polls session ->
       poll_store_id p = store_id -> poll_store_id q = store_id ->
       timestamp_utc p = timestamp_utc q -> p = q) ->
    let session' :=
      mkSession polls' (business_hours session) (store_timezones session) in
    compute_locals session' store_id now_utc
    = compute_locals session store_id now_utc
    /\ compute_uptime_for_store_internal session' store_id now_utc
       = compute_uptime_for_store_internal session store_id now_utc.
Proof.
  intros zones hst session polls' sid now Hp Hinj session'.
  assert (compute_locals session' sid now = compute_locals session sid now) as E.
  { apply AggregatorFacts.locals_ext; [|done..].
    rewrite !QueryFacts.fetch_filter. f_equal.
    apply AggregatorFacts.sort_by_unique; [by simpl; rewrite Hp|].
    intros p q [[Hps _] Hpin]%list_elem_of_filter
               [[Hqs _] Hqin]%list_elem_of_filter Hts.
    simpl in Hpin, Hqin. rewrite Hp in Hpin, Hqin. by apply Hinj. }
  split; [done|]. unfold compute_uptime_for_store_internal. by rewrite E.
Qed.

(** Three polls of one store, stored in two orders. *)
Lemma X14_ingestion_order_is_irrelevant_witness :
  @compute_uptime_for_store_internal fixed_zones (host 0 [])
    (mkSession [mkPoll "A" (Time.hours 3) "active";
                mkPoll "A" (Time.hours 1) "inactive";
                mkPoll "A" (Time.hours 2) "active"] [] [])
    "A" (Time.hours 3)
  = @compute_uptime_for_store_internal fixed_zones (host 0 [])
      (mkSession [mkPoll "A" (Time.hours 1) "inactive";
                  mkPoll "A" (Time.hours 2) "active";
                  mkPoll "A" (Time.hours 3) "active"] [] [])
      "A" (Time.hours 3).
Proof.
  refine (proj2 (X14_ingestion_order_is_irrelevant
    (zones := fixed_zones) (hst := host 0 [])
    (mkSession [mkPoll "A" (Time.hours 1) "inactive";
                mkPoll "A" (Time.hours 2) "active";
                mkPoll "A" (Time.hours 3) "active"] [] [])
    [mkPoll "A" (Time.hours 3) "active"; mkPoll "A" (Time.hours 1) "inactive";
     mkPoll "A" (Time.hours 2) "active"] "A" (Time.hours 3) _ _)).
  - simpl. etransitivity; [apply Permutation_swap|].
    apply Permutation_skip, Permutation_swap.
  - simpl. intros p q Hp Hq _ _.
    rewrite !elem_of_cons, !elem_of_nil in Hp, Hq.
    destruct Hp as [->|[->|[->|[]]]], Hq as [->|[->|[->|[]]]];
      by vm_compute.
Defined.

(** ** What a run changes in the [reports] table *)

Module FrameFacts.

Lemma only_progress_refl rid t : only_progress rid t t.
Proof. intros k. by destruct (t !! k). Qed.

Lemma only_progress_trans rid t1 t2 t3 :
  only_progress rid t1 t2 -> only_progress rid t2 t3 -> only_progress rid t1 t3.
Proof.
  intros H12 H23 k. specialize (H12 k). specialize (H23 k).
  destruct (t1 !! k) as [r1|], (t2 !! k) as [r2|], (t3 !! k) as [r3|];
    try done.
  destruct H12 as (Hi1 & Hs1 & Hc1 & He1), H23 as (Hi2 & Hs2 & Hc2 & He2).
  split; [congruence|]. split; [congruence|]. split; [congruence|].
  intros Hk. by rewrite (He2 Hk), (He1 Hk).
Qed.

Lemma set_percent_only_progress rid pct fin st :
  only_progress rid (reports st) (reports (set_percent rid pct fin st)).
Proof.
  unfold set_percent.
  destruct (reports st !! rid) as [rep|] eqn:E; [|apply only_progress_refl].
  simpl. intros k. destruct (decide (rid = k)) as [<-|Hne].
  - rewrite lookup_insert_eq, E. by repeat split.
  - rewrite lookup_insert_ne by done. by destruct (reports st !! k).
Qed.

Lemma set_percent_reports rid pct fin st rows' done' :
  reports (set_percent rid pct fin
             (mkProgress rows' done' (reports st) (published st)))
  = reports (set_percent rid pct fin st)
  /\ published (set_percent rid pct fin
                  (mkProgress rows' done' (reports st) (published st)))
     = published (set_percent rid pct fin st).
Proof. unfold set_percent. simpl. by destruct (reports st !! rid). Qed.

Lemma complete_one_only_progress outcome rid total st sid :
  only_progress (default "" rid) (reports st)
                (reports (complete_one outcome rid total st sid)).
Proof.
  unfold complete_one. cbv zeta.
  destruct (_ && _); [|apply only_progress_refl].
  rewrite (proj1 (set_percent_reports _ _ _ st _ _)).
  exact (set_percent_only_progress _ _ _ st).
Qed.

Lemma loop_only_progress outcome rid total (l : list string) (st : Progress) :
  only_progress (default "" rid) (reports st)
                (reports (foldl (complete_one outcome rid total) st l)).
Proof.
  revert st. induction l as [|sid l IH]; intros st; [apply only_progress_refl|].
  cbn [foldl].
  exact (only_progress_trans _ _ _ _
           (complete_one_only_progress outcome rid total st sid)
           (IH (complete_one outcome rid total st sid))).
Qed.

(** Without a report id that counts as true, nothing is written. *)
Lemma loop_silent outcome rid total (l : list string) (st : Progress) :
  Py.truthy rid = false ->
  reports (foldl (complete_one outcome rid total) st l) = reports st
  /\ published (foldl (complete_one outcome rid total) st l) = published st.
Proof.
  intros Hr. revert st. induction l as [|sid l IH]; intros st; [done|].
  cbn [foldl]. destruct (IH (complete_one outcome rid total st sid)) as [-> ->].
  unfold complete_one. cbv zeta. by rewrite Hr.
Qed.

Section Env.
Context {zones : ZoneDatabase} {sched : Scheduler} {hst : Host}.

Lemma generate_report_only_progress (session : Session)
    (table : gmap string Report) (out : string) (rid : option string) g :
  generate_report session table out rid = Some g ->
  only_progress (default "" rid) table (reports_after g)
  /\ (Py.truthy rid = false ->
      reports_after g = table /\ published_by_run g = []).
Proof.
  unfold generate_report. destruct (negb (writable out)); [done|]. cbv zeta.
  case_decide.
  { intros [= <-]. simpl. split; [apply only_progress_refl|done]. }
  intros [= <-]. simpl. split.
  - destruct (Py.truthy rid).
    + exact (only_progress_trans _ _ _ _
               (loop_only_progress _ _ _ _ (mkProgress [] 0 table []))
               (set_percent_only_progress _ _ _ _)).
    + exact (loop_only_progress _ _ _ _ (mkProgress [] 0 table [])).
  - intros Hr. rewrite Hr. by apply loop_silent.
Qed.

(** The store set is empty exactly when the three tables are. *)
Lemma gather_nil (session : Session) :
  _gather_store_ids session = []
  <-> polls session = [] /\ business_hours session = []
      /\ store_timezones session = [].
Proof.
  split.
  - intros E.
    assert (forall sid, ~ (sid ∈ poll_store_id <$> polls session
                           \/ sid ∈ bh_store_id <$> business_hours session
                           \/ sid ∈ tz_store_id <$> store_timezones session))
      as Hno.
    { intros sid Hsid. apply GatherFacts.gather_elem in Hsid.
      rewrite E in Hsid. by apply elem_of_nil in Hsid. }
    repeat split.
    + destruct (polls session) as [|p ps]; [done|].
      destruct (Hno (poll_store_id p)). left. simpl. left.
    + destruct (business_hours session) as [|b bs]; [done|].
      destruct (Hno (bh_store_id b)). right. left. simpl. left.
    + destruct (store_timezones session) as [|z zs]; [done|].
      destruct (Hno (tz_store_id z)). do 2 right. simpl. left.
  - intros (Hp & Hb & Ht). unfold _gather_store_ids. by rewrite Hp, Hb, Ht.
Qed.
End Env.

End FrameFacts.

(** X15. On a writable path the written file has the header only exactly
    when the polls, schedules and timezones tables are all empty; in that
    case the run publishes nothing and leaves the [reports] table as it
    was, even when a report id is given. *)
Theorem X15_header_only_file :
  forall {zones : ZoneDatabase} {sched : Scheduler} {hst : Host}
         (session : Session) (table : gmap string Report) (out : string)
         (rid : option string),
    writable out = true ->
    exists g,
      generate_report session table out rid = Some g
      /\ header (csv g) = COLUMNS
      /\ (body (csv g) = []
          <-> polls session = [] /\ business_hours session = []
              /\ store_timezones session = [])
      /\ (body (csv g) = [] ->
          reports_after g = table /\ published_by_run g = []).
Proof.
  intros zones sched hst session table out rid Hw.
  destruct (ReportFacts.generate_report_rows session table out rid Hw)
    as (g & Hg & Hh & Hb).
  exists g. split; [done|]. split; [done|].
  assert (body (csv g) = [] <-> _gather_store_ids session = []) as Hnil.
  { rewrite Hb. split.
    - intros E%fmap_nil_inv. apply Permutation_nil_r.
      rewrite <- E. symmetry. apply as_completed_perm.
    - intros ->. by rewrite ReportFacts.as_completed_nil. }
  split; [by rewrite Hnil, FrameFacts.gather_nil|].
  intros E%Hnil. revert Hg. unfold generate_report. rewrite Hw, E. simpl.
  by intros [= <-].
Qed.

(** Empty tables and a registered report. *)
Lemma X15_header_only_file_witness :
  exists g,
    @generate_report fixed_zones lifo (host 0 []) (mkSession [] [] [])
      {[ "r" := mkReport "r" "Running" 0 None None ]} "out" (Some "r") = Some g
    /\ header (csv g) = COLUMNS.
Proof.
  destruct (X15_header_only_file (zones := fixed_zones) (sched := lifo)
              (hst := host 0 []) (mkSession [] [] [])
              {[ "r" := mkReport "r" "Running" 0 None None ]} "out" (Some "r")
              eq_refl) as (g & Hg & Hh & _).
  exists g. by split.
Defined.

(** X16. A run of [generate_report] that returns changes nothing in the
    [reports] table but the progress of its own report: no row is added or
    removed, every row keeps its id, status and path, and the rows of other
    reports are unchanged.  Called without a report id, or with the empty
    string, it leaves the table as it was and publishes nothing. *)
Theorem X16_run_touches_only_its_progress :
  forall {zones : ZoneDatabase} {sched : Scheduler} {hst : Host}
         (session : Session) (table : gmap string Report) (out : string)
         (rid : option string),
    writable out = true ->
    exists g,
      generate_report session table out rid = Some g
      /\ only_progress (default "" rid) table (reports_after g)
      /\ (rid = None \/ rid = Some "" ->
          reports_after g = table /\ published_by_run g = []).
Proof.
  intros zones sched hst session table out rid Hw.
  destruct (ReportFacts.generate_report_rows session table out rid Hw)
    as (g & Hg & _).
  destruct (FrameFacts.generate_report_only_progress
              session table out rid g Hg) as [Hop Hsilent].
  exists g. split; [done|]. split; [done|].
  intros [-> | ->]; by apply Hsilent.
Qed.

(** Two registered reports; the run is for [r]. *)
Lemma X16_run_touches_only_its_progress_witness :
  exists g,
    @generate_report fixed_zones fifo (host 0 [])
      (mkSession [mkPoll "a" 0 "active"] [] [])
      {[ "r" := mkReport "r" "Running" 0 None None;
         "q" := mkReport "q" "Complete" (Qc_of_Z 100) (Some 5) (Some "q.csv") ]}
      "out" (Some "r") = Some g
    /\ reports_after g !! "q"
       = Some (mkReport "q" "Complete" (Qc_of_Z 100) (Some 5) (Some "q.csv")).
Proof.
  destruct (X16_run_touches_only_its_progress
              (zones := fixed_zones) (sched := fifo) (hst := host 0 [])
              (mkSession [mkPoll "a" 0 "active"] [] [])
              {[ "r" := mkReport "r" "Running" 0 None None;
                 "q" := mkReport "q" "Complete" (Qc_of_Z 100) (Some 5)
                          (Some "q.csv") ]}
              "out" (Some "r") eq_refl) as (g & Hg & Hop & _).
  exists g. split; [exact Hg|].
  specialize (Hop "q"). cbn [default] in Hop.
  rewrite lookup_insert_ne in Hop by (by intros [=]).
  rewrite lookup_singleton_eq in Hop.
  destruct (reports_after g !! "q") as [rep'|]; [|done].
  destruct Hop as (_ & _ & _ & Hsame).
  by rewrite (Hsame ltac:(by intros [=])).
Defined.

(** ** The background job and the trigger *)

Module JobFacts.
Section Env.
Context {zones : ZoneDatabase} {sched : Scheduler} {hst : Host}.

(** A run for a report that has no row leaves the table as it was. *)
Lemma only_progress_absent (rid : string) (t t' : gmap string Report) :
  only_progress rid t t' -> t !! rid = None -> t' = t.
Proof.
  intros Hop Hnone. apply map_eq. intros k. specialize (Hop k).
  destruct (decide (k = rid)) as [->|Hne].
  - rewrite Hnone in *. by destruct (t' !! rid).
  - destruct (t !! k), (t' !! k); try done.
    destruct Hop as (_ & _ & _ & ->); done.
Qed.

Lemma only_progress_other (rid k : string) (t t' : gmap string Report) :
  only_progress rid t t' -> k <> rid -> t' !! k = t !! k.
Proof.
  intros Hop Hne. specialize (Hop k).
  destruct (t !! k), (t' !! k); try done.
  destruct Hop as (_ & _ & _ & ->); done.
Qed.

(** The job in each of its four cases. *)
Lemma run_cases (session : Session) (table : gmap string Report)
    (rid out : string) :
  let job := _run_and_store session table rid out in
  match writable out, table !! rid with
  | true, Some rep =>
    exists g rep1,
      generate_report session table out (Some rid) = Some g
      /\ only_progress rid table (reports_after g)
      /\ reports_after g !! rid = Some rep1
      /\ report_id rep1 = report_id rep
      /\ job = mkJobRun
                 (<[ rid := mkReport (report_id rep1) "Complete" (Qc_of_Z 100)
                              (Some wall_clock) (Some out) ]> (reports_after g))
                 (Some (csv g)) (published_by_run g ++ [Qc_of_Z 100]) false
  | true, None =>
    exists g,
      generate_report session table out (Some rid) = Some g
      /\ job = mkJobRun table (Some (csv g)) (published_by_run g) true
  | false, Some rep =>
    job = mkJobRun
            (<[ rid := mkReport (report_id rep) "Failed" (Qc_of_Z 100)
                         (Some wall_clock) (csv_path rep) ]> table)
            None [Qc_of_Z 100] true
  | false, None => job = mkJobRun table None [] true
  end.
Proof.
  intros job. subst job. destruct (writable out) eqn:Hw.
  - destruct (ReportFacts.generate_report_rows session table out (Some rid) Hw)
      as (g & Hg & _).
    destruct (FrameFacts.generate_report_only_progress
                session table out (Some rid) g Hg) as [Hop _].
    cbn [default] in Hop. change (id rid) with rid in Hop.
    destruct (table !! rid) as [rep|] eqn:Hrep.
    + pose proof (Hop rid) as Hrid. rewrite Hrep in Hrid.
      destruct (reports_after g !! rid) as [rep1|] eqn:Hrep1; [|done].
      destruct Hrid as (Hid & _).
      exists g, rep1. repeat split; try done.
      unfold _run_and_store. by rewrite Hg, Hrep1.
    + exists g. split; [done|].
      pose proof (only_progress_absent rid table (reports_after g) Hop Hrep)
        as Heq.
      unfold _run_and_store. by rewrite Hg, Heq, Hrep.
  - destruct (table !! rid) as [rep|] eqn:Hrep.
    + by apply TableFacts.run_fails.
    + unfold _run_and_store, generate_report. rewrite Hw. simpl.
      by rewrite Hrep.
Qed.
End Env.

(** The retry loop from attempt [a] on, all earlier attempts having raised
    [SQLAlchemyError]. *)
Lemma wait_loop_spec (connect : Z -> ConnectOutcome) (n : nat) (a : Z) :
  (forall b, 1 <= b < a -> connect b = RaisesSQLAlchemyError) -> 1 <= a ->
  match wait_loop connect (seqZ a (Z.of_nat n)) (a - 1) with
  | DbReachable s =>
    a - 1 <= s < a - 1 + Z.of_nat n /\ connect (s + 1) = Connected
    /\ forall b, 1 <= b <= s -> connect b = RaisesSQLAlchemyError
  | NotReachable s =>
    s = a - 1 + Z.of_nat n
    /\ forall b, 1 <= b <= s -> connect b = RaisesSQLAlchemyError
  | Propagated s =>
    a - 1 <= s < a - 1 + Z.of_nat n /\ connect (s + 1) = RaisesOther
    /\ forall b, 1 <= b <= s -> connect b = RaisesSQLAlchemyError
  end.
Proof.
  revert a. induction n as [|n IH]; intros a Hprev Ha.
  { simpl. split; [lia|]. intros b Hb. apply Hprev. lia. }
  rewrite seqZ_cons by lia. cbn [wait_loop].
  replace (Z.pred (Z.of_nat (S n))) with (Z.of_nat n) by lia.
  destruct (connect a) eqn:Hc.
  - replace (a - 1 + 1) with a by lia.
    split; [lia|]. split; [done|]. intros b Hb. apply Hprev. lia.
  - specialize (IH (Z.succ a)).
    replace (Z.succ a - 1) with (a - 1 + 1) in IH by lia.
    assert (forall b, 1 <= b < Z.succ a -> connect b = RaisesSQLAlchemyError)
      as Hprev'.
    { intros b Hb. destruct (decide (b = a)) as [->|]; [done|].
      apply Hprev. lia. }
    specialize (IH Hprev' ltac:(lia)).
    destruct (wait_loop connect (seqZ (Z.succ a) (Z.of_nat n)) (a - 1 + 1));
      intuition lia.
  - replace (a - 1 + 1) with a by lia.
    split; [lia|]. split; [done|]. intros b Hb. apply Hprev. lia.
Qed.

End JobFacts.

(** X17. The background job in all its outcomes.  It ends without raising
    exactly when the output path is writable and the report has a row; it
    writes a file exactly when the path is writable, even if the row is
    missing; it never changes the row of another report, nor the answer
    [GET /get_report] gives for another report; without a row for its
    report it leaves the table as it was; and the row of its report ends
    with 100 percent, a finish time, and the status and path of success or
    the status of failure and its old path. *)
Theorem X17_job_outcomes :
  forall {zones : ZoneDatabase} {sched : Scheduler} {hst : Host}
         (session : Session) (table : gmap string Report) (rid out : string),
    let job := _run_and_store session table rid out in
    (raised job = false <-> writable out = true /\ is_Some (table !! rid))
    /\ (is_Some (written job) <-> writable out = true)
    /\ (forall k, k <> rid ->
          table_after job !! k = table !! k
          /\ get_report (table_after job) k = get_report table k)
    /\ (table !! rid = None -> table_after job = table)
    /\ (forall rep, table !! rid = Some rep ->
          exists rep',
            table_after job !! rid = Some rep'
            /\ report_id rep' = report_id rep
            /\ status rep' = (if writable out then "Complete" else "Failed")
            /\ percent_complete rep' = Qc_of_Z 100
            /\ finished_at rep' = Some wall_clock
            /\ csv_path rep'
               = (if writable out then Some out else csv_path rep)).
Proof.
  intros zones sched hst session table rid out job.
  pose proof (JobFacts.run_cases session table rid out) as Hcases.
  cbv zeta in Hcases. fold job in Hcases.
  assert (forall k, k <> rid -> table_after job !! k = table !! k) as Hother.
  { intros k Hne. destruct (writable out), (table !! rid) as [rep|] eqn:Hrep.
    - destruct Hcases as (g & rep1 & _ & Hop & _ & _ & ->). cbn [table_after].
      rewrite lookup_insert_ne by done.
      by apply (JobFacts.only_progress_other rid).
    - by destruct Hcases as (g & _ & ->).
    - rewrite Hcases. cbn [table_after]. by rewrite lookup_insert_ne.
    - by rewrite Hcases. }
  split; [|split; [|split; [|split]]].
  - destruct (writable out), (table !! rid) as [rep|] eqn:Hrep.
    + destruct Hcases as (g & rep1 & _ & _ & _ & _ & ->). simpl.
      split; [by eauto|done].
    + destruct Hcases as (g & _ & ->). simpl.
      split; [done|]. by intros [_ [? ?]].
    + rewrite Hcases. simpl. split; [done|]. by intros [? _].
    + rewrite Hcases. simpl. split; [done|]. by intros [? _].
  - destruct (writable out), (table !! rid) as [rep|] eqn:Hrep.
    + destruct Hcases as (g & rep1 & _ & _ & _ & _ & ->). simpl.
      split; [done|by eauto].
    + destruct Hcases as (g & _ & ->). simpl. split; [done|by eauto].
    + rewrite Hcases. simpl. split; [by intros [? ?]|done].
    + rewrite Hcases. simpl. split; [by intros [? ?]|done].
  - intros k Hne. split; [by apply Hother|].
    unfold get_report. by rewrite (Hother k Hne).
  - intros Hnone. rewrite Hnone in Hcases. destruct (writable out).
    + by destruct Hcases as (g & _ & ->).
    + by rewrite Hcases.
  - intros rep Hrep. rewrite Hrep in Hcases. destruct (writable out).
    + destruct Hcases as (g & rep1 & _ & _ & _ & Hid & ->). cbn [table_after].
      rewrite lookup_insert_eq. eexists. split; [done|]. by repeat split.
    + rewrite Hcases. cbn [table_after]. rewrite lookup_insert_eq.
      eexists. split; [done|]. by repeat split.
Qed.

(** A job for a report that was never registered, on a writable path. *)
Lemma X17_job_outcomes_witness :
  table_after
    (@_run_and_store fixed_zones fifo (host 0 [])
       (mkSession [mkPoll "a" 0 "active"] [] [])
       {[ "q" := mkReport "q" "Running" 0 None None ]} "r" "out")
  = {[ "q" := mkReport "q" "Running" 0 None None ]}.
Proof.
  refine (proj1 (proj2 (proj2 (proj2 (X17_job_outcomes
    (zones := fixed_zones) (sched := fifo) (hst := host 0 [])
    (mkSession [mkPoll "a" 0 "active"] [] [])
    {[ "q" := mkReport "q" "Running" 0 None None ]} "r" "out")))) _).
  apply lookup_singleton_ne. by intros [=].
Defined.

(** X18. [POST /trigger_report] with an id that is not in the table answers
    with that id and adds one row, with status [Running] and zero percent,
    without touching any other row; the job run for that id on a writable
    path then makes [GET /get_report] answer [Complete] with the path of
    the file. *)
Theorem X18_trigger_then_run :
  forall (table : gmap string Report) (fresh : string),
    table !! fresh = None ->
    (trigger_report fresh table).1 = {[ "report_id" := JString fresh ]}
    /\ (trigger_report fresh table).2 !! fresh
       = Some (mkReport fresh "Running" 0 None None)
    /\ size (trigger_report fresh table).2 = S (size table)
    /\ (forall k, k <> fresh ->
          (trigger_report fresh table).2 !! k = table !! k)
    /\ (forall (zones : ZoneDatabase) (sched : Scheduler) (hst : Host)
               (session : Session) (out : string),
          writable out = true ->
          get_report
            (table_after
               (_run_and_store session (trigger_report fresh table).2 fresh out))
            fresh
          = <[ "csv_path" := JString out ]> {[ "status" := JString "Complete" ]}).
Proof.
  intros table fresh Hfresh. unfold trigger_report. cbn [fst snd].
  split; [done|]. split; [apply lookup_insert_eq|].
  split; [by apply map_size_insert_None|].
  split; [intros k Hne; by apply lookup_insert_ne|].
  intros zones sched hst session out Hw.
  destruct (TableFacts.run_completes session
              (<[fresh := mkReport fresh "Running" 0 None None]> table)
              fresh out Hw) as (g & rep & _ & _ & ->).
  { rewrite lookup_insert_eq. by eexists. }
  cbn [table_after]. unfold get_report. by rewrite lookup_insert_eq.
Qed.

(** A first report in an empty table. *)
Lemma X18_trigger_then_run_witness :
  get_report
    (table_after
       (@_run_and_store fixed_zones fifo (host 0 [])
          (mkSession [mkPoll "a" 0 "active"] [] [])
          (trigger_report "r" ∅).2 "r" "/app/data/reports/r.csv"))
    "r"
  = <[ "csv_path" := JString "/app/data/reports/r.csv" ]>
      {[ "status" := JString "Complete" ]}.
Proof.
  destruct (X18_trigger_then_run ∅ "r" (lookup_empty _))
    as (_ & _ & _ & _ & Hrun).
  apply (Hrun fixed_zones fifo (host 0 [])). reflexivity.
Defined.

(** X19. [wait_for_db] makes its attempts in order and stops at the first
    that does not raise [SQLAlchemyError]: it returns when that attempt
    connects, after one sleep per failed attempt; another exception leaves
    at once; when all [max_retries] attempts raise [SQLAlchemyError] it
    raises [RuntimeError] after [max_retries] sleeps, and at once, without
    any attempt, when [max_retries] is not positive. *)
Theorem X19_wait_for_db :
  forall (connect : Z -> ConnectOutcome) (max_retries : Z),
    match wait_for_db connect max_retries with
    | DbReachable sleeps =>
      0 <= sleeps < max_retries /\ connect (sleeps + 1) = Connected
      /\ forall b, 1 <= b <= sleeps -> connect b = RaisesSQLAlchemyError
    | NotReachable sleeps =>
      sleeps = Z.max 0 max_retries
      /\ forall b, 1 <= b <= sleeps -> connect b = RaisesSQLAlchemyError
    | Propagated sleeps =>
      0 <= sleeps < max_retries /\ connect (sleeps + 1) = RaisesOther
      /\ forall b, 1 <= b <= sleeps -> connect b = RaisesSQLAlchemyError
    end.
Proof.
  intros connect max_retries. unfold wait_for_db.
  destruct (decide (max_retries <= 0)) as [Hle|Hgt].
  { rewrite seqZ_nil by done. simpl. split; [lia|]. intros b Hb. lia. }
  pose proof (JobFacts.wait_loop_spec connect (Z.to_nat max_retries) 1
                ltac:(intros; lia) ltac:(lia)) as H.
  rewrite Z2Nat.id in H by lia. change (1 - 1) with 0 in H.
  destruct (wait_loop connect (seqZ 1 max_retries) 0); intuition lia.
Qed.

(** ** Ingest *)

Module IngestFacts.

Lemma ceil_div (n step : nat) :
  (0 < step)%nat ->
  (n <= (n + step - 1) / step * step)%nat
  /\ (0 < n -> ((n + step - 1) / step - 1) * step < n)%nat
  /\ (n = 0 -> (n + step - 1) / step = 0)%nat.
Proof.
  intros Hs.
  pose proof (Nat.div_mod_eq (n + step - 1) step) as E.
  pose proof (Nat.mod_upper_bound (n + step - 1) step ltac:(lia)) as B.
  split; [nia|]. split; [nia|].
  intros ->. apply Nat.div_small. lia.
Qed.

Section Step.
Context {A : Type} (step : nat) (objs : list A).

Lemma save_loop (m j : nat) (table : list A) (total : nat) :
  foldl (fun '(table, total) i =>
           let chunk := take step (drop i objs) in
           (table ++ chunk, (total + length chunk)%nat))
        (table, total) ((fun k => k * step)%nat <$> seq j m)
  = (table ++ take (m * step) (drop (j * step) objs),
     (total + length (take (m * step) (drop (j * step) objs)))%nat).
Proof.
  revert j table total. induction m as [|m IH]; intros j table total.
  { simpl. rewrite app_nil_r. f_equal. lia. }
  cbn [seq fmap list_fmap foldl]. rewrite IH.
  replace (S j * step)%nat with (j * step + step)%nat by lia.
  rewrite <- (drop_drop objs step (j * step)).
  replace (S m * step)%nat with (step + m * step)%nat by lia.
  rewrite <- (take_take_drop (drop (j * step) objs) step (m * step)).
  rewrite <- app_assoc. f_equal. rewrite length_app. lia.
Qed.

Lemma slices_join (m j : nat) :
  mjoin ((fun k => take step (drop (k * step) objs)) <$> seq j m)
  = take (m * step) (drop (j * step) objs).
Proof.
  revert j. induction m as [|m IH]; intros j; [done|].
  cbn [seq fmap list_fmap mjoin list_join]. fold (@mjoin list _ A).
  change (list_join ?l) with (mjoin l). rewrite IH.
  replace (S j * step)%nat with (j * step + step)%nat by lia.
  rewrite <- (drop_drop objs step (j * step)).
  replace (S m * step)%nat with (step + m * step)%nat by lia.
  by rewrite take_take_drop.
Qed.
End Step.

Lemma BULK_CHUNK_pos : (0 < BULK_CHUNK)%nat.
Proof. unfold BULK_CHUNK. lia. Qed.

(** Saving in chunks appends all the objects, in order, and returns their
    number. *)
Lemma bulk_save_spec {A} (table objs : list A) :
  _bulk_save_in_chunks table objs = (table ++ objs, length objs).
Proof.
  unfold _bulk_save_in_chunks, range_step. cbv zeta.
  rewrite (save_loop BULK_CHUNK objs).
  destruct (ceil_div (length objs) BULK_CHUNK BULK_CHUNK_pos) as [Hle _].
  rewrite drop_0, take_ge by done. done.
Qed.

(** The rows a loop collects are those of the rows it does not skip, in
    the order of the file. *)
Lemma collect_omap {A} (of_row : csv_row -> option A) (reader : list csv_row) :
  collect of_row reader = omap of_row reader.
Proof.
  unfold collect.
  assert (forall rows, foldl (fun rows r =>
                                match of_row r with
                                | Some x => rows ++ [x]
                                | None => rows
                                end) rows reader
                       = rows ++ omap of_row reader) as H.
  { induction reader as [|r reader IH]; intros rows.
    { by rewrite app_nil_r. }
    cbn [foldl]. rewrite IH. csimpl.
    destruct (of_row r); [by rewrite <- app_assoc|done]. }
  apply (H []).
Qed.

Lemma length_omap_le {A B} (f : A -> option B) (l : list A) :
  (length (omap f l) <= length l)%nat.
Proof.
  induction l as [|x l IH]; [done|]. csimpl.
  destruct (f x); simpl; lia.
Qed.

Lemma truthy_Some (x : option string) :
  Py.truthy x = true <-> exists s, x = Some s /\ s <> "".
Proof.
  unfold Py.truthy. destruct x as [s|].
  - rewrite bool_decide_eq_true. split; [by eauto|]. by intros (? & [= <-] & ?).
  - split; [done|]. by intros (? & ? & ?).
Qed.

(** With distinct keys, the first row of a key is the row. *)
Lemma head_filter_NoDup {A} (key : A -> string) (l : list A) (r : A) :
  NoDup (key <$> l) -> r ∈ l ->
  head (filter (fun x => key x = key r) l) = Some r.
Proof.
  induction l as [|x l IH]; intros Hnd Hr; [by apply elem_of_nil in Hr|].
  rewrite fmap_cons in Hnd. apply NoDup_cons in Hnd as [Hx Hnd].
  rewrite filter_cons. apply elem_of_cons in Hr as [->|Hr].
  - by rewrite decide_True.
  - rewrite decide_False; [by apply IH|].
    intros E. apply Hx. rewrite E. by apply list_elem_of_fmap_2.
Qed.

End IngestFacts.

(** X20. [_bulk_save_in_chunks] saves every object exactly once and in
    order, whatever the number of objects, and returns that number; the
    slices it commits are not empty, hold at most [BULK_CHUNK] objects each,
    and put end to end give the objects back. *)
Theorem X20_bulk_save_in_chunks :
  forall {A : Type} (table objs : list A),
    _bulk_save_in_chunks table objs = (table ++ objs, length objs)
    /\ mjoin (chunks_saved objs) = objs
    /\ Forall (fun chunk => (0 < length chunk <= BULK_CHUNK)%nat)
              (chunks_saved objs)
    /\ chunks_saved (@nil A) = [].
Proof.
  intros A table objs. split; [apply IngestFacts.bulk_save_spec|].
  pose proof IngestFacts.BULK_CHUNK_pos as Hpos.
  destruct (IngestFacts.ceil_div (length objs) BULK_CHUNK Hpos)
    as (Hle & Hlt & Hzero).
  unfold chunks_saved, range_step. rewrite <- list_fmap_compose.
  split; [|split].
  - change ((fun i => take BULK_CHUNK (drop i objs)) ∘ (fun k => (k * BULK_CHUNK)%nat))
      with (fun k => take BULK_CHUNK (drop (k * BULK_CHUNK) objs)).
    rewrite (IngestFacts.slices_join BULK_CHUNK objs).
    by rewrite drop_0, take_ge.
  - apply Forall_fmap, Forall_forall. intros k [_ Hk]%elem_of_seq.
    unfold compose. rewrite length_take, length_drop.
    assert (k * BULK_CHUNK < length objs)%nat; [|lia].
    destruct (decide (length objs = 0)%nat) as [E|E]; [rewrite (Hzero E) in Hk; lia|].
    specialize (Hlt ltac:(lia)). nia.
  - unfold chunks_saved, range_step. cbn [length].
    by rewrite (proj2 (proj2 (IngestFacts.ceil_div 0 BULK_CHUNK Hpos)) eq_refl).
Qed.

Module LoaderFacts.

Lemma save_rows {A} (table rows : list A) :
  match rows with
  | [] => (table, 0%nat)
  | _ :: _ => _bulk_save_in_chunks table rows
  end = (table ++ rows, length rows).
Proof.
  destruct rows as [|x rows]; [by rewrite app_nil_r|].
  apply IngestFacts.bulk_save_spec.
Qed.

Lemma truthy_and3 (a b c : option string) :
  negb (Py.truthy a && Py.truthy b && Py.truthy c) = false
  <-> Py.truthy a = true /\ Py.truthy b = true /\ Py.truthy c = true.
Proof.
  destruct (Py.truthy a), (Py.truthy b), (Py.truthy c); simpl;
    intuition congruence.
Qed.

Lemma or_opt_truthy (x y : option string) (s : string) :
  or_opt x y = Some s /\ s <> ""
  <-> (x = Some s /\ s <> "")
      \/ (Py.truthy x = false /\ y = Some s /\ s <> "").
Proof.
  unfold or_opt. destruct (Py.truthy x) eqn:E.
  - split; [by left|]. by intros [?|[? _]].
  - split; [by right|]. intros [[-> Hs]|[_ ?]]; [|done].
    simpl in E. by apply bool_decide_eq_false in E.
Qed.

Section Rows.
Context {parsers : Parsers}.

Lemma poll_of_row_Some (r : csv_row) (p : Poll) :
  poll_of_row r = Some p
  <-> exists sid st raw ts,
        (r !! "store_id" = Some sid /\ sid <> "")
        /\ (r !! "status" = Some st /\ st <> "")
        /\ (r !! "timestamp_utc" = Some raw /\ raw <> "")
        /\ _parse_utc_timestamp raw = Some ts
        /\ p = mkPoll sid ts st.
Proof.
  unfold poll_of_row. cbv zeta.
  destruct (negb _) eqn:E.
  - split; [done|]. intros (sid & st & raw & ts & Hs & Ht & Hr & _).
    apply not_false_iff_true in E. destruct E. apply truthy_and3.
    rewrite !IngestFacts.truthy_Some.
    split; [by exists sid|]. split; [by exists st|by exists raw].
  - apply truthy_and3 in E as (H1 & H2 & H3).
    apply IngestFacts.truthy_Some in H1 as (sid & -> & Hsid).
    apply IngestFacts.truthy_Some in H2 as (st & -> & Hst).
    apply IngestFacts.truthy_Some in H3 as (raw & -> & Hraw).
    change (default "" (Some raw)) with raw.
    change (default "" (Some sid)) with sid.
    change (default "" (Some st)) with st.
    destruct (_parse_utc_timestamp raw) as [ts|] eqn:Ets; simpl.
    + split.
      * intros [= <-]. by exists sid, st, raw, ts.
      * intros (? & ? & ? & ? & [[= <-] _] & [[= <-] _] & [[= <-] _] & Hp & ->).
        rewrite Ets in Hp. by injection Hp as <-.
    + split; [done|].
      intros (? & ? & ? & ? & _ & _ & [[= <-] _] & Hp & _). congruence.
Qed.

Lemma parse_local_time_range (s : string) (t : Z) :
  _parse_local_time s = Some t -> 0 <= t < Time.days 1.
Proof.
  unfold _parse_local_time. destruct (date_parser_parse s) as [dt|]; [|done].
  simpl. intros [= <-]. apply Z.mod_pos_bound. by vm_compute.
Qed.

Lemma business_hour_of_row_Some (r : csv_row) (b : BusinessHour) :
  business_hour_of_row r = Some b ->
  r !! "store_id" = Some (bh_store_id b) /\ bh_store_id b <> ""
  /\ (exists raw,
        or_opt (r !! "dayOfWeek") (r !! "day_of_week") = Some raw
        /\ raw <> "" /\ int_of_str raw = Some (day_of_week b))
  /\ 0 <= start_time_local b < Time.days 1
  /\ 0 <= end_time_local b < Time.days 1.
Proof.
  unfold business_hour_of_row. cbv zeta.
  destruct (negb _) eqn:E; [done|].
  apply negb_false_iff in E.
  apply andb_prop in E as [E H4]. apply andb_prop in E as [E H3].
  apply andb_prop in E as [H1 H2].
  apply IngestFacts.truthy_Some in H1 as (sid & -> & Hsid).
  apply IngestFacts.truthy_Some in H2 as (dow & -> & Hdow).
  apply IngestFacts.truthy_Some in H3 as (s & -> & Hs).
  apply IngestFacts.truthy_Some in H4 as (e & -> & He).
  change (default "" (Some dow)) with dow.
  change (default "" (Some sid)) with sid.
  change (default "" (Some s)) with s.
  change (default "" (Some e)) with e.
  destruct (int_of_str dow) as [d|] eqn:Ed; [|done].
  destruct (_parse_local_time s) as [ts|] eqn:Es; [|done].
  destruct (_parse_local_time e) as [te|] eqn:Ee; [|done].
  simpl. intros [= <-]. simpl.
  split; [done|]. split; [done|]. split; [by exists dow|].
  split; by eapply parse_local_time_range.
Qed.
End Rows.

Lemma timezone_of_row_Some (r : csv_row) (z : StoreTimezone) :
  timezone_of_row r = Some z
  <-> exists sid,
        r !! "store_id" = Some sid /\ sid <> ""
        /\ z = mkStoreTimezone sid
                 (Some (Py.or_str (r !! "timezone_str") DEFAULT_TZ)).
Proof.
  unfold timezone_of_row. cbv zeta.
  destruct (negb _) eqn:E.
  - split; [done|]. intros (sid & Hs & Hne & _).
    apply negb_true_iff in E. rewrite Hs in E. simpl in E.
    by apply bool_decide_eq_false in E.
  - apply negb_false_iff, IngestFacts.truthy_Some in E as (sid & -> & Hsid).
    change (default "" (Some sid)) with sid. split.
    + intros [= <-]. by exists sid.
    + by intros (? & [= <-] & _ & ->).
Qed.

Lemma or_str_nonempty (x : option string) (d : string) :
  d <> "" -> Py.or_str x d <> "".
Proof. intros Hd. unfold Py.or_str. destruct x; [by case_decide|done]. Qed.

Lemma DEFAULT_TZ_nonempty : DEFAULT_TZ <> "".
Proof. done. Qed.

End LoaderFacts.

(** X21. [load_polls] keeps, in the order of the file, exactly the rows
    whose [store_id], [status] and [timestamp_utc] fields are present and
    not empty and whose timestamp parses, and skips every other row; it
    returns their number.  With [replace] the table holds these polls
    only, otherwise they follow the rows already there. *)
Theorem X21_load_polls :
  forall (parsers : Parsers) (table : list Poll) (reader : list csv_row)
         (replace : bool),
    load_polls table reader replace
    = ((if replace then [] else table) ++ omap poll_of_row reader,
       length (omap poll_of_row reader))
    /\ (length (omap poll_of_row reader) <= length reader)%nat
    /\ (forall (r : csv_row) (p : Poll),
          poll_of_row r = Some p
          <-> exists sid st raw ts,
                (r !! "store_id" = Some sid /\ sid <> "")
                /\ (r !! "status" = Some st /\ st <> "")
                /\ (r !! "timestamp_utc" = Some raw /\ raw <> "")
                /\ _parse_utc_timestamp raw = Some ts
                /\ p = mkPoll sid ts st)
    /\ Forall (fun p => poll_store_id p <> "" /\ poll_status p <> "")
              (omap poll_of_row reader).
Proof.
  intros parsers table reader replace. split; [|split; [|split]].
  - unfold load_polls. cbv zeta. rewrite IngestFacts.collect_omap.
    apply LoaderFacts.save_rows.
  - apply IngestFacts.length_omap_le.
  - apply LoaderFacts.poll_of_row_Some.
  - apply Forall_forall. intros p (r & _ & Hp)%list_elem_of_omap.
    apply LoaderFacts.poll_of_row_Some in Hp
      as (sid & st & raw & ts & [_ Hs] & [_ Ht] & _ & _ & ->).
    done.
Qed.

(** X22. [load_business_hours] appends, in the order of the file, the rows
    it does not skip and returns their number.  Every row it loads has a
    non-empty [store_id], a day of the week read by [int] from the
    [dayOfWeek] column, or from [day_of_week] when that one is missing or
    empty, and two times of day within [00:00, 24:00). *)
Theorem X22_load_business_hours :
  forall (parsers : Parsers) (table : list BusinessHour)
         (reader : list csv_row) (replace : bool),
    load_business_hours table reader replace
    = ((if replace then [] else table) ++ omap business_hour_of_row reader,
       length (omap business_hour_of_row reader))
    /\ Forall (fun b =>
                 bh_store_id b <> ""
                 /\ 0 <= start_time_local b < Time.days 1
                 /\ 0 <= end_time_local b < Time.days 1
                 /\ exists r raw,
                      r ∈ reader
                      /\ r !! "store_id" = Some (bh_store_id b)
                      /\ int_of_str raw = Some (day_of_week b)
                      /\ raw <> ""
                      /\ (r !! "dayOfWeek" = Some raw
                          \/ (Py.truthy (r !! "dayOfWeek") = false
                              /\ r !! "day_of_week" = Some raw)))
              (omap business_hour_of_row reader).
Proof.
  intros parsers table reader replace. split.
  - unfold load_business_hours. cbv zeta. rewrite IngestFacts.collect_omap.
    apply LoaderFacts.save_rows.
  - apply Forall_forall. intros b (r & Hr & Hb)%list_elem_of_omap.
    apply LoaderFacts.business_hour_of_row_Some in Hb
      as (Hsid & Hne & (raw & Hraw & Hrne & Hint) & Hs & He).
    split; [done|]. split; [done|]. split; [done|].
    exists r, raw. split; [done|]. split; [done|]. split; [done|].
    split; [done|].
    destruct (proj1 (LoaderFacts.or_opt_truthy _ _ raw) (conj Hraw Hrne))
      as [[? _]|(? & ? & _)]; [by left|by right].
Qed.

(** X23. [load_timezones] raises exactly when it has rows to insert and a
    [store_id] would then occur twice in the table, whose primary key it
    is.  Otherwise it appends one row for every row of the file with a
    non-empty [store_id], in the order of the file, and returns their
    number; a missing or empty [timezone_str] is stored as the default
    zone, so that no stored zone is null or empty. *)
Theorem X23_load_timezones :
  forall (table : list StoreTimezone) (reader : list csv_row)
         (replace : bool),
    load_timezones table reader replace
    = (if decide (omap timezone_of_row reader = []
                  \/ NoDup (tz_store_id
                            <$> ((if replace then [] else table)
                                 ++ omap timezone_of_row reader)))
       then Some ((if replace then [] else table)
                  ++ omap timezone_of_row reader,
                  length (omap timezone_of_row reader))
       else None)
    /\ Forall (fun z =>
                 tz_store_id z <> ""
                 /\ exists r tz,
                      r ∈ reader
                      /\ r !! "store_id" = Some (tz_store_id z)
                      /\ timezone_str z = Some tz /\ tz <> ""
                      /\ tz = Py.or_str (r !! "timezone_str") DEFAULT_TZ)
              (omap timezone_of_row reader).
Proof.
  intros table reader replace. split.
  - unfold load_timezones. cbv zeta. rewrite IngestFacts.collect_omap.
    destruct (omap timezone_of_row reader) as [|z rows] eqn:E.
    { rewrite decide_True by by left. by rewrite app_nil_r. }
    destruct (decide (NoDup _)) as [Hnd|Hnd].
    + rewrite decide_True by by right.
      by rewrite IngestFacts.bulk_save_spec.
    + rewrite decide_False; [done|]. by intros [?|?].
  - apply Forall_forall. intros z (r & Hr & Hz)%list_elem_of_omap.
    apply LoaderFacts.timezone_of_row_Some in Hz as (sid & Hsid & Hne & ->).
    simpl. split; [done|]. eexists r, _. split; [done|]. split; [done|].
    split; [done|]. split; [|done].
    apply LoaderFacts.or_str_nonempty, LoaderFacts.DEFAULT_TZ_nonempty.
Qed.

(** X24. After [load_timezones] has replaced the table, the runner finds
    for the store of every row of the file the zone of that row, and the
    default zone where the row gives none. *)
Theorem X24_loaded_zone_is_found :
  forall (session : Session) (reader : list csv_row)
         (table' : list StoreTimezone) (added : nat)
         (r : csv_row) (store_id : string),
    load_timezones (store_timezones session) reader true
    = Some (table', added) ->
    r ∈ reader ->
    r !! "store_id" = Some store_id ->
    store_id <> "" ->
    _get_timezone_for_store
      (mkSession (polls session) (business_hours session) table') store_id
    = Py.or_str (r !! "timezone_str") DEFAULT_TZ.
Proof.
  intros session reader table' added r sid Hload Hr Hsid Hne.
  unfold load_timezones in Hload. cbv zeta in Hload.
  rewrite IngestFacts.collect_omap in Hload.
  set (z := mkStoreTimezone sid
              (Some (Py.or_str (r !! "timezone_str") DEFAULT_TZ))).
  assert (z ∈ omap timezone_of_row reader) as Hz.
  { apply list_elem_of_omap. exists r. split; [done|].
    apply LoaderFacts.timezone_of_row_Some. by exists sid. }
  destruct (omap timezone_of_row reader) as [|z0 rows] eqn:E;
    [by apply elem_of_nil in Hz|].
  destruct (decide (NoDup _)) as [Hnd|]; [|done].
  rewrite IngestFacts.bulk_save_spec in Hload. injection Hload as <- _.
  unfold _get_timezone_for_store. cbv zeta. cbn [store_timezones].
  pose proof (IngestFacts.head_filter_NoDup tz_store_id _ z Hnd Hz) as Hhead.
  change (tz_store_id z) with sid in Hhead.
  change ([] ++ z0 :: rows) with (z0 :: rows) in Hhead. rewrite Hhead.
  cbn [timezone_str z]. unfold Py.or_str at 1.
  rewrite decide_False; [done|].
  apply LoaderFacts.or_str_nonempty, LoaderFacts.DEFAULT_TZ_nonempty.
Qed.

Lemma X24_loaded_zone_is_found_witness :
  _get_timezone_for_store
    (mkSession [] [] [mkStoreTimezone "a" (Some "UTC");
                      mkStoreTimezone "b" (Some DEFAULT_TZ)]) "b"
  = DEFAULT_TZ.
Proof.
  refine (X24_loaded_zone_is_found
            (mkSession [] [] [mkStoreTimezone "old" None])
            [ {[ "store_id" := "a"; "timezone_str" := "UTC" ]};
              {[ "timezone_str" := "Asia/Tokyo" ]};
              {[ "store_id" := "b"; "timezone_str" := "" ]} ]
            [mkStoreTimezone "a" (Some "UTC");
             mkStoreTimezone "b" (Some DEFAULT_TZ)] 2%nat
            {[ "store_id" := "b"; "timezone_str" := "" ]} "b" _ _ _ _).
  - vm_compute. reflexivity.
  - do 2 apply list_elem_of_further. apply list_elem_of_here.
  - vm_compute. reflexivity.
  - discriminate.
Defined.
